(** * Kavak Monitor: the verification loop of [backend/app.py] and
    [backend/app_improved.py]

    A shallow embedding of the periodic verification task of the two
    back ends of the repository:

    - [App] follows [backend/app.py] (the complete application),
    - [AppImproved] follows [backend/app_improved.py] (the variant with the
      protections against false positives: error classification, adaptive
      failure threshold, quarantine).

    Conventions of the embedding.

    - A Python [datetime] is a pair of a proleptic ordinal day (what
      [date.toordinal()] returns) and the time of day in microseconds; a
      [timedelta] is a number of microseconds and [.days] is its floor
      division by a day, as in Python.
    - A row of table [monitoramentos] is a record typed by the schema of
      [init_db]; the [updates] dictionary of [processar_monitoramento] is a
      [gmap string val]; the statement [UPDATE monitoramentos SET k = ? ...]
      built from its keys is [sql_update].
    - The outside world (clock, HTTP answers, Telegram answers) is read from
      an environment record; what the code does to the outside world (probes,
      POSTs, calls of [enviar_notificacao] with their return value) is
      returned as a trace of events.
    - The text of a notification is abstracted to its template and the
      numbers interpolated in it. *)

From Stdlib Require Import ZArith Bool PrimFloat Uint63.
From stdpp Require Import gmap strings list sorting.

Local Open Scope string_scope.
Local Open Scope list_scope.
Local Open Scope Z_scope.

(** ** Dates and times *)

Definition DAY : Z := 86400 * 1000000.
Definition HOUR : Z := 3600 * 1000000.
Definition MINUTE : Z := 60 * 1000000.

Record datetime := mkDatetime {
  dt_date : Z;   (* ordinal of the calendar date *)
  dt_tod  : Z    (* microseconds since midnight *)
}.

(** Microseconds since midnight of ordinal day 0: the scale on which
    Python compares and subtracts naive datetimes. *)
Definition micros (t : datetime) : Z := dt_date t * DAY + dt_tod t.

Definition of_micros (us : Z) : datetime := mkDatetime (us / DAY) (us mod DAY).

(** [timedelta.days] *)
Definition timedelta_days (delta : Z) : Z := delta / DAY.

(** [t + timedelta(days=n)] and [t + timedelta(minutes=n)] *)
Definition add_days (t : datetime) (n : Z) : datetime :=
  mkDatetime (dt_date t + n) (dt_tod t).
Definition add_minutes (t : datetime) (n : Z) : datetime :=
  of_micros (micros t + n * MINUTE).

(** [t1 - t2], [t1 < t2] on datetimes *)
Definition dt_sub (t1 t2 : datetime) : Z := micros t1 - micros t2.
Definition dt_ltb (t1 t2 : datetime) : bool := micros t1 <? micros t2.

(** [t.replace(hour=0, minute=0, second=0, microsecond=0)],
    [datetime.combine(d, datetime.min.time())], [t.weekday()], [t.hour] *)
Definition replace_midnight (t : datetime) : datetime := mkDatetime (dt_date t) 0.
Definition combine_min (d : Z) : datetime := mkDatetime d 0.
Definition weekday (t : datetime) : Z := (dt_date t + 6) mod 7.
Definition hour (t : datetime) : Z := dt_tod t / HOUR.

(** The text stored in column [data_venda]. The creation endpoint stores
    [data_venda.isoformat()] of a parsed date, so the stored text always
    parses; the three shapes are the ones the code distinguishes with
    ['T' in data_venda_str]. *)
Inductive iso_str :=
| IsoDate (d : Z)               (* 'YYYY-MM-DD' *)
| IsoT (d : Z) (tod : Z)        (* 'YYYY-MM-DDTHH:MM:SS[.ffffff]' *)
| IsoSep (d : Z) (tod : Z).     (* the same with another separator, e.g. a space *)

(** ['T' in s] and [s.split('T')[0]] *)
Definition contains_T (s : iso_str) : bool :=
  match s with IsoT _ _ => true | _ => false end.
Definition split_T_0 (s : iso_str) : iso_str :=
  match s with IsoT d _ => IsoDate d | _ => s end.

(** [datetime.fromisoformat] *)
Definition fromisoformat (s : iso_str) : datetime :=
  match s with
  | IsoDate d => mkDatetime d 0
  | IsoT d tod | IsoSep d tod => mkDatetime d tod
  end.

(** ** HTTP *)

(** What [requests.get] / [requests.post] can do: answer with a status
    code, or raise. [RaiseTimeout] stands for the instances of
    [requests.exceptions.Timeout] (the [except] clause tried first),
    [RaiseConnectionError msg] for the other instances of
    [requests.exceptions.ConnectionError], with [str(e) = msg]. *)
Inductive http_outcome :=
| Response (status_code : Z)
| RaiseTimeout
| RaiseConnectionError (msg : string)
| RaiseOther.

(** [needle in haystack] on Python strings *)
Fixpoint str_in (needle haystack : string) : bool :=
  String.prefix needle haystack ||
  match haystack with
  | EmptyString => false
  | String _ rest => str_in needle rest
  end.

(** ** Notifications and traces *)

(** The message templates of the verification loop, with the numbers
    they interpolate. The sale text of [app_improved.py] ends with the
    failure count ("Falhas detectadas"); the sale text of [app.py] has no
    such line. *)
Inductive mensagem :=
| MsgVenda (dias_restantes falhas : Z)       (* "Carro Vendido!", [app_improved.py] *)
| MsgVendaApp (dias_restantes : Z)           (* "Carro Vendido!", [app.py] *)
| MsgPrazo (dias_restantes : Z)              (* "Alerta de Prazo!" *)
| MsgExpirado                                (* "Monitoramento Expirado" *)
| MsgSemanal (dias_desde_venda dias_restantes : Z).  (* "Atualizacao Semanal" *)

Inductive notif_kind := KVenda | KPrazo | KExpirado | KSemanal.

Global Instance notif_kind_eq_dec : EqDecision notif_kind.
Proof. solve_decision. Defined.

Definition kind_of (m : mensagem) : notif_kind :=
  match m with
  | MsgVenda _ _ | MsgVendaApp _ => KVenda
  | MsgPrazo _ => KPrazo
  | MsgExpirado => KExpirado
  | MsgSemanal _ _ => KSemanal
  end.

Inductive event :=
| EvGet (url : string)                               (* a preflight [requests.get] *)
| EvSelect                                           (* the SELECT of the batch *)
| EvVerificarLink (link : string)                    (* a call of [verificar_link] *)
| EvTelegramPost (chat_id : string) (m : mensagem)   (* a POST to the Telegram Bot API *)
| EvNotificacao (tipo contato : string) (m : mensagem) (ok : bool).
    (* a call of [enviar_notificacao] and the value it returned *)

(** A call of [enviar_notificacao] for a message of kind [k] *)
Definition is_dispatch (k : notif_kind) (e : event) : bool :=
  match e with
  | EvNotificacao _ _ m _ => bool_decide (kind_of m = k)
  | _ => false
  end.

(** ... that returned [True] *)
Definition is_delivered (k : notif_kind) (e : event) : bool :=
  match e with
  | EvNotificacao _ _ m ok => bool_decide (kind_of m = k) && ok
  | _ => false
  end.

Definition is_post (e : event) : bool :=
  match e with EvTelegramPost _ _ => true | _ => false end.

Definition is_probe (e : event) : bool :=
  match e with EvVerificarLink _ => true | _ => false end.

Definition count_ev (p : event -> bool) (tr : list event) : nat :=
  length (filter (fun e => p e = true) tr).

(** ** Values of the [updates] dictionary *)

Inductive val :=
| VInt (z : Z)
| VStr (s : string)
| VTime (t : datetime)     (* an ISO text produced by [datetime.isoformat()] *)
| VNone.

(** [updates.get(k, default)] when the value is a number *)
Definition get_int (u : gmap string val) (k : string) (default : Z) : Z :=
  match u !! k with Some (VInt z) => z | _ => default end.

(** Columns after [UPDATE ... SET k = ?]: the new value when [k] is a key of
    [updates], the stored one otherwise. *)
Definition col_int (u : gmap string val) (k : string) (old : Z) : Z :=
  match u !! k with Some (VInt z) => z | _ => old end.
Definition col_str (u : gmap string val) (k : string) (old : string) : string :=
  match u !! k with Some (VStr s) => s | _ => old end.
Definition col_opt_str (u : gmap string val) (k : string) (old : option string)
  : option string :=
  match u !! k with Some (VStr s) => Some s | Some VNone => None | _ => old end.
Definition col_opt_time (u : gmap string val) (k : string) (old : option datetime)
  : option datetime :=
  match u !! k with Some (VTime t) => Some t | Some VNone => None | _ => old end.

(** [LIMIT n]: a negative [n] is no limit in SQLite. *)
Definition sql_limit {A} (n : Z) (l : list A) : list A :=
  if n <? 0 then l else take (Z.to_nat n) l.

(** Python truth value of an INTEGER column *)
Definition truthy (z : Z) : bool := negb (z =? 0).

(** * [backend/app_improved.py] *)

Module AppImproved.

(** ** Configuration (environment variables read at import time) *)

Record config := mkConfig {
  BATCH_SIZE : Z;
  FALHAS_PARA_VENDA : Z;
  LIMITE_FALHAS_SISTEMICAS : Z;
  QUARENTENA_MINUTOS : Z;
  TELEGRAM_BOT_TOKEN : string
}.

(** The defaults of [os.getenv], with a bot token configured. *)
Definition default_config : config :=
  {| BATCH_SIZE := 50; FALHAS_PARA_VENDA := 3; LIMITE_FALHAS_SISTEMICAS := 70;
     QUARENTENA_MINUTOS := 30; TELEGRAM_BOT_TOKEN := "123:abc" |}.

(** ** [class TipoErro(Enum)] *)

Inductive TipoErro :=
| SUCESSO | TIMEOUT | DNS_ERROR | CONNECTION_ERROR
| HTTP_404 | HTTP_500 | HTTP_OTHER | UNKNOWN.

Definition value (e : TipoErro) : string :=
  match e with
  | SUCESSO => "sucesso"
  | TIMEOUT => "timeout"
  | DNS_ERROR => "dns_error"
  | CONNECTION_ERROR => "connection_error"
  | HTTP_404 => "http_404"
  | HTTP_500 => "http_500"
  | HTTP_OTHER => "http_other"
  | UNKNOWN => "unknown"
  end.

Definition all_TipoErro : list TipoErro :=
  [SUCESSO; TIMEOUT; DNS_ERROR; CONNECTION_ERROR; HTTP_404; HTTP_500; HTTP_OTHER; UNKNOWN].

(** ** Rows of [monitoramentos] (the columns the loop reads or writes) *)

Record row := mkRow {
  row_id : Z;
  link_carro : string;
  data_venda : iso_str;
  contato : string;
  tipo_notificacao : string;
  status : string;
  carro_vendido : Z;
  notificado_venda : Z;
  notificado_prazo : Z;
  ultima_verificacao : option datetime;
  falhas_consecutivas : Z;
  ultimo_erro : option string
}.

(** [UPDATE monitoramentos SET {set_clause} WHERE id = ?] on the row it
    selects; the key ['id'] was popped and is not in the SET clause. The
    SET clause is built from the keys of the dictionary of a worker, which
    are among the columns read here (see [processar_monitoramento_chaves]
    and [app_processar_monitoramento_chaves]); the other columns are not
    named by any UPDATE of the loop. *)
Definition sql_update (updates : gmap string val) (r : row) : row :=
  {| row_id := row_id r;
     link_carro := link_carro r;
     data_venda := data_venda r;
     contato := contato r;
     tipo_notificacao := tipo_notificacao r;
     status := col_str updates "status" (status r);
     carro_vendido := col_int updates "carro_vendido" (carro_vendido r);
     notificado_venda := col_int updates "notificado_venda" (notificado_venda r);
     notificado_prazo := col_int updates "notificado_prazo" (notificado_prazo r);
     ultima_verificacao := col_opt_time updates "ultima_verificacao" (ultima_verificacao r);
     falhas_consecutivas := col_int updates "falhas_consecutivas" (falhas_consecutivas r);
     ultimo_erro := col_opt_str updates "ultimo_erro" (ultimo_erro r) |}.

(** ** Probing a link *)

Definition verificar_link_detalhado (o : http_outcome) : bool * TipoErro :=
  match o with
  | Response status_code =>
      if status_code =? 200 then (true, SUCESSO)
      else if status_code =? 404 then (false, HTTP_404)
      else if 500 <=? status_code then (false, HTTP_500)
      else (false, HTTP_OTHER)
  | RaiseTimeout => (false, TIMEOUT)
  | RaiseConnectionError e =>
      if str_in "Name or service not known" e || str_in "getaddrinfo failed" e
      then (false, DNS_ERROR)
      else (false, CONNECTION_ERROR)
  | RaiseOther => (false, UNKNOWN)
  end.

(** [verificar_link_com_cache] is memoized on the link and the 5-minute
    bucket; whatever it returns was computed by this body on the answer
    [o] of some request for the link, which is what the environment gives. *)
Definition verificar_link_com_cache (o : http_outcome) : bool * string :=
  let '(online, tipo_erro) := verificar_link_detalhado o in
  (online, value tipo_erro).

Definition verificar_link (o : http_outcome) : bool * string :=
  verificar_link_com_cache o.

(** ** Notifications *)

Definition enviar_notificacao_telegram (cfg : config)
    (post : mensagem -> http_outcome) (chat_id : string) (m : mensagem)
  : bool * list event :=
  if String.eqb (TELEGRAM_BOT_TOKEN cfg) "" then (false, [])
  else
    match post m with
    | Response status_code => (status_code =? 200, [EvTelegramPost chat_id m])
    | _ => (false, [EvTelegramPost chat_id m])
    end.

Definition enviar_notificacao_whatsapp (numero : string) (m : mensagem)
  : bool * list event :=
  (true, []).

Definition enviar_notificacao (cfg : config) (post : mensagem -> http_outcome)
    (tipo contato : string) (m : mensagem) : bool * list event :=
  let '(ok, tr) :=
    if String.eqb tipo "telegram" then enviar_notificacao_telegram cfg post contato m
    else if String.eqb tipo "whatsapp" then enviar_notificacao_whatsapp contato m
    else (false, []) in
  (ok, tr ++ [EvNotificacao tipo contato m ok]).

(** ** Processing one row *)

(** What one call of [processar_monitoramento] reads from the world: the
    clock, the answer to the probe, the answers of the Telegram API. *)
Record item_env := mkItemEnv {
  now : datetime;
  probe : http_outcome;
  telegram : mensagem -> http_outcome
}.

Definition erros_suspeitos : list string :=
  [value TIMEOUT; value DNS_ERROR; value CONNECTION_ERROR; value HTTP_500].

Definition erro_indica_problema_sistemico (tipo_erro : string) : bool :=
  bool_decide (tipo_erro ∈ erros_suspeitos).

Definition falhas_necessarias (cfg : config) (tipo_erro : string) : Z :=
  if erro_indica_problema_sistemico tipo_erro
  then FALHAS_PARA_VENDA cfg + 1 else FALHAS_PARA_VENDA cfg.

(** [(data_venda + timedelta(days=45) - datetime.now()).days] *)
Definition dias_restantes (monitoramento : row) (agora : datetime) : Z :=
  timedelta_days (dt_sub (add_days (fromisoformat (data_venda monitoramento)) 45) agora).

(** The worker. [sistema_em_quarentena] is the module global as the worker
    reads it; the local [from backend.app_improved import enviar_notificacao]
    is taken to resolve to the function of this module. With a stored
    [data_venda] that parses and INTEGER columns that are not NULL the body
    raises nowhere, so the model is a total function. *)
Definition processar_monitoramento (cfg : config) (sistema_em_quarentena : bool)
    (env : item_env) (monitoramento : row) : gmap string val * list event :=
  let mon_id := row_id monitoramento in
  let link := link_carro monitoramento in
  let updates : gmap string val :=
    {[ "id" := VInt mon_id; "ultima_verificacao" := VTime (now env) ]} in
  let dias_restantes := dias_restantes monitoramento (now env) in
  if dias_restantes <? 0 then
    (<["status" := VStr "expirado"]> updates, [])
  else
    let '(link_online, tipo_erro) := verificar_link (probe env) in
    let '(updates, tr_venda) :=
      if negb link_online then
        let falhas := falhas_consecutivas monitoramento + 1 in
        let updates := <["falhas_consecutivas" := VInt falhas]> updates in
        let updates := <["ultimo_erro" := VStr tipo_erro]> updates in
        if (falhas_necessarias cfg tipo_erro <=? falhas)
           && negb (truthy (carro_vendido monitoramento)) then
          if negb sistema_em_quarentena then
            let updates := <["carro_vendido" := VInt 1]> updates in
            if negb (truthy (notificado_venda monitoramento)) then
              let '(ok, tr) :=
                enviar_notificacao cfg (telegram env)
                  (tipo_notificacao monitoramento) (contato monitoramento)
                  (MsgVenda dias_restantes falhas) in
              (if ok then <["notificado_venda" := VInt 1]> updates else updates, tr)
            else (updates, [])
          else (updates, [])
        else (updates, [])
      else
        if 0 <? falhas_consecutivas monitoramento then
          (<["ultimo_erro" := VNone]> (<["falhas_consecutivas" := VInt 0]> updates), [])
        else (updates, []) in
    let '(updates, tr_prazo) :=
      if (dias_restantes <=? 5) && (0 <? dias_restantes)
         && negb (truthy (notificado_prazo monitoramento)) then
        let '(ok, tr) :=
          enviar_notificacao cfg (telegram env)
            (tipo_notificacao monitoramento) (contato monitoramento)
            (MsgPrazo dias_restantes) in
        (if ok then <["notificado_prazo" := VInt 1]> updates else updates, tr)
      else (updates, []) in
    (updates, EvVerificarLink link :: tr_venda ++ tr_prazo).

(** The guards of the branches of [processar_monitoramento], named for the
    statements about it. *)
Definition expirou (env : item_env) (r : row) : bool :=
  dias_restantes r (now env) <? 0.

Definition link_offline (env : item_env) : bool :=
  negb (fst (verificar_link (probe env))).

(** [falhas >= falhas_necessarias] *)
Definition falhas_suficientes (cfg : config) (env : item_env) (r : row) : bool :=
  falhas_necessarias cfg (snd (verificar_link (probe env)))
    <=? falhas_consecutivas r + 1.

(** The branch that sets [updates['carro_vendido'] = 1] *)
Definition marca_vendido (cfg : config) (q : bool) (env : item_env) (r : row) : bool :=
  negb (expirou env r) && link_offline env && falhas_suficientes cfg env r
  && negb (truthy (carro_vendido r)) && negb q.

(** The branch that calls [enviar_notificacao] with the sale message *)
Definition notifica_venda (cfg : config) (q : bool) (env : item_env) (r : row) : bool :=
  marca_vendido cfg q env r && negb (truthy (notificado_venda r)).

(** The branch that calls [enviar_notificacao] with the deadline alert *)
Definition notifica_prazo (env : item_env) (r : row) : bool :=
  negb (expirou env r)
  && (dias_restantes r (now env) <=? 5) && (0 <? dias_restantes r (now env))
  && negb (truthy (notificado_prazo r)).

(** The two calls, as [processar_monitoramento] makes them *)
Definition envio_venda (cfg : config) (env : item_env) (r : row) : bool * list event :=
  enviar_notificacao cfg (telegram env) (tipo_notificacao r) (contato r)
    (MsgVenda (dias_restantes r (now env)) (falhas_consecutivas r + 1)).

Definition envio_prazo (cfg : config) (env : item_env) (r : row) : bool * list event :=
  enviar_notificacao cfg (telegram env) (tipo_notificacao r) (contato r)
    (MsgPrazo (dias_restantes r (now env))).

(** ** The module globals [sistema_em_quarentena], [quarentena_ate] *)

Record quarentena := mkQuarentena {
  sistema_em_quarentena : bool;
  quarentena_ate : option datetime
}.

(** Module initialisation: [False], [None]. *)
Definition sem_quarentena : quarentena := mkQuarentena false None.

(** ** Table [system_health] (columns written by the loop) *)

Record health_sample := mkSample {
  total_verificados : Z;
  total_falhas : Z;
  porcentagem_falhas : float;
  sistema_saudavel : Z
}.

(** ** The state the scheduled task runs on *)

Record state := mkState {
  tabela : list row;                  (* table [monitoramentos] *)
  system_health : list health_sample; (* table [system_health], oldest first *)
  globals : quarentena
}.

(** What one run of [verificar_monitoramentos] reads from the world. *)
Record cycle_env := mkCycleEnv {
  clock_passo1 : datetime;            (* [datetime.now()] of step 1 *)
  get : string -> http_outcome;       (* answers to the preflight requests *)
  clock_passo3 : datetime;            (* [datetime.now()] of step 3 *)
  item_envs : Z -> item_env;          (* the world of each worker, by row id *)
  clock_passo6 : datetime             (* [datetime.now()] of step 6 *)
}.

(** ** Connectivity preflight *)

(** The loop shared by the two preflight functions: the sites are tried in
    order, the first answer with status 200 returns [True], any other
    answer or any exception moves on to the next site. *)
Fixpoint tentar_sites (get : string -> http_outcome) (sites : list string)
  : bool * list event :=
  match sites with
  | [] => (false, [])
  | site :: rest =>
      match get site with
      | Response status_code =>
          if status_code =? 200 then (true, [EvGet site])
          else let '(ok, tr) := tentar_sites get rest in (ok, EvGet site :: tr)
      | _ => let '(ok, tr) := tentar_sites get rest in (ok, EvGet site :: tr)
      end
  end.

Definition sites_teste : list string :=
  ["https://www.google.com"; "https://www.cloudflare.com"; "https://1.1.1.1"].

Definition verificar_conectividade_servidor (get : string -> http_outcome)
  : bool * list event :=
  tentar_sites get sites_teste.

Definition urls_teste : list string :=
  ["https://www.kavak.com/br"; "https://www.kavak.com"].

Definition verificar_saude_kavak (get : string -> http_outcome)
  : bool * list event :=
  tentar_sites get urls_teste.

(** ** The batch *)

Definition ativo (r : row) : bool := String.eqb (status r) "ativo".

(** [ORDER BY ultima_verificacao ASC]: NULL sorts first; the column holds
    [isoformat()] texts, whose order as texts is the order of the instants. *)
Definition uv_le (r1 r2 : row) : Prop :=
  match ultima_verificacao r1, ultima_verificacao r2 with
  | None, _ => True
  | Some _, None => False
  | Some t1, Some t2 => micros t1 <= micros t2
  end.

Global Instance uv_le_dec : RelDecision uv_le.
Proof.
  intros r1 r2. unfold uv_le.
  destruct (ultima_verificacao r1), (ultima_verificacao r2); apply _.
Defined.

(** [SELECT * FROM monitoramentos WHERE status = 'ativo'
     ORDER BY ultima_verificacao ASC LIMIT ?] *)
Definition selecionar (cfg : config) (db : list row) : list row :=
  sql_limit (BATCH_SIZE cfg)
    (merge_sort uv_le (filter (fun r => ativo r = true) db)).

(** [mon_id = updates.pop('id')] then the UPDATE of the rows with that id. *)
Definition executar_update (updates : gmap string val) (db : list row) : list row :=
  match updates !! "id" with
  | Some (VInt mon_id) =>
      let updates := delete "id" updates in
      map (fun r => if row_id r =? mon_id then sql_update updates r else r) db
  | _ => db
  end.

(** ** Floating point of step 6 *)

(** [float(z)] for the integers of the loop (counts and percentages, far
    below 2^53, where the conversion is exact and Python's true division of
    two integers is the division of their floats). *)
Definition z2f (z : Z) : float :=
  if z <? 0 then PrimFloat.opp (PrimFloat.of_uint63 (Uint63.of_Z (- z)))
  else PrimFloat.of_uint63 (Uint63.of_Z z).

(** [(total_falhas / len(monitoramentos)) * 100 if monitoramentos else 0] *)
Definition porcentagem (total_falhas n : Z) : float :=
  if n =? 0 then z2f 0
  else PrimFloat.mul (PrimFloat.div (z2f total_falhas) (z2f n)) (z2f 100).

(** [porcentagem_falhas >= LIMITE_FALHAS_SISTEMICAS] *)
Definition atinge_limite (cfg : config) (pct : float) : bool :=
  PrimFloat.leb (z2f (LIMITE_FALHAS_SISTEMICAS cfg)) pct.

(** ** Step 1: the quarantine check *)

Definition passo1 (agora : datetime) (q : quarentena) : quarentena :=
  if sistema_em_quarentena q then
    match quarentena_ate q with
    | Some ate => if dt_ltb agora ate then q else mkQuarentena false None
    | None => q
    end
  else q.

(** Activation, as written in steps 3 and 6. *)
Definition ativar_quarentena (cfg : config) (agora : datetime) : quarentena :=
  mkQuarentena true (Some (add_minutes agora (QUARENTENA_MINUTOS cfg))).

(** Step 3 *)
Definition passo3 (cfg : config) (agora : datetime) (kavak_online : bool)
    (q : quarentena) : quarentena :=
  if negb kavak_online then ativar_quarentena cfg agora else q.

(** Step 5: the workers. The global flag is not written while they run,
    so all of them read the value left by steps 1 and 3; the order in which
    they complete only permutes [updates_list]. *)
Definition passo5 (cfg : config) (q : quarentena) (envs : Z -> item_env)
    (monitoramentos : list row) : list (gmap string val * list event) :=
  map (fun mon =>
         processar_monitoramento cfg (sistema_em_quarentena q) (envs (row_id mon)) mon)
      monitoramentos.

(** [if updates.get('falhas_consecutivas', 0) > 0: total_falhas += 1] *)
Definition conta_falha (updates : gmap string val) : bool :=
  0 <? get_int updates "falhas_consecutivas" 0.

Definition contar_falhas (updates_list : list (gmap string val)) : Z :=
  Z.of_nat (length (filter (fun u => conta_falha u = true) updates_list)).

(** ** The scheduled task *)

Definition verificar_monitoramentos (cfg : config) (env : cycle_env) (st : state)
  : state * list event :=
  (* PASSO 1 *)
  let q := passo1 (clock_passo1 env) (globals st) in
  (* PASSO 2 *)
  let '(tem_internet, tr_internet) := verificar_conectividade_servidor (get env) in
  if negb tem_internet then
    (mkState (tabela st) (system_health st) q, tr_internet)
  else
    (* PASSO 3 *)
    let '(kavak_online, tr_kavak) := verificar_saude_kavak (get env) in
    let q := passo3 cfg (clock_passo3 env) kavak_online q in
    (* PASSO 4 *)
    let monitoramentos := selecionar cfg (tabela st) in
    match monitoramentos with
    | [] => (mkState (tabela st) (system_health st) q,
             tr_internet ++ tr_kavak ++ [EvSelect])
    | _ :: _ =>
        (* PASSO 5 *)
        let resultados := passo5 cfg q (item_envs env) monitoramentos in
        let updates_list := map fst resultados in
        let total_falhas := contar_falhas updates_list in
        (* PASSO 6 *)
        let n := Z.of_nat (length monitoramentos) in
        let porcentagem_falhas := porcentagem total_falhas n in
        let '(q, health) :=
          if atinge_limite cfg porcentagem_falhas then
            (ativar_quarentena cfg (clock_passo6 env),
             system_health st ++ [mkSample n total_falhas porcentagem_falhas 0])
          else (q, system_health st) in
        (* PASSO 7 *)
        let db := foldl (fun db updates => executar_update updates db)
                        (tabela st) updates_list in
        (mkState db health q,
         tr_internet ++ tr_kavak ++ EvSelect :: concat (map snd resultados))
    end.

(** ** One row across cycles *)

(** A run of the task as one row sees it: whether the SELECT returned the
    row, the flag the workers read, and the world of its worker. *)
Record item_cycle := mkItemCycle {
  no_lote : bool;
  em_quarentena : bool;
  mundo : item_env
}.

Definition ciclo_item (cfg : config) (c : item_cycle) (r : row) : row * list event :=
  if ativo r && no_lote c then
    let '(updates, tr) := processar_monitoramento cfg (em_quarentena c) (mundo c) r in
    (sql_update updates r, tr)
  else (r, []).

Fixpoint ciclos_item (cfg : config) (cs : list item_cycle) (r : row)
  : row * list event :=
  match cs with
  | [] => (r, [])
  | c :: cs =>
      let '(r1, tr1) := ciclo_item cfg c r in
      let '(r2, tr2) := ciclos_item cfg cs r1 in
      (r2, tr1 ++ tr2)
  end.

(** The idempotency marker of each kind of notification; this back end
    has no expiry message and no weekly message, hence no column for them. *)
Definition marcador (k : notif_kind) (r : row) : Z :=
  match k with
  | KVenda => notificado_venda r
  | KPrazo => notificado_prazo r
  | KExpirado | KSemanal => 0
  end.

(** The globals as the workers of a run find them, after steps 1 and 3. *)
Definition quarentena_workers (cfg : config) (env : cycle_env) (st : state)
  : quarentena :=
  passo3 cfg (clock_passo3 env) (fst (verificar_saude_kavak (get env)))
    (passo1 (clock_passo1 env) (globals st)).

(** The rows a worker reports as failing in this run (what step 5 counts):
    not past the deadline, probe failed, incremented counter positive. *)
Definition falhou_no_ciclo (env : item_env) (r : row) : bool :=
  negb (expirou env r) && link_offline env && (0 <? falhas_consecutivas r + 1).

(** A cycle in which the row is in the batch, the workers see no
    quarantine, the deadline has not passed and the probe fails with
    error [e]. *)
Definition falha_com (e : string) (r : row) (c : item_cycle) : Prop :=
  no_lote c = true /\ em_quarentena c = false
  /\ expirou (mundo c) r = false
  /\ verificar_link (probe (mundo c)) = (false, e).

(** A cycle that leaves a pending sale pending: the row is left out of the
    batch, or it is probed under quarantine and fails again. *)
Definition adia_venda (r : row) (c : item_cycle) : Prop :=
  no_lote c = false
  \/ (em_quarentena c = true /\ expirou (mundo c) r = false
      /\ link_offline (mundo c) = true).

End AppImproved.

(** * [backend/app.py] *)

Module App.

Record config := mkConfig {
  BATCH_SIZE : Z;
  TELEGRAM_BOT_TOKEN : string
}.

Definition default_config : config :=
  {| BATCH_SIZE := 50; TELEGRAM_BOT_TOKEN := "123:abc" |}.

Definition PRAZO_DAYS : Z := 45.

(** The text of column [ultima_notificacao_semanal], as
    [datetime.fromisoformat] sees it. *)
Inductive texto_data :=
| TextoIso (t : datetime)
| TextoInvalido.

Record row := mkRow {
  row_id : Z;
  link_carro : string;
  data_venda : iso_str;
  contato : string;
  tipo_notificacao : string;
  status : string;
  carro_vendido : Z;
  notificado_venda : Z;
  notificado_prazo : Z;
  ultima_verificacao : option datetime;
  falhas_consecutivas : Z;
  notificado_expirado : Z;
  ultima_notificacao_semanal : option texto_data
}.

Definition col_opt_texto (u : gmap string val) (k : string) (old : option texto_data)
  : option texto_data :=
  match u !! k with
  | Some (VTime t) => Some (TextoIso t)
  | Some VNone => None
  | _ => old
  end.

Definition sql_update (updates : gmap string val) (r : row) : row :=
  {| row_id := row_id r;
     link_carro := link_carro r;
     data_venda := data_venda r;
     contato := contato r;
     tipo_notificacao := tipo_notificacao r;
     status := col_str updates "status" (status r);
     carro_vendido := col_int updates "carro_vendido" (carro_vendido r);
     notificado_venda := col_int updates "notificado_venda" (notificado_venda r);
     notificado_prazo := col_int updates "notificado_prazo" (notificado_prazo r);
     ultima_verificacao := col_opt_time updates "ultima_verificacao" (ultima_verificacao r);
     falhas_consecutivas := col_int updates "falhas_consecutivas" (falhas_consecutivas r);
     notificado_expirado := col_int updates "notificado_expirado" (notificado_expirado r);
     ultima_notificacao_semanal :=
       col_opt_texto updates "ultima_notificacao_semanal" (ultima_notificacao_semanal r) |}.

(** ** Date arithmetic *)

Definition calcular_dias_restantes (agora : datetime) (data_venda_str : iso_str)
  : Z * datetime :=
  let data_venda :=
    if contains_T data_venda_str then fromisoformat (split_T_0 data_venda_str)
    else fromisoformat data_venda_str in
  let data_venda := replace_midnight data_venda in
  let data_venda_date := dt_date data_venda in
  let hoje_date := dt_date agora in
  let prazo_final_date := data_venda_date + PRAZO_DAYS in
  let prazo_final := combine_min prazo_final_date in
  let dias_restantes := prazo_final_date - hoje_date in
  let dias_restantes := Z.max 0 dias_restantes in
  (dias_restantes, prazo_final).

(** ** Notifications *)

Definition enviar_notificacao_telegram (cfg : config)
    (post : mensagem -> http_outcome) (chat_id : string) (m : mensagem)
  : bool * list event :=
  if String.eqb (TELEGRAM_BOT_TOKEN cfg) "" then (false, [])
  else
    match post m with
    | Response status_code => (status_code =? 200, [EvTelegramPost chat_id m])
    | _ => (false, [EvTelegramPost chat_id m])
    end.

Definition enviar_notificacao (cfg : config) (post : mensagem -> http_outcome)
    (tipo contato : string) (m : mensagem) : bool * list event :=
  let '(ok, tr) :=
    if String.eqb tipo "telegram" then enviar_notificacao_telegram cfg post contato m
    else (false, []) in
  (ok, tr ++ [EvNotificacao tipo contato m ok]).

(** ** Probing a link *)

Definition verificar_link_com_cache (o : http_outcome) : bool :=
  match o with
  | Response status_code => status_code =? 200
  | _ => false
  end.

Definition verificar_link (o : http_outcome) : bool := verificar_link_com_cache o.

(** ** Processing one row *)

Record item_env := mkItemEnv {
  now : datetime;
  probe : http_outcome;
  telegram : mensagem -> http_outcome
}.

(** The weekly gate: Friday between 10:00 and 10:59. *)
Definition deve_notificar_semanal (agora : datetime) (dias_desde_venda : Z)
    (ultima_notificacao : option texto_data) : bool :=
  if (weekday agora =? 4) && (hour agora =? 10) then
    match ultima_notificacao with
    | None => 1 <=? dias_desde_venda
    | Some (TextoIso ultima_data) => dt_date ultima_data <? dt_date agora
    | Some TextoInvalido => 1 <=? dias_desde_venda
    end
  else false.

Definition processar_monitoramento (cfg : config) (env : item_env)
    (monitoramento : row) : gmap string val * list event :=
  let mon_id := row_id monitoramento in
  let link := link_carro monitoramento in
  let updates : gmap string val :=
    {[ "id" := VInt mon_id; "ultima_verificacao" := VTime (now env) ]} in
  let '(dias_restantes, prazo_final) :=
    calcular_dias_restantes (now env) (data_venda monitoramento) in
  let data_venda :=
    if contains_T (data_venda monitoramento)
    then fromisoformat (split_T_0 (data_venda monitoramento))
    else fromisoformat (data_venda monitoramento) in
  let data_venda := replace_midnight data_venda in
  if dias_restantes <=? 0 then
    let updates := <["status" := VStr "expirado"]> updates in
    if negb (truthy (notificado_expirado monitoramento)) then
      let '(ok, tr) :=
        enviar_notificacao cfg (telegram env)
          (tipo_notificacao monitoramento) (contato monitoramento) MsgExpirado in
      (if ok then <["notificado_expirado" := VInt 1]> updates else updates, tr)
    else (updates, [])
  else
    let link_online := verificar_link (probe env) in
    let '(updates, tr_venda) :=
      if negb link_online then
        let falhas := falhas_consecutivas monitoramento + 1 in
        let updates := <["falhas_consecutivas" := VInt falhas]> updates in
        if (2 <=? falhas) && negb (truthy (carro_vendido monitoramento)) then
          let updates := <["carro_vendido" := VInt 1]> updates in
          if negb (truthy (notificado_venda monitoramento)) then
            let '(ok, tr) :=
              enviar_notificacao cfg (telegram env)
                (tipo_notificacao monitoramento) (contato monitoramento)
                (MsgVendaApp dias_restantes) in
            (if ok then <["notificado_venda" := VInt 1]> updates else updates, tr)
          else (updates, [])
        else (updates, [])
      else
        if 0 <? falhas_consecutivas monitoramento then
          (<["falhas_consecutivas" := VInt 0]> updates, [])
        else (updates, []) in
    let '(updates, tr_prazo) :=
      if (dias_restantes <=? 5) && (0 <? dias_restantes)
         && negb (truthy (notificado_prazo monitoramento)) then
        let '(ok, tr) :=
          enviar_notificacao cfg (telegram env)
            (tipo_notificacao monitoramento) (contato monitoramento)
            (MsgPrazo dias_restantes) in
        (if ok then <["notificado_prazo" := VInt 1]> updates else updates, tr)
      else (updates, []) in
    let '(updates, tr_semanal) :=
      if negb (truthy (carro_vendido monitoramento))
         && String.eqb (status monitoramento) "ativo" then
        let dias_desde_venda := timedelta_days (dt_sub (now env) data_venda) in
        let agora := now env in
        let ultima_notificacao := ultima_notificacao_semanal monitoramento in
        if deve_notificar_semanal agora dias_desde_venda ultima_notificacao
           && (0 <? dias_restantes) then
          let '(ok, tr) :=
            enviar_notificacao cfg (telegram env)
              (tipo_notificacao monitoramento) (contato monitoramento)
              (MsgSemanal dias_desde_venda dias_restantes) in
          (if ok then <["ultima_notificacao_semanal" := VTime (now env)]> updates
           else updates, tr)
        else (updates, [])
      else (updates, []) in
    (updates, EvVerificarLink link :: tr_venda ++ tr_prazo ++ tr_semanal).

(** The guards of the branches of [processar_monitoramento], named for the
    statements about it. *)
Definition dias_restantes (env : item_env) (r : row) : Z :=
  fst (calcular_dias_restantes (now env) (data_venda r)).

Definition data_venda_dt (r : row) : datetime :=
  replace_midnight
    (if contains_T (data_venda r) then fromisoformat (split_T_0 (data_venda r))
     else fromisoformat (data_venda r)).

Definition dias_desde_venda (env : item_env) (r : row) : Z :=
  timedelta_days (dt_sub (now env) (data_venda_dt r)).

Definition expirou (env : item_env) (r : row) : bool :=
  dias_restantes env r <=? 0.

Definition link_offline (env : item_env) : bool :=
  negb (verificar_link (probe env)).

Definition marca_vendido (env : item_env) (r : row) : bool :=
  negb (expirou env r) && link_offline env
  && (2 <=? falhas_consecutivas r + 1) && negb (truthy (carro_vendido r)).

Definition notifica_venda (env : item_env) (r : row) : bool :=
  marca_vendido env r && negb (truthy (notificado_venda r)).

Definition notifica_prazo (env : item_env) (r : row) : bool :=
  negb (expirou env r)
  && (dias_restantes env r <=? 5) && (0 <? dias_restantes env r)
  && negb (truthy (notificado_prazo r)).

Definition notifica_expirado (env : item_env) (r : row) : bool :=
  expirou env r && negb (truthy (notificado_expirado r)).

Definition notifica_semanal (env : item_env) (r : row) : bool :=
  negb (expirou env r)
  && negb (truthy (carro_vendido r)) && String.eqb (status r) "ativo"
  && deve_notificar_semanal (now env) (dias_desde_venda env r)
       (ultima_notificacao_semanal r)
  && (0 <? dias_restantes env r).

Definition envio (cfg : config) (env : item_env) (r : row) (m : mensagem)
  : bool * list event :=
  enviar_notificacao cfg (telegram env) (tipo_notificacao r) (contato r) m.

Definition envio_venda (cfg : config) (env : item_env) (r : row) :=
  envio cfg env r (MsgVendaApp (dias_restantes env r)).
Definition envio_prazo (cfg : config) (env : item_env) (r : row) :=
  envio cfg env r (MsgPrazo (dias_restantes env r)).
Definition envio_expirado (cfg : config) (env : item_env) (r : row) :=
  envio cfg env r MsgExpirado.
Definition envio_semanal (cfg : config) (env : item_env) (r : row) :=
  envio cfg env r (MsgSemanal (dias_desde_venda env r) (dias_restantes env r)).

(** ** The scheduled task *)

Definition ativo (r : row) : bool := String.eqb (status r) "ativo".

Definition uv_le (r1 r2 : row) : Prop :=
  match ultima_verificacao r1, ultima_verificacao r2 with
  | None, _ => True
  | Some _, None => False
  | Some t1, Some t2 => micros t1 <= micros t2
  end.

Global Instance uv_le_dec : RelDecision uv_le.
Proof.
  intros r1 r2. unfold uv_le.
  destruct (ultima_verificacao r1), (ultima_verificacao r2); apply _.
Defined.

Definition selecionar (cfg : config) (db : list row) : list row :=
  sql_limit (BATCH_SIZE cfg)
    (merge_sort uv_le (filter (fun r => ativo r = true) db)).

Definition executar_update (updates : gmap string val) (db : list row) : list row :=
  match updates !! "id" with
  | Some (VInt mon_id) =>
      let updates := delete "id" updates in
      map (fun r => if row_id r =? mon_id then sql_update updates r else r) db
  | _ => db
  end.

Definition verificar_monitoramentos (cfg : config) (envs : Z -> item_env)
    (db : list row) : list row * list event :=
  let monitoramentos := selecionar cfg db in
  match monitoramentos with
  | [] => (db, [EvSelect])
  | _ :: _ =>
      let resultados :=
        map (fun mon => processar_monitoramento cfg (envs (row_id mon)) mon)
            monitoramentos in
      let updates_list := map fst resultados in
      (foldl (fun db updates => executar_update updates db) db updates_list,
       EvSelect :: concat (map snd resultados))
  end.

(** ** One row across cycles *)

Record item_cycle := mkItemCycle {
  no_lote : bool;
  mundo : item_env
}.

Definition ciclo_item (cfg : config) (c : item_cycle) (r : row) : row * list event :=
  if ativo r && no_lote c then
    let '(updates, tr) := processar_monitoramento cfg (mundo c) r in
    (sql_update updates r, tr)
  else (r, []).

Fixpoint ciclos_item (cfg : config) (cs : list item_cycle) (r : row)
  : row * list event :=
  match cs with
  | [] => (r, [])
  | c :: cs =>
      let '(r1, tr1) := ciclo_item cfg c r in
      let '(r2, tr2) := ciclos_item cfg cs r1 in
      (r2, tr1 ++ tr2)
  end.

(** The idempotency marker of each kind of notification (the weekly
    message keeps a timestamp, not a flag). *)
Definition marcador (k : notif_kind) (r : row) : Z :=
  match k with
  | KVenda => notificado_venda r
  | KPrazo => notificado_prazo r
  | KExpirado => notificado_expirado r
  | KSemanal => 0
  end.

(** A row as [criar_monitoramento] inserts it: the column defaults. *)
Definition criado (r : row) : Prop :=
  status r = "ativo" /\ carro_vendido r = 0 /\ notificado_venda r = 0
  /\ notificado_prazo r = 0 /\ falhas_consecutivas r = 0
  /\ notificado_expirado r = 0 /\ ultima_notificacao_semanal r = None.

(** A row as the scheduled task can leave it. *)
Definition alcancavel (cfg : config) (r : row) : Prop :=
  exists r0 cs, criado r0 /\ r = fst (ciclos_item cfg cs r0).

End App.

(** * [backend/app.py]: rate limiting and the read endpoints *)

Module AppApi.

(** ** Table [rate_limit]

    [ip TEXT PRIMARY KEY] is the key of the map. Only [check_rate_limit]
    writes the table, and every row it writes has [ultima_tentativa]; the
    two TIMESTAMP columns hold [isoformat()] texts, which
    [datetime.fromisoformat] reads back as the instants that were written. *)
Record rate_row := mkRateRow {
  tentativas : Z;
  ultima_tentativa : datetime;
  bloqueado_ate : option datetime
}.

(** The second component of the result. The text of [MsgBloqueado] shows
    [int(restante.total_seconds() / 60)]; the embedding keeps the
    [timedelta] [bloqueado_ate - now] it is computed from. *)
Inductive rate_msg :=
| MsgVazia                        (* "" *)
| MsgBloqueado (restante : Z)     (* "IP bloqueado. Tente novamente em ... minutos" *)
| MsgLimite.                      (* "Limite de 20 tentativas por hora excedido. ..." *)

(** [t + timedelta(hours=n)] *)
Definition add_hours (t : datetime) (n : Z) : datetime :=
  of_micros (micros t + n * HOUR).

(** [bloqueado_ate and now < bloqueado_ate] *)
Definition esta_bloqueado (now : datetime) (row : rate_row) : bool :=
  match bloqueado_ate row with
  | Some ate => dt_ltb now ate
  | None => false
  end.

(** [(bloqueado_ate - now)] of a blocked row *)
Definition restante (now : datetime) (row : rate_row) : Z :=
  match bloqueado_ate row with
  | Some ate => dt_sub ate now
  | None => 0
  end.

(** [check_rate_limit(ip)], with the clock [now] it reads and the table
    before; the result and the table after. *)
Definition check_rate_limit (now : datetime) (ip : string)
    (tbl : gmap string rate_row) : (bool * rate_msg) * gmap string rate_row :=
  match tbl !! ip with
  | Some row =>
      if esta_bloqueado now row then
        ((false, MsgBloqueado (restante now row)), tbl)
      else if HOUR <? dt_sub now (ultima_tentativa row) then
        ((true, MsgVazia), <[ip := mkRateRow 1 now (bloqueado_ate row)]> tbl)
      else
        let tentativas := tentativas row + 1 in
        if 20 <? tentativas then
          ((false, MsgLimite),
           <[ip := mkRateRow tentativas now (Some (add_hours now 1))]> tbl)
        else
          ((true, MsgVazia),
           <[ip := mkRateRow tentativas now (bloqueado_ate row)]> tbl)
  | None =>
      ((true, MsgVazia), <[ip := mkRateRow 1 now None]> tbl)
  end.

(** Successive calls for one IP, at the instants [ts]. *)
Fixpoint chamadas (ip : string) (ts : list datetime) (tbl : gmap string rate_row)
  : list (bool * rate_msg) * gmap string rate_row :=
  match ts with
  | [] => ([], tbl)
  | now :: ts =>
      let '(res, tbl) := check_rate_limit now ip tbl in
      let '(rs, tbl) := chamadas ip ts tbl in
      (res :: rs, tbl)
  end.

(** Each instant of [ts] is at most one hour after the one before it,
    the first one after [t]. *)
Fixpoint em_sequencia (t : datetime) (ts : list datetime) : Prop :=
  match ts with
  | [] => True
  | t' :: ts => dt_sub t' t <= HOUR /\ em_sequencia t' ts
  end.

(** ** [GET /api/stats] *)

Record stats := mkStats {
  ativos : Z;
  vendidos : Z;
  expirados : Z;
  total : Z
}.

(** [SELECT COUNT( * ) FROM monitoramentos WHERE ...] *)
Definition count_where (p : App.row -> bool) (db : list App.row) : Z :=
  Z.of_nat (length (filter (fun r => p r = true) db)).

Definition get_stats (db : list App.row) : stats :=
  let ativos := count_where (fun r => String.eqb (App.status r) "ativo") db in
  let vendidos := count_where (fun r => App.carro_vendido r =? 1) db in
  let expirados := count_where (fun r => String.eqb (App.status r) "expirado") db in
  mkStats ativos vendidos expirados (ativos + expirados).

(** ** [GET /api/monitoramentos] *)

(** [LIMIT ? OFFSET ?]: a negative offset is no offset in SQLite. *)
Definition sql_limit_offset {A} (limit offset : Z) (l : list A) : list A :=
  sql_limit limit (drop (Z.to_nat offset) l).

(** The rows of the two queries: [WHERE status = ?] when [status] is
    given and not empty, all the rows otherwise. *)
Definition filtrar (status : option string) (db : list App.row) : list App.row :=
  match status with
  | Some s =>
      if String.eqb s "" then db
      else filter (fun r => App.status r = s) db
  | None => db
  end.

(** The JSON object of the answer; a row of [monitoramentos] is the row of
    the table with its [dias_restantes]. *)
Record pagina := mkPagina {
  monitoramentos : list (App.row * Z);
  pg_total : Z;
  pg_page : Z;
  pg_per_page : Z;
  total_pages : Z
}.

(** The integers [sqlite3] binds as parameters are signed 64-bit values;
    for a Python [int] outside that range [cursor.execute] raises
    [OverflowError]. *)
Definition INT64_MAX : Z := 9223372036854775807.

Definition sqlite_int (z : Z) : bool :=
  (- INT64_MAX - 1 <=? z) && (z <=? INT64_MAX).

(** The exceptions the view can raise; Flask answers either with status 500. *)
Inductive excecao := OverflowError | ZeroDivisionError.

(** [listar_monitoramentos] for the query arguments [page], [per_page] and
    [status] as [request.args.get] returns them ([page] and [per_page] are
    Python integers of any size). [db_desc] is the table in the order of
    [ORDER BY data_criacao DESC], rows with equal [data_criacao] in the
    order SQLite gives them in each of the queries; [agora] is the clock
    [calcular_dias_restantes] reads for each row. The first
    [cursor.execute] binds [per_page] and [offset] and raises
    [OverflowError] when one of them is not a 64-bit value; the last
    expression raises [ZeroDivisionError] when [per_page] is 0. *)
Definition listar_monitoramentos (agora : Z -> datetime) (db_desc : list App.row)
    (page per_page : Z) (status : option string) : excecao + pagina :=
  let offset := (page - 1) * per_page in
  if negb (sqlite_int per_page && sqlite_int offset) then inl OverflowError
  else
    let monitor_rows := sql_limit_offset per_page offset (filtrar status db_desc) in
    let monitoramentos :=
      map (fun row =>
             (row, fst (App.calcular_dias_restantes (agora (App.row_id row))
                          (App.data_venda row))))
          monitor_rows in
    let total := Z.of_nat (length (filtrar status db_desc)) in
    if per_page =? 0 then inl ZeroDivisionError
    else inr (mkPagina monitoramentos total page per_page
                       ((total + per_page - 1) / per_page)).

End AppApi.

(** * Properties *)

(** ** Traces *)

Lemma count_ev_nil p : count_ev p [] = 0%nat.
Proof. reflexivity. Qed.

Lemma count_ev_app p tr1 tr2 :
  count_ev p (tr1 ++ tr2) = (count_ev p tr1 + count_ev p tr2)%nat.
Proof. unfold count_ev. by rewrite filter_app, length_app. Qed.

Lemma count_ev_cons p e tr :
  count_ev p (e :: tr) = ((if p e then 1 else 0) + count_ev p tr)%nat.
Proof.
  unfold count_ev. rewrite filter_cons.
  destruct (p e); case_decide; simpl; congruence.
Qed.

Lemma count_ev_zero_Forall p tr :
  count_ev p tr = 0%nat <-> Forall (fun e => p e = false) tr.
Proof.
  induction tr as [|e tr IH].
  - split; [constructor | done].
  - rewrite count_ev_cons, Forall_cons. destruct (p e); simpl.
    + split; [lia | intros [? _]; done].
    + rewrite IH. tauto.
Qed.

(** ** The probe classifies into [TipoErro] *)

Section Probe.
Import AppImproved.

Lemma all_TipoErro_complete (e : TipoErro) : e ∈ all_TipoErro.
Proof. unfold all_TipoErro. destruct e; set_solver. Qed.

Lemma verificar_link_detalhado_online o :
  fst (verificar_link_detalhado o) = true <-> o = Response 200.
Proof.
  destruct o as [s| |msg|]; simpl.
  - destruct (Z.eqb_spec s 200) as [->|Hne]; simpl.
    + tauto.
    + split; [|intros [=]; lia].
      repeat case_match; simpl; discriminate.
  - split; discriminate.
  - split; [|discriminate]. case_match; simpl; discriminate.
  - split; discriminate.
Qed.

Lemma verificar_link_detalhado_sucesso o :
  snd (verificar_link_detalhado o) = SUCESSO <-> o = Response 200.
Proof.
  destruct o as [s| |msg|]; simpl.
  - destruct (Z.eqb_spec s 200) as [->|Hne]; simpl.
    + tauto.
    + split; [|intros [=]; lia].
      repeat case_match; simpl; discriminate.
  - split; discriminate.
  - split; [|discriminate]. case_match; simpl; discriminate.
  - split; discriminate.
Qed.

Lemma verificar_link_detalhado_http o :
  (snd (verificar_link_detalhado o) = HTTP_404 <-> o = Response 404)
  /\ (snd (verificar_link_detalhado o) = HTTP_500 <->
      exists s, o = Response s /\ 500 <= s)
  /\ (snd (verificar_link_detalhado o) = HTTP_OTHER <->
      exists s, o = Response s /\ s <> 200 /\ s <> 404 /\ s < 500).
Proof.
  destruct o as [s| |msg|]; simpl.
  - destruct (Z.eqb_spec s 200) as [->|H200]; simpl.
    { repeat split; try discriminate; intros H; try (injection H; lia);
        destruct H as (s & [= <-] & H); lia. }
    destruct (Z.eqb_spec s 404) as [->|H404]; simpl.
    { repeat split; try discriminate; try tauto; intros H;
        destruct H as (s & [= <-] & H); lia. }
    destruct (Z.leb_spec 500 s) as [H500|H500]; simpl.
    + repeat split; try discriminate; try (intros [=]; lia).
      * intros _. exists s. split; [done | lia].
      * intros (s' & [= <-] & H). lia.
    + repeat split; try discriminate; try (intros [=]; lia).
      * intros (s' & [= <-] & H). lia.
      * intros _. exists s. repeat split; [done..| lia].
  - repeat split; try discriminate; intros (s & [=] & _).
  - repeat split; try (case_match; simpl; discriminate);
      try discriminate; intros (s & [=] & _).
  - repeat split; try discriminate; intros (s & [=] & _).
Qed.

Lemma verificar_link_detalhado_raise o :
  (snd (verificar_link_detalhado o) = TIMEOUT <-> o = RaiseTimeout)
  /\ (snd (verificar_link_detalhado o) = UNKNOWN <-> o = RaiseOther)
  /\ (snd (verificar_link_detalhado o) = DNS_ERROR <->
      exists e, o = RaiseConnectionError e /\
        (str_in "Name or service not known" e
         || str_in "getaddrinfo failed" e) = true)
  /\ (snd (verificar_link_detalhado o) = CONNECTION_ERROR <->
      exists e, o = RaiseConnectionError e /\
        (str_in "Name or service not known" e
         || str_in "getaddrinfo failed" e) = false).
Proof.
  destruct o as [s| |msg|]; simpl.
  - repeat split; try (repeat case_match; simpl; discriminate);
      try discriminate; intros (e & [=] & _).
  - repeat split; try discriminate; try tauto; intros (e & [=] & _).
  - destruct (str_in "Name or service not known" msg
              || str_in "getaddrinfo failed" msg) eqn:E; simpl;
      repeat split; try discriminate; try tauto.
    + intros _. by exists msg.
    + intros (e & [= <-] & H). congruence.
    + intros (e & [= <-] & H). congruence.
    + intros _. by exists msg.
  - repeat split; try discriminate; try tauto; intros (e & [=] & _).
Qed.

Lemma app_verificar_link_online o :
  App.verificar_link o = true <-> o = Response 200.
Proof.
  destruct o as [s| |msg|]; simpl; try (split; discriminate).
  unfold App.verificar_link, App.verificar_link_com_cache.
  destruct (Z.eqb_spec s 200) as [->|Hne]; [tauto|].
  split; [discriminate | intros [=]; lia].
Qed.
End Probe.

(** C8, as the code has it. Every probe is classified into the closed
    enumeration [TipoErro] (sucesso, timeout, dns_error, connection_error,
    http_404, http_500, http_other, unknown); [http_404] is status 404
    exactly, [http_500] is any status from 500 up, [http_other] every other
    status except 200; and a response with status code exactly 200, and only
    such a response, is classified as success, in both back ends. *)
Theorem C8_probe_taxonomy :
  forall o : http_outcome,
    snd (AppImproved.verificar_link_detalhado o) ∈ AppImproved.all_TipoErro
    /\ (fst (AppImproved.verificar_link_detalhado o) = true <-> o = Response 200)
    /\ (snd (AppImproved.verificar_link_detalhado o) = AppImproved.SUCESSO
        <-> o = Response 200)
    /\ (snd (AppImproved.verificar_link_detalhado o) = AppImproved.HTTP_404
        <-> o = Response 404)
    /\ (snd (AppImproved.verificar_link_detalhado o) = AppImproved.HTTP_500
        <-> exists s, o = Response s /\ 500 <= s)
    /\ (snd (AppImproved.verificar_link_detalhado o) = AppImproved.HTTP_OTHER
        <-> exists s, o = Response s /\ s <> 200 /\ s <> 404 /\ s < 500)
    /\ (snd (AppImproved.verificar_link_detalhado o) = AppImproved.TIMEOUT
        <-> o = RaiseTimeout)
    /\ (snd (AppImproved.verificar_link_detalhado o) = AppImproved.UNKNOWN
        <-> o = RaiseOther)
    /\ (snd (AppImproved.verificar_link_detalhado o) = AppImproved.DNS_ERROR
        <-> exists e, o = RaiseConnectionError e /\
              (str_in "Name or service not known" e
               || str_in "getaddrinfo failed" e) = true)
    /\ (snd (AppImproved.verificar_link_detalhado o) = AppImproved.CONNECTION_ERROR
        <-> exists e, o = RaiseConnectionError e /\
              (str_in "Name or service not known" e
               || str_in "getaddrinfo failed" e) = false)
    /\ (App.verificar_link o = true <-> o = Response 200).
Proof.
  intros o.
  destruct (verificar_link_detalhado_http o) as (H404 & H500 & Hother).
  destruct (verificar_link_detalhado_raise o) as (Ht & Hu & Hd & Hc).
  split; [apply all_TipoErro_complete|].
  split; [apply verificar_link_detalhado_online|].
  split; [apply verificar_link_detalhado_sucesso|].
  split; [exact H404|]. split; [exact H500|]. split; [exact Hother|].
  split; [exact Ht|]. split; [exact Hu|]. split; [exact Hd|]. split; [exact Hc|].
  apply app_verificar_link_online.
Qed.

(** C8 as stated fails: 204 and 201 are in the 200 range and are classified
    [http_other], not success (and 403, a 4xx status, is [http_other] too). *)
Lemma C8_counterexample_204 :
  AppImproved.verificar_link_detalhado (Response 204)
    = (false, AppImproved.HTTP_OTHER)
  /\ AppImproved.verificar_link_detalhado (Response 201)
    = (false, AppImproved.HTTP_OTHER)
  /\ AppImproved.verificar_link_detalhado (Response 403)
    = (false, AppImproved.HTTP_OTHER)
  /\ App.verificar_link (Response 204) = false.
Proof. repeat split; reflexivity. Qed.

(** ** Dispatching a notification *)

Section Dispatch.
Import AppImproved.

Lemma enviar_notificacao_telegram_trace cfg post chat_id m :
  Forall (fun e => is_post e = true)
         (snd (enviar_notificacao_telegram cfg post chat_id m)).
Proof.
  unfold enviar_notificacao_telegram.
  repeat case_match; simpl; repeat constructor.
Qed.

(** One call leaves exactly one [EvNotificacao] carrying its return
    value, after the POSTs it made. *)
Lemma enviar_notificacao_trace cfg post tipo contato m :
  exists posts,
    snd (enviar_notificacao cfg post tipo contato m)
      = posts ++ [EvNotificacao tipo contato m
                    (fst (enviar_notificacao cfg post tipo contato m))]
    /\ Forall (fun e => is_post e = true) posts.
Proof.
  unfold enviar_notificacao.
  destruct (if String.eqb tipo "telegram"
            then enviar_notificacao_telegram cfg post contato m
            else if String.eqb tipo "whatsapp"
                 then enviar_notificacao_whatsapp contato m
                 else (false, [])) as [ok tr] eqn:E.
  exists tr. split; [reflexivity|].
  destruct (String.eqb tipo "telegram").
  - pose proof (enviar_notificacao_telegram_trace cfg post contato m) as H.
    by rewrite E in H.
  - destruct (String.eqb tipo "whatsapp"); injection E as <- <-; constructor.
Qed.

Lemma count_posts_only p posts :
  (forall e, is_post e = true -> p e = false) ->
  Forall (fun e => is_post e = true) posts -> count_ev p posts = 0%nat.
Proof.
  intros Hp H. apply count_ev_zero_Forall.
  eapply Forall_impl; [exact H | auto].
Qed.

Lemma enviar_notificacao_dispatch cfg post tipo contato m k :
  count_ev (is_dispatch k) (snd (enviar_notificacao cfg post tipo contato m))
    = if bool_decide (kind_of m = k) then 1%nat else 0%nat.
Proof.
  destruct (enviar_notificacao_trace cfg post tipo contato m) as (posts & -> & Hp).
  rewrite count_ev_app, (count_posts_only _ posts); [|by intros [] | done].
  rewrite count_ev_cons. simpl. by destruct (bool_decide _).
Qed.

Lemma enviar_notificacao_delivered cfg post tipo contato m k :
  count_ev (is_delivered k) (snd (enviar_notificacao cfg post tipo contato m))
    = if bool_decide (kind_of m = k) && fst (enviar_notificacao cfg post tipo contato m)
      then 1%nat else 0%nat.
Proof.
  destruct (enviar_notificacao_trace cfg post tipo contato m) as (posts & -> & Hp).
  rewrite count_ev_app, (count_posts_only _ posts); [|by intros [] | done].
  rewrite count_ev_cons. simpl. by destruct (_ && _).
Qed.

Lemma enviar_notificacao_whatsapp_eq cfg post contato m :
  enviar_notificacao cfg post "whatsapp" contato m
    = (true, [EvNotificacao "whatsapp" contato m true]).
Proof. reflexivity. Qed.
End Dispatch.

(** ** What one call of [processar_monitoramento] does ([app_improved.py]) *)

(** Every path through the body: expired or not, link online or not, the
    sale branch and its guards, the deadline branch. *)
Ltac processar_cases cfg q env r :=
  destruct (AppImproved.dias_restantes r (AppImproved.now env) <? 0);
    [reflexivity|];
  destruct (AppImproved.verificar_link (AppImproved.probe env)) as [[] ?e]; simpl;
  [ destruct (0 <? AppImproved.falhas_consecutivas r);
    destruct (_ && negb (truthy (AppImproved.notificado_prazo r)));
    try destruct (AppImproved.enviar_notificacao _ _ _ _ (MsgPrazo _)) as [[] ?];
    reflexivity
  | destruct (AppImproved.falhas_necessarias cfg _
                <=? AppImproved.falhas_consecutivas r + 1); simpl;
    destruct (truthy (AppImproved.carro_vendido r)); simpl;
    destruct q; simpl;
    destruct (truthy (AppImproved.notificado_venda r)); simpl;
    try destruct (AppImproved.enviar_notificacao _ _ _ _ (MsgVenda _ _)) as [[] ?];
    simpl;
    destruct (_ && negb (truthy (AppImproved.notificado_prazo r)));
    try destruct (AppImproved.enviar_notificacao _ _ _ _ (MsgPrazo _)) as [[] ?];
    reflexivity ].

Section ProcessarImproved.
Import AppImproved.
Variables (cfg : config) (q : bool) (env : item_env) (r : row).

Lemma processar_monitoramento_trace :
  snd (processar_monitoramento cfg q env r) =
    if expirou env r then []
    else EvVerificarLink (link_carro r)
         :: (if notifica_venda cfg q env r then snd (envio_venda cfg env r) else [])
         ++ (if notifica_prazo env r then snd (envio_prazo cfg env r) else []).
Proof.
  unfold processar_monitoramento, notifica_venda, marca_vendido, notifica_prazo,
    expirou, link_offline, falhas_suficientes, envio_venda, envio_prazo.
  processar_cases cfg q env r.
Qed.

Lemma processar_monitoramento_id :
  fst (processar_monitoramento cfg q env r) !! "id" = Some (VInt (row_id r)).
Proof.
  unfold processar_monitoramento.
  processar_cases cfg q env r.
Qed.

(** The dictionary applied to the row: every column after the UPDATE. *)
Lemma processar_monitoramento_row :
  sql_update (fst (processar_monitoramento cfg q env r)) r =
    {| row_id := row_id r;
       link_carro := link_carro r;
       data_venda := data_venda r;
       contato := contato r;
       tipo_notificacao := tipo_notificacao r;
       status := if expirou env r then "expirado" else status r;
       carro_vendido := if marca_vendido cfg q env r then 1 else carro_vendido r;
       notificado_venda :=
         if notifica_venda cfg q env r && fst (envio_venda cfg env r)
         then 1 else notificado_venda r;
       notificado_prazo :=
         if notifica_prazo env r && fst (envio_prazo cfg env r)
         then 1 else notificado_prazo r;
       ultima_verificacao := Some (now env);
       falhas_consecutivas :=
         if expirou env r then falhas_consecutivas r
         else if link_offline env then falhas_consecutivas r + 1
         else if 0 <? falhas_consecutivas r then 0 else falhas_consecutivas r;
       ultimo_erro :=
         if expirou env r then ultimo_erro r
         else if link_offline env then Some (snd (verificar_link (probe env)))
         else if 0 <? falhas_consecutivas r then None else ultimo_erro r |}.
Proof.
  unfold processar_monitoramento, notifica_venda, marca_vendido, notifica_prazo,
    expirou, link_offline, falhas_suficientes, envio_venda, envio_prazo.
  processar_cases cfg q env r.
Qed.

(** What step 5 counts as a failure of the batch. *)
Lemma processar_monitoramento_conta_falha :
  conta_falha (fst (processar_monitoramento cfg q env r)) =
    negb (expirou env r) && link_offline env && (0 <? falhas_consecutivas r + 1).
Proof.
  unfold processar_monitoramento, conta_falha, get_int, expirou, link_offline.
  processar_cases cfg q env r.
Qed.
End ProcessarImproved.

(** C10. In [app_improved.py] a notification of type 'whatsapp' is reported
    as delivered, whatever the contact and the message, without any request
    to a delivery service; so for a row of that type the worker makes no
    POST, and whenever it dispatches the sale message or the deadline alert
    the matching marker is written to the row. *)
Theorem C10_whatsapp_confirms_without_delivery :
  forall (cfg : AppImproved.config) (post : mensagem -> http_outcome)
         (contato : string) (m : mensagem),
    AppImproved.enviar_notificacao cfg post "whatsapp" contato m
      = (true, [EvNotificacao "whatsapp" contato m true])
    /\ count_ev is_post
         (snd (AppImproved.enviar_notificacao cfg post "whatsapp" contato m)) = 0%nat
    /\ forall (q : bool) (env : AppImproved.item_env) (r : AppImproved.row),
        AppImproved.tipo_notificacao r = "whatsapp" ->
        let res := AppImproved.processar_monitoramento cfg q env r in
        count_ev is_post (snd res) = 0%nat
        /\ (AppImproved.notifica_venda cfg q env r = true ->
            AppImproved.notificado_venda (AppImproved.sql_update (fst res) r) = 1)
        /\ (AppImproved.notifica_prazo env r = true ->
            AppImproved.notificado_prazo (AppImproved.sql_update (fst res) r) = 1).
Proof.
  intros cfg post contato m.
  split; [reflexivity|]. split; [reflexivity|].
  intros q env r Htipo res. subst res.
  rewrite processar_monitoramento_row, processar_monitoramento_trace.
  unfold AppImproved.envio_venda, AppImproved.envio_prazo.
  rewrite Htipo, !enviar_notificacao_whatsapp_eq. simpl.
  split.
  - destruct (AppImproved.expirou env r); [reflexivity|].
    rewrite count_ev_cons, count_ev_app. simpl.
    by destruct (AppImproved.notifica_venda cfg q env r),
                (AppImproved.notifica_prazo env r).
  - split; intros ->; reflexivity.
Qed.

(** A row of type 'whatsapp' whose fourth failure is a 404, outside
    quarantine: the sale marker is set and nothing was posted. *)
Lemma C10_witness_whatsapp_sale :
  let r := AppImproved.mkRow 7 "https://www.kavak.com/br/carro-7" (IsoT 738000 0)
             "+5511999990000" "whatsapp" "ativo" 0 0 0 None 3 (Some "http_404") in
  let env := AppImproved.mkItemEnv (mkDatetime 738010 (10 * HOUR)) (Response 404)
               (fun _ => RaiseOther) in
  let res := AppImproved.processar_monitoramento AppImproved.default_config false env r in
  count_ev is_post (snd res) = 0%nat
  /\ AppImproved.notificado_venda (AppImproved.sql_update (fst res) r) = 1.
Proof.
  intros r env res.
  destruct (C10_whatsapp_confirms_without_delivery
              AppImproved.default_config (fun _ => RaiseOther) "" MsgExpirado)
    as (_ & _ & H).
  destruct (H false env r eq_refl) as (Hpost & Hvenda & _).
  split; [exact Hpost | apply Hvenda; reflexivity].
Defined.

(** ** Quarantine *)

Section Quarentena.
Import AppImproved.

Lemma passo1_sem_quarentena agora : passo1 agora sem_quarentena = sem_quarentena.
Proof. reflexivity. Qed.

Lemma passo1_expirada agora ate :
  micros ate <= micros agora ->
  passo1 agora (mkQuarentena true (Some ate)) = mkQuarentena false None.
Proof.
  intros H. unfold passo1, dt_ltb. simpl.
  destruct (Z.ltb_spec (micros agora) (micros ate)); [lia | reflexivity].
Qed.

Lemma passo1_vigente agora ate :
  micros agora < micros ate ->
  passo1 agora (mkQuarentena true (Some ate)) = mkQuarentena true (Some ate).
Proof.
  intros H. unfold passo1, dt_ltb. simpl.
  destruct (Z.ltb_spec (micros agora) (micros ate)); [reflexivity | lia].
Qed.

(** With a clock that does not go back, a second check changes nothing
    the first one would not have changed. *)
Lemma passo1_passo1 agora1 agora2 q :
  micros agora1 <= micros agora2 ->
  passo1 agora2 (passo1 agora1 q) = passo1 agora2 q.
Proof.
  intros H. destruct q as [[] [ate|]]; try reflexivity.
  destruct (Z.lt_ge_cases (micros agora1) (micros ate)).
  - by rewrite (passo1_vigente agora1).
  - rewrite (passo1_expirada agora1), (passo1_expirada agora2) by lia.
    reflexivity.
Qed.

(** The task reads the globals only through step 1. *)
Lemma verificar_monitoramentos_passo1 cfg env st q :
  passo1 (clock_passo1 env) q = passo1 (clock_passo1 env) (globals st) ->
  verificar_monitoramentos cfg env (mkState (tabela st) (system_health st) q)
    = verificar_monitoramentos cfg env st.
Proof. intros H. unfold verificar_monitoramentos. simpl. by rewrite H. Qed.
End Quarentena.

(** C7. When the quarantine is active and the task runs at a time at or
    after [quarentena_ate], step 1 resets the globals to [False] / [None],
    and everything the run does afterwards (preflight, workers, the decisions
    of steps 3 and 6) is what it does from the cleared state; nothing else is
    needed for the reset. *)
Theorem C7_quarantine_clears_at_until :
  forall (cfg : AppImproved.config) (env : AppImproved.cycle_env)
         (st : AppImproved.state) (ate : datetime),
    AppImproved.globals st = AppImproved.mkQuarentena true (Some ate) ->
    micros ate <= micros (AppImproved.clock_passo1 env) ->
    AppImproved.passo1 (AppImproved.clock_passo1 env) (AppImproved.globals st)
      = AppImproved.mkQuarentena false None
    /\ AppImproved.verificar_monitoramentos cfg env st
       = AppImproved.verificar_monitoramentos cfg env
           (AppImproved.mkState (AppImproved.tabela st) (AppImproved.system_health st)
              AppImproved.sem_quarentena).
Proof.
  intros cfg env st ate Hq Hnow.
  split.
  - rewrite Hq. by apply passo1_expirada.
  - symmetry. apply verificar_monitoramentos_passo1.
    rewrite Hq, passo1_sem_quarentena. symmetry. by apply passo1_expirada.
Qed.

(** A quarantine set until 10:00 and a run at 10:00 sharp: cleared. *)
Lemma C7_witness_run_at_until :
  let ate := mkDatetime 738000 (10 * HOUR) in
  let st := AppImproved.mkState [] [] (AppImproved.mkQuarentena true (Some ate)) in
  let env := AppImproved.mkCycleEnv ate (fun _ => Response 200) ate
               (fun _ => AppImproved.mkItemEnv ate (Response 200) (fun _ => Response 200))
               ate in
  AppImproved.passo1 (AppImproved.clock_passo1 env) (AppImproved.globals st)
    = AppImproved.mkQuarentena false None
  /\ AppImproved.verificar_monitoramentos AppImproved.default_config env st
     = AppImproved.verificar_monitoramentos AppImproved.default_config env
         (AppImproved.mkState (AppImproved.tabela st) (AppImproved.system_health st)
            AppImproved.sem_quarentena).
Proof.
  intros ate st env.
  apply (C7_quarantine_clears_at_until AppImproved.default_config env st ate).
  - reflexivity.
  - simpl. lia.
Defined.

(** ** The connectivity preflight *)

Section Preflight.
Import AppImproved.

Lemma tentar_sites_falha get sites :
  (forall site, site ∈ sites -> get site <> Response 200) ->
  tentar_sites get sites = (false, map EvGet sites).
Proof.
  induction sites as [|site rest IH]; intros H; simpl; [reflexivity|].
  rewrite IH by (intros s Hs; apply H; by right).
  destruct (get site) as [s| | |] eqn:E; try reflexivity.
  destruct (Z.eqb_spec s 200) as [->|]; [|reflexivity].
  exfalso. apply (H site); [by left | exact E].
Qed.

Lemma tentar_sites_false get sites :
  fst (tentar_sites get sites) = false <->
  forall site, site ∈ sites -> get site <> Response 200.
Proof.
  split; [|intros H; by rewrite tentar_sites_falha].
  induction sites as [|site rest IH]; simpl; intros H s Hs.
  - by apply elem_of_nil in Hs.
  - apply elem_of_cons in Hs as [->|Hs].
    + intros E. rewrite E in H. simpl in H. discriminate H.
    + apply IH; [|exact Hs].
      destruct (get site) as [c| | |]; try (by destruct (tentar_sites get rest)).
      destruct (c =? 200); [discriminate H | by destruct (tentar_sites get rest)].
Qed.

Lemma verificar_monitoramentos_sem_internet cfg env st :
  (forall site, site ∈ sites_teste -> get env site <> Response 200) ->
  verificar_monitoramentos cfg env st =
    (mkState (tabela st) (system_health st) (passo1 (clock_passo1 env) (globals st)),
     map EvGet sites_teste).
Proof.
  intros H. unfold verificar_monitoramentos, verificar_conectividade_servidor.
  by rewrite (tentar_sites_falha _ _ H).
Qed.
End Preflight.

(** C6. When none of the test sites answers with status 200, the run ends
    after the preflight: the only events are the three preflight requests
    (no SELECT, no probe, no notification), the table and the health log are
    as they were; and the aborted run leaves nothing behind for the next one:
    with a clock that does not go back, the next run does exactly what it
    would have done had the aborted run never happened. *)
Theorem C6_no_internet_aborts_cycle :
  forall (cfg : AppImproved.config) (env : AppImproved.cycle_env)
         (st : AppImproved.state),
    (forall site, site ∈ AppImproved.sites_teste ->
                  AppImproved.get env site <> Response 200) ->
    let res := AppImproved.verificar_monitoramentos cfg env st in
    AppImproved.tabela (fst res) = AppImproved.tabela st
    /\ AppImproved.system_health (fst res) = AppImproved.system_health st
    /\ snd res = map EvGet AppImproved.sites_teste
    /\ (EvSelect ∉ snd res)
    /\ count_ev is_probe (snd res) = 0%nat
    /\ (forall k, count_ev (is_dispatch k) (snd res) = 0%nat)
    /\ (forall env' : AppImproved.cycle_env,
          micros (AppImproved.clock_passo1 env)
            <= micros (AppImproved.clock_passo1 env') ->
          AppImproved.verificar_monitoramentos cfg env' (fst res)
            = AppImproved.verificar_monitoramentos cfg env' st).
Proof.
  intros cfg env st H res. subst res.
  rewrite (verificar_monitoramentos_sem_internet cfg env st H). simpl.
  repeat split; try reflexivity.
  - unfold AppImproved.sites_teste. simpl. intros Hin.
    repeat (apply elem_of_cons in Hin as [Hin|Hin]; [discriminate Hin|]).
    by apply elem_of_nil in Hin.
  - intros env' Hclock.
    apply (verificar_monitoramentos_passo1 cfg env' st).
    by apply passo1_passo1.
Qed.

(** The three sites time out or answer 503; one active row in the table. *)
Lemma C6_witness_offline_server :
  let t := mkDatetime 738000 (10 * HOUR) in
  let r := AppImproved.mkRow 1 "https://www.kavak.com/br/carro-1" (IsoT 737990 0)
             "42" "telegram" "ativo" 0 0 0 None 2 (Some "timeout") in
  let st := AppImproved.mkState [r] [] AppImproved.sem_quarentena in
  let env := AppImproved.mkCycleEnv t
               (fun site => if String.eqb site "https://1.1.1.1"
                            then Response 503 else RaiseTimeout)
               t
               (fun _ => AppImproved.mkItemEnv t RaiseTimeout (fun _ => Response 200))
               t in
  let res := AppImproved.verificar_monitoramentos AppImproved.default_config env st in
  AppImproved.tabela (fst res) = [r]
  /\ snd res = map EvGet AppImproved.sites_teste.
Proof.
  intros t r st env res.
  assert (Hoff : forall site, site ∈ AppImproved.sites_teste ->
                   AppImproved.get env site <> Response 200).
  { intros site Hs. simpl. destruct (String.eqb site "https://1.1.1.1"); discriminate. }
  destruct (C6_no_internet_aborts_cycle AppImproved.default_config env st Hoff)
    as (Htab & _ & Htr & _).
  split; [exact Htab | exact Htr].
Defined.

(** ** One row across cycles ([app_improved.py]) *)

Section CiclosImproved.
Import AppImproved.
Variable cfg : config.

Lemma ciclo_item_eq c r :
  ciclo_item cfg c r =
    if ativo r && no_lote c
    then (sql_update (fst (processar_monitoramento cfg (em_quarentena c) (mundo c) r)) r,
          snd (processar_monitoramento cfg (em_quarentena c) (mundo c) r))
    else (r, []).
Proof.
  unfold ciclo_item. destruct (ativo r && no_lote c); [|reflexivity].
  by destruct (processar_monitoramento cfg (em_quarentena c) (mundo c) r).
Qed.

Lemma ciclos_item_cons c cs r :
  ciclos_item cfg (c :: cs) r =
    (fst (ciclos_item cfg cs (fst (ciclo_item cfg c r))),
     snd (ciclo_item cfg c r) ++ snd (ciclos_item cfg cs (fst (ciclo_item cfg c r)))).
Proof.
  simpl. destruct (ciclo_item cfg c r) as [r1 tr1]. simpl.
  by destruct (ciclos_item cfg cs r1).
Qed.

Lemma ciclos_item_app cs1 cs2 r :
  ciclos_item cfg (cs1 ++ cs2) r =
    (fst (ciclos_item cfg cs2 (fst (ciclos_item cfg cs1 r))),
     snd (ciclos_item cfg cs1 r) ++ snd (ciclos_item cfg cs2 (fst (ciclos_item cfg cs1 r)))).
Proof.
  revert r. induction cs1 as [|c cs1 IH]; intros r.
  - simpl. by destruct (ciclos_item cfg cs2 r).
  - rewrite <- app_comm_cons, !ciclos_item_cons, IH. simpl. by rewrite app_assoc.
Qed.

(** The immutable columns. *)
Lemma ciclo_item_data_venda c r :
  data_venda (fst (ciclo_item cfg c r)) = data_venda r.
Proof.
  rewrite ciclo_item_eq. destruct (ativo r && no_lote c); [|reflexivity].
  cbn [fst]. by rewrite processar_monitoramento_row.
Qed.

Lemma expirou_data_venda env r1 r2 :
  data_venda r1 = data_venda r2 -> expirou env r1 = expirou env r2.
Proof. unfold expirou, dias_restantes. by intros ->. Qed.

Lemma ciclo_item_falha e r c :
  ativo r = true -> falha_com e r c ->
  let r1 := fst (ciclo_item cfg c r) in
  ativo r1 = true
  /\ falhas_consecutivas r1 = falhas_consecutivas r + 1
  /\ ultimo_erro r1 = Some e
  /\ carro_vendido r1 =
       if negb (truthy (carro_vendido r))
          && (falhas_necessarias cfg e <=? falhas_consecutivas r + 1)
       then 1 else carro_vendido r.
Proof.
  intros Hat (Hlote & Hq & Hexp & Hprobe) r1. subst r1.
  rewrite ciclo_item_eq, Hat, Hlote. cbn [andb fst].
  rewrite processar_monitoramento_row. unfold ativo. simpl.
  unfold marca_vendido, link_offline, falhas_suficientes.
  rewrite Hexp, Hprobe, Hq. simpl.
  repeat split; try done.
  destruct (falhas_necessarias cfg e <=? falhas_consecutivas r + 1),
    (truthy (carro_vendido r)); reflexivity.
Qed.

Lemma ciclos_item_falhas e cs :
  forall r,
    ativo r = true -> Forall (falha_com e r) cs ->
    let r' := fst (ciclos_item cfg cs r) in
    ativo r' = true
    /\ falhas_consecutivas r' = falhas_consecutivas r + Z.of_nat (length cs)
    /\ carro_vendido r' =
         if negb (truthy (carro_vendido r))
            && (1 <=? Z.of_nat (length cs))
            && (falhas_necessarias cfg e
                  <=? falhas_consecutivas r + Z.of_nat (length cs))
         then 1 else carro_vendido r.
Proof.
  induction cs as [|c cs IH]; intros r Hat Hall r'; subst r'.
  - simpl. repeat split; [done | lia |].
    by rewrite andb_false_r.
  - apply Forall_cons in Hall as [Hc Hcs].
    rewrite ciclos_item_cons. simpl fst.
    destruct (ciclo_item_falha e r c Hat Hc) as (Hat1 & Hf1 & _ & Hcv1).
    assert (Hcs1 : Forall (falha_com e (fst (ciclo_item cfg c r))) cs).
    { eapply Forall_impl; [exact Hcs|].
      intros c' (? & ? & Hexp & ?). repeat split; try done.
      rewrite <- Hexp. apply expirou_data_venda, ciclo_item_data_venda. }
    destruct (IH _ Hat1 Hcs1) as (Hat' & Hf' & Hcv').
    split; [exact Hat'|]. split; [rewrite Hf', Hf1; simpl length; lia|].
    rewrite Hcv', Hcv1, Hf1. simpl length.
    replace (falhas_consecutivas r + 1 + Z.of_nat (length cs))
      with (falhas_consecutivas r + Z.of_nat (S (length cs))) by lia.
    unfold truthy.
    destruct (Z.eqb_spec (carro_vendido r) 0) as [Hz|Hnz]; simpl.
    + destruct (Z.leb_spec (falhas_necessarias cfg e) (falhas_consecutivas r + 1));
        simpl.
      * destruct (Z.leb_spec 1 (Z.of_nat (S (length cs)))); [|lia].
        destruct (Z.leb_spec (falhas_necessarias cfg e)
                    (falhas_consecutivas r + Z.of_nat (S (length cs)))); [|lia].
        reflexivity.
      * rewrite Hz. simpl.
        destruct (Z.leb_spec 1 (Z.of_nat (length cs))),
          (Z.leb_spec 1 (Z.of_nat (S (length cs)))),
          (Z.leb_spec (falhas_necessarias cfg e)
             (falhas_consecutivas r + Z.of_nat (S (length cs))));
          simpl; try reflexivity; lia.
    + destruct (Z.eqb_spec (carro_vendido r) 0); [done|]. reflexivity.
Qed.
End CiclosImproved.

(** ** What one call of [processar_monitoramento] does ([app.py]) *)

(** Every path through the body of [app.py]'s worker. *)
Ltac app_processar_cases env r :=
  destruct (App.dias_restantes env r <=? 0);
  [ cbn [negb andb];
    destruct (truthy (App.notificado_expirado r)); cbn [negb andb];
    try destruct (App.enviar_notificacao _ _ _ _ MsgExpirado) as [[] ?];
    reflexivity
  | cbn [negb andb];
    destruct (App.verificar_link (App.probe env)); cbn [negb andb];
    [ destruct (0 <? App.falhas_consecutivas r)
    | destruct (2 <=? App.falhas_consecutivas r + 1); cbn [negb andb];
      destruct (truthy (App.notificado_venda r)); cbn [negb andb] ];
    destruct (truthy (App.carro_vendido r)); cbn [negb andb];
    try destruct (App.enviar_notificacao _ _ _ _ (MsgVendaApp _)) as [[] ?];
    destruct (_ && negb (truthy (App.notificado_prazo r)));
    try destruct (App.enviar_notificacao _ _ _ _ (MsgPrazo _)) as [[] ?];
    destruct (String.eqb (App.status r) "ativo"); cbn [negb andb];
    try destruct (App.deve_notificar_semanal _ _ _); cbn [negb andb];
    try destruct (0 <? App.dias_restantes env r); cbn [negb andb];
    try destruct (App.enviar_notificacao _ _ _ _ (MsgSemanal _ _)) as [[] ?];
    reflexivity ].

Section ProcessarApp.
Import App.
Variables (cfg : config) (env : item_env) (r : row).

Lemma app_calcular_dias_restantes_eq :
  calcular_dias_restantes (now env) (data_venda r)
    = (dias_restantes env r, combine_min (dt_date (data_venda_dt r) + PRAZO_DAYS)).
Proof. reflexivity. Qed.

Lemma app_processar_monitoramento_trace :
  snd (processar_monitoramento cfg env r) =
    if expirou env r then
      if notifica_expirado env r then snd (envio_expirado cfg env r) else []
    else EvVerificarLink (link_carro r)
         :: (if notifica_venda env r then snd (envio_venda cfg env r) else [])
         ++ (if notifica_prazo env r then snd (envio_prazo cfg env r) else [])
         ++ (if notifica_semanal env r then snd (envio_semanal cfg env r) else []).
Proof.
  unfold processar_monitoramento.
  rewrite app_calcular_dias_restantes_eq.
  fold (data_venda_dt r). fold (dias_desde_venda env r).
  unfold notifica_expirado, notifica_venda, marca_vendido, notifica_prazo,
    notifica_semanal, expirou, link_offline, envio_venda, envio_prazo,
    envio_expirado, envio_semanal, envio.
  app_processar_cases env r.
Qed.

Lemma app_processar_monitoramento_id :
  fst (processar_monitoramento cfg env r) !! "id" = Some (VInt (row_id r)).
Proof.
  unfold processar_monitoramento.
  rewrite app_calcular_dias_restantes_eq.
  fold (data_venda_dt r). fold (dias_desde_venda env r).
  app_processar_cases env r.
Qed.

Lemma app_processar_monitoramento_row :
  sql_update (fst (processar_monitoramento cfg env r)) r =
    {| row_id := row_id r;
       link_carro := link_carro r;
       data_venda := data_venda r;
       contato := contato r;
       tipo_notificacao := tipo_notificacao r;
       status := if expirou env r then "expirado" else status r;
       carro_vendido := if marca_vendido env r then 1 else carro_vendido r;
       notificado_venda :=
         if notifica_venda env r && fst (envio_venda cfg env r)
         then 1 else notificado_venda r;
       notificado_prazo :=
         if notifica_prazo env r && fst (envio_prazo cfg env r)
         then 1 else notificado_prazo r;
       ultima_verificacao := Some (now env);
       falhas_consecutivas :=
         if expirou env r then falhas_consecutivas r
         else if link_offline env then falhas_consecutivas r + 1
         else if 0 <? falhas_consecutivas r then 0 else falhas_consecutivas r;
       notificado_expirado :=
         if notifica_expirado env r && fst (envio_expirado cfg env r)
         then 1 else notificado_expirado r;
       ultima_notificacao_semanal :=
         if notifica_semanal env r && fst (envio_semanal cfg env r)
         then Some (TextoIso (now env)) else ultima_notificacao_semanal r |}.
Proof.
  unfold processar_monitoramento.
  rewrite app_calcular_dias_restantes_eq.
  fold (data_venda_dt r). fold (dias_desde_venda env r).
  unfold notifica_expirado, notifica_venda, marca_vendido, notifica_prazo,
    notifica_semanal, expirou, link_offline, envio_venda, envio_prazo,
    envio_expirado, envio_semanal, envio.
  app_processar_cases env r.
Qed.
End ProcessarApp.

(** ** The failure threshold *)

Lemma falhas_necessarias_suspeito cfg (e : AppImproved.TipoErro) :
  e ∈ [AppImproved.TIMEOUT; AppImproved.DNS_ERROR;
       AppImproved.CONNECTION_ERROR; AppImproved.HTTP_500] ->
  AppImproved.falhas_necessarias cfg (AppImproved.value e)
    = AppImproved.FALHAS_PARA_VENDA cfg + 1.
Proof.
  intros H. repeat (apply elem_of_cons in H as [->|H]; [reflexivity|]).
  by apply elem_of_nil in H.
Qed.

Lemma falhas_necessarias_outro cfg (e : AppImproved.TipoErro) :
  e ∉ [AppImproved.TIMEOUT; AppImproved.DNS_ERROR;
       AppImproved.CONNECTION_ERROR; AppImproved.HTTP_500] ->
  AppImproved.falhas_necessarias cfg (AppImproved.value e)
    = AppImproved.FALHAS_PARA_VENDA cfg.
Proof.
  intros H. destruct e; try reflexivity; exfalso; apply H;
    repeat (first [by left | right]).
Qed.

(** Sold after a run of failures with one error kind, from a row that was
    not sold: exactly when the run is as long as the threshold asks. *)
Lemma vendido_apos_falhas cfg e cs r :
  AppImproved.ativo r = true ->
  AppImproved.carro_vendido r = 0 ->
  AppImproved.falhas_consecutivas r = 0 ->
  Forall (AppImproved.falha_com e r) cs ->
  AppImproved.carro_vendido (fst (AppImproved.ciclos_item cfg cs r)) = 1
  <-> 1 <= Z.of_nat (length cs)
      /\ AppImproved.falhas_necessarias cfg e <= Z.of_nat (length cs).
Proof.
  intros Hat Hcv Hf Hall.
  destruct (ciclos_item_falhas cfg e cs r Hat Hall) as (_ & _ & ->).
  rewrite Hcv, Hf, Z.add_0_l. cbn [truthy Z.eqb negb andb].
  destruct (Z.leb_spec 1 (Z.of_nat (length cs))),
    (Z.leb_spec (AppImproved.falhas_necessarias cfg e) (Z.of_nat (length cs)));
    cbn [andb]; (split; [intros E | intros [? ?]]); try done; try lia.
Qed.

(** [app.py]: a cycle in which the row is in the batch, the deadline has
    not come and the probe fails, whatever the failure. *)
Lemma app_ciclo_item_falha cfg r c :
  App.ativo r = true -> App.no_lote c = true ->
  App.expirou (App.mundo c) r = false -> App.link_offline (App.mundo c) = true ->
  let r1 := fst (App.ciclo_item cfg c r) in
  App.ativo r1 = true /\ App.data_venda r1 = App.data_venda r
  /\ App.falhas_consecutivas r1 = App.falhas_consecutivas r + 1
  /\ App.carro_vendido r1 =
       if negb (truthy (App.carro_vendido r))
          && (2 <=? App.falhas_consecutivas r + 1)
       then 1 else App.carro_vendido r.
Proof.
  intros Hat Hlote Hexp Hoff r1. subst r1.
  assert (Heq : App.ciclo_item cfg c r
                = (App.sql_update (fst (App.processar_monitoramento cfg (App.mundo c) r)) r,
                   snd (App.processar_monitoramento cfg (App.mundo c) r))).
  { unfold App.ciclo_item. rewrite Hat, Hlote. cbn [andb].
    by destruct (App.processar_monitoramento cfg (App.mundo c) r). }
  rewrite Heq. cbn [fst]. rewrite app_processar_monitoramento_row.
  unfold App.ativo in *.
  cbn [App.status App.data_venda App.falhas_consecutivas App.carro_vendido].
  unfold App.marca_vendido. rewrite Hexp, Hoff. cbn [negb andb].
  repeat split; try done.
  by destruct (2 <=? App.falhas_consecutivas r + 1), (truthy (App.carro_vendido r)).
Qed.

Lemma app_ciclos_item_falhas cfg cs :
  forall r,
    App.ativo r = true ->
    Forall (fun c => App.no_lote c = true
                     /\ App.expirou (App.mundo c) r = false
                     /\ App.link_offline (App.mundo c) = true) cs ->
    let r' := fst (App.ciclos_item cfg cs r) in
    App.ativo r' = true
    /\ App.falhas_consecutivas r' = App.falhas_consecutivas r + Z.of_nat (length cs)
    /\ App.carro_vendido r' =
         if negb (truthy (App.carro_vendido r))
            && (1 <=? Z.of_nat (length cs))
            && (2 <=? App.falhas_consecutivas r + Z.of_nat (length cs))
         then 1 else App.carro_vendido r.
Proof.
  induction cs as [|c cs IH]; intros r Hat Hall r'; subst r'.
  - simpl. repeat split; [done | lia |].
    by rewrite andb_false_r.
  - apply Forall_cons in Hall as [(Hlote & Hexp & Hoff) Hcs].
    destruct (app_ciclo_item_falha cfg r c Hat Hlote Hexp Hoff)
      as (Hat1 & Hdv1 & Hf1 & Hcv1).
    assert (Hcs1 : Forall (fun c' => App.no_lote c' = true
                             /\ App.expirou (App.mundo c') (fst (App.ciclo_item cfg c r))
                                = false
                             /\ App.link_offline (App.mundo c') = true) cs).
    { eapply Forall_impl; [exact Hcs|].
      intros c' (? & Hexp' & ?). repeat split; try done.
      rewrite <- Hexp'. unfold App.expirou, App.dias_restantes. by rewrite Hdv1. }
    destruct (IH _ Hat1 Hcs1) as (Hat' & Hf' & Hcv').
    assert (Hcons : fst (App.ciclos_item cfg (c :: cs) r)
                    = fst (App.ciclos_item cfg cs (fst (App.ciclo_item cfg c r)))).
    { simpl. destruct (App.ciclo_item cfg c r) as [r1 tr1]. simpl.
      by destruct (App.ciclos_item cfg cs r1). }
    rewrite Hcons.
    split; [exact Hat'|]. split; [rewrite Hf', Hf1; simpl length; lia|].
    rewrite Hcv', Hcv1, Hf1. simpl length.
    replace (App.falhas_consecutivas r + 1 + Z.of_nat (length cs))
      with (App.falhas_consecutivas r + Z.of_nat (S (length cs))) by lia.
    unfold truthy.
    destruct (Z.eqb_spec (App.carro_vendido r) 0) as [Hz|Hnz]; simpl.
    + destruct (Z.leb_spec 2 (App.falhas_consecutivas r + 1)); simpl.
      * destruct (Z.leb_spec 1 (Z.of_nat (S (length cs)))); [|lia].
        destruct (Z.leb_spec 2 (App.falhas_consecutivas r + Z.of_nat (S (length cs))));
          [|lia].
        reflexivity.
      * rewrite Hz. simpl.
        destruct (Z.leb_spec 1 (Z.of_nat (length cs))),
          (Z.leb_spec 1 (Z.of_nat (S (length cs)))),
          (Z.leb_spec 2 (App.falhas_consecutivas r + Z.of_nat (S (length cs))));
          simpl; try reflexivity; lia.
    + destruct (Z.eqb_spec (App.carro_vendido r) 0); [done|]. reflexivity.
Qed.

(** C1. In [app_improved.py] a worker marks a row that was not sold as sold
    exactly in a call made outside quarantine, before the deadline, whose
    probe failed and brought the counter to [falhas_necessarias]: the base
    threshold [FALHAS_PARA_VENDA], plus one exactly when the error just
    recorded is timeout, dns_error, connection_error or http_500. A row that
    fails repeatedly with one error kind is sold exactly from the failure
    that reaches that threshold: with base threshold 3, from the third
    http_404 and from the fourth timeout. In [app.py] there is no error
    kind and no extra failure: a row that was not sold is marked sold
    exactly in a call, before the deadline, whose probe failed (whatever
    the failure) and brought the counter to 2; a row that keeps failing is
    sold exactly from its second failure. *)
Theorem C1_sold_only_at_required_failures :
  forall cfg : AppImproved.config,
    (forall e : AppImproved.TipoErro,
        (e ∈ [AppImproved.TIMEOUT; AppImproved.DNS_ERROR;
              AppImproved.CONNECTION_ERROR; AppImproved.HTTP_500] ->
         AppImproved.falhas_necessarias cfg (AppImproved.value e)
           = AppImproved.FALHAS_PARA_VENDA cfg + 1)
        /\ (e ∉ [AppImproved.TIMEOUT; AppImproved.DNS_ERROR;
                 AppImproved.CONNECTION_ERROR; AppImproved.HTTP_500] ->
            AppImproved.falhas_necessarias cfg (AppImproved.value e)
              = AppImproved.FALHAS_PARA_VENDA cfg))
    /\ (forall (q : bool) (env : AppImproved.item_env) (r : AppImproved.row),
          let r' := AppImproved.sql_update
                      (fst (AppImproved.processar_monitoramento cfg q env r)) r in
          truthy (AppImproved.carro_vendido r) = false ->
          (truthy (AppImproved.carro_vendido r') = true <->
           q = false /\ AppImproved.expirou env r = false
           /\ AppImproved.link_offline env = true
           /\ AppImproved.falhas_necessarias cfg
                (snd (AppImproved.verificar_link (AppImproved.probe env)))
              <= AppImproved.falhas_consecutivas r + 1)
          /\ (truthy (AppImproved.carro_vendido r') = true ->
              AppImproved.falhas_consecutivas r' = AppImproved.falhas_consecutivas r + 1
              /\ AppImproved.ultimo_erro r'
                 = Some (snd (AppImproved.verificar_link (AppImproved.probe env)))))
    /\ (forall (e : string) (cs : list AppImproved.item_cycle) (r : AppImproved.row),
          AppImproved.ativo r = true ->
          AppImproved.carro_vendido r = 0 ->
          AppImproved.falhas_consecutivas r = 0 ->
          Forall (AppImproved.falha_com e r) cs ->
          AppImproved.carro_vendido (fst (AppImproved.ciclos_item cfg cs r)) = 1
          <-> 1 <= Z.of_nat (length cs)
              /\ AppImproved.falhas_necessarias cfg e <= Z.of_nat (length cs))
    /\ (AppImproved.FALHAS_PARA_VENDA cfg = 3 ->
        AppImproved.falhas_necessarias cfg (AppImproved.value AppImproved.HTTP_404) = 3
        /\ AppImproved.falhas_necessarias cfg (AppImproved.value AppImproved.TIMEOUT) = 4)
    /\ (forall (acfg : App.config) (env : App.item_env) (r : App.row),
          let r' := App.sql_update (fst (App.processar_monitoramento acfg env r)) r in
          truthy (App.carro_vendido r) = false ->
          (truthy (App.carro_vendido r') = true <->
           App.expirou env r = false /\ App.link_offline env = true
           /\ 2 <= App.falhas_consecutivas r + 1)
          /\ (truthy (App.carro_vendido r') = true ->
              App.falhas_consecutivas r' = App.falhas_consecutivas r + 1))
    /\ (forall (acfg : App.config) (cs : list App.item_cycle) (r : App.row),
          App.ativo r = true ->
          App.carro_vendido r = 0 ->
          App.falhas_consecutivas r = 0 ->
          Forall (fun c => App.no_lote c = true
                           /\ App.expirou (App.mundo c) r = false
                           /\ App.link_offline (App.mundo c) = true) cs ->
          App.carro_vendido (fst (App.ciclos_item acfg cs r)) = 1
          <-> 2 <= Z.of_nat (length cs)).
Proof.
  intros cfg. split; [|split; [|split; [|split; [|split]]]].
  - intros e. split; [apply falhas_necessarias_suspeito | apply falhas_necessarias_outro].
  - intros q env r r' Hcv. subst r'.
    rewrite processar_monitoramento_row.
    cbn [AppImproved.carro_vendido AppImproved.falhas_consecutivas
         AppImproved.ultimo_erro].
    unfold AppImproved.marca_vendido, AppImproved.falhas_suficientes.
    rewrite Hcv.
    destruct (AppImproved.expirou env r), (AppImproved.link_offline env),
      (Z.leb_spec
         (AppImproved.falhas_necessarias cfg
            (snd (AppImproved.verificar_link (AppImproved.probe env))))
         (AppImproved.falhas_consecutivas r + 1)), q;
      cbn [negb andb]; rewrite ?Hcv;
      (split; [split; [intros E | intros (? & ? & ? & ?)] | intros E]);
      first [done | lia].
  - intros e cs r. apply vendido_apos_falhas.
  - intros H3. unfold AppImproved.falhas_necessarias. rewrite H3. by vm_compute.
  - intros acfg env r r' Hcv. subst r'.
    rewrite app_processar_monitoramento_row.
    cbn [App.carro_vendido App.falhas_consecutivas].
    unfold App.marca_vendido. rewrite Hcv.
    destruct (App.expirou env r), (App.link_offline env),
      (Z.leb_spec 2 (App.falhas_consecutivas r + 1));
      cbn [negb andb]; rewrite ?Hcv;
      (split; [split; [intros E | intros (? & ? & ?)] | intros E]);
      first [done | lia].
  - intros acfg cs r Hat Hcv Hf Hall.
    destruct (app_ciclos_item_falhas acfg cs r Hat Hall) as (_ & _ & ->).
    rewrite Hcv, Hf, Z.add_0_l. cbn [truthy Z.eqb negb andb].
    destruct (Z.leb_spec 1 (Z.of_nat (length cs))),
      (Z.leb_spec 2 (Z.of_nat (length cs)));
      cbn [andb]; (split; [intros E | intros ?]); try done; try lia.
Qed.

(** A row that is not yet sold, offline with a 404 (then with timeouts):
    sold at the third 404, not at the third timeout, sold at the fourth. *)
Lemma C1_witness_third_404_fourth_timeout :
  let r := AppImproved.mkRow 1 "https://www.kavak.com/br/carro-1" (IsoT 738000 0)
             "42" "telegram" "ativo" 0 0 0 None 0 None in
  let t := mkDatetime 738010 (10 * HOUR) in
  let c404 := AppImproved.mkItemCycle true false
                (AppImproved.mkItemEnv t (Response 404) (fun _ => Response 200)) in
  let cto := AppImproved.mkItemCycle true false
               (AppImproved.mkItemEnv t RaiseTimeout (fun _ => Response 200)) in
  AppImproved.carro_vendido
    (fst (AppImproved.ciclos_item AppImproved.default_config [c404; c404] r)) = 0
  /\ AppImproved.carro_vendido
       (fst (AppImproved.ciclos_item AppImproved.default_config [c404; c404; c404] r)) = 1
  /\ AppImproved.carro_vendido
       (fst (AppImproved.ciclos_item AppImproved.default_config [cto; cto; cto] r)) = 0
  /\ AppImproved.carro_vendido
       (fst (AppImproved.ciclos_item AppImproved.default_config [cto; cto; cto; cto] r)) = 1
  /\ (let ra := App.mkRow 1 "https://www.kavak.com/br/carro-1" (IsoT 738000 0)
                  "42" "telegram" "ativo" 0 0 0 None 0 0 None in
      let ca := App.mkItemCycle true
                  (App.mkItemEnv t (Response 404) (fun _ => Response 200)) in
      App.carro_vendido (fst (App.ciclos_item App.default_config [ca; ca] ra)) = 1).
Proof.
  intros r t c404 cto.
  destruct (C1_sold_only_at_required_failures AppImproved.default_config)
    as (_ & _ & H & _ & _ & Happ).
  split; [reflexivity|]. split; [|split; [reflexivity|split]].
  - apply (H "http_404" [c404; c404; c404] r); try reflexivity.
    + repeat constructor.
    + split; vm_compute; discriminate.
  - apply (H "timeout" [cto; cto; cto; cto] r); try reflexivity.
    + repeat constructor.
    + split; vm_compute; discriminate.
  - intros ra ca.
    apply (Happ App.default_config [ca; ca] ra); try reflexivity;
      first [by repeat constructor | vm_compute; discriminate].
Defined.

(** C1 as stated fails in [app.py], which the claim cites as well: its
    threshold is 2 for every failure. A new row whose probe times out twice
    is sold at the second timeout, with counter 2 and the sale notification
    delivered; the claim asks for one failure more than the base threshold
    when the error is a timeout. *)
Lemma C1_counterexample_app_two_timeouts :
  let r := App.mkRow 1 "https://www.kavak.com/br/carro-1" (IsoT 738000 0)
             "42" "telegram" "ativo" 0 0 0 None 0 0 None in
  let t := mkDatetime 738010 (10 * HOUR) in
  let cto := App.mkItemCycle true
               (App.mkItemEnv t RaiseTimeout (fun _ => Response 200)) in
  let res := App.ciclos_item App.default_config [cto; cto] r in
  App.carro_vendido (fst (App.ciclos_item App.default_config [cto] r)) = 0
  /\ App.carro_vendido (fst res) = 1
  /\ App.falhas_consecutivas (fst res) = 2
  /\ count_ev (is_delivered KVenda) (snd res) = 1%nat.
Proof. repeat split; vm_compute; reflexivity. Qed.

(** ** The batch and the table *)

Section FoldUpdate.
Context {R : Type} (rid : R -> Z) (F : R -> R -> R).
Hypothesis F_rid : forall m r, rid (F m r) = rid r.

Lemma foldl_update_map (ms : list R) (db : list R) :
  foldl (fun db m => map (fun r => if rid r =? rid m then F m r else r) db) db ms
  = map (fun r => foldl (fun r m => if rid r =? rid m then F m r else r) r ms) db.
Proof.
  revert db. induction ms as [|m ms IH]; intros db; simpl.
  - by rewrite map_id.
  - by rewrite IH, map_map.
Qed.

Lemma foldl_update_notin (ms : list R) (r : R) :
  rid r ∉ map rid ms ->
  foldl (fun r m => if rid r =? rid m then F m r else r) r ms = r.
Proof.
  induction ms as [|m ms IH]; intros Hnot; simpl in *; [reflexivity|].
  rewrite not_elem_of_cons in Hnot. destruct Hnot as [Hne Hnot].
  destruct (Z.eqb_spec (rid r) (rid m)); [done | by apply IH].
Qed.

Lemma foldl_update_in (ms : list R) (m r : R) :
  NoDup (map rid ms) -> m ∈ ms -> rid m = rid r ->
  foldl (fun r m => if rid r =? rid m then F m r else r) r ms = F m r.
Proof.
  induction ms as [|m' ms IH] in r |- *; intros Hnd Hin Hid.
  - by apply elem_of_nil in Hin.
  - simpl in Hnd. apply NoDup_cons in Hnd as [Hnotin Hnd]. simpl.
    apply elem_of_cons in Hin as [<-|Hin].
    + rewrite Hid, Z.eqb_refl. apply foldl_update_notin.
      by rewrite F_rid, <- Hid.
    + destruct (Z.eqb_spec (rid r) (rid m')) as [E|_].
      * exfalso. apply Hnotin. rewrite <- E, <- Hid.
        by apply (list_elem_of_fmap_2 rid).
      * by apply IH.
Qed.

Lemma NoDup_map_inj (l : list R) (x y : R) :
  NoDup (map rid l) -> x ∈ l -> y ∈ l -> rid x = rid y -> x = y.
Proof.
  induction l as [|a l IH]; intros Hnd Hx Hy Hid.
  - by apply elem_of_nil in Hx.
  - simpl in Hnd. apply NoDup_cons in Hnd as [Hnotin Hnd].
    apply elem_of_cons in Hx as [->|Hx]; apply elem_of_cons in Hy as [->|Hy].
    + reflexivity.
    + exfalso. apply Hnotin. rewrite Hid. by apply (list_elem_of_fmap_2 rid).
    + exfalso. apply Hnotin. rewrite <- Hid. by apply (list_elem_of_fmap_2 rid).
    + by apply IH.
Qed.
End FoldUpdate.

Lemma sql_limit_sublist {A} (n : Z) (l : list A) : sql_limit n l `sublist_of` l.
Proof. unfold sql_limit. destruct (n <? 0); [done | apply sublist_take]. Qed.

Section LoteImproved.
Import AppImproved.
Variable cfg : config.

Lemma sql_update_delete_id u r : sql_update (delete "id" u) r = sql_update u r.
Proof.
  unfold sql_update, col_str, col_int, col_opt_time, col_opt_str.
  by rewrite !lookup_delete_ne.
Qed.

Lemma selecionar_elem db m :
  m ∈ selecionar cfg db -> m ∈ db /\ ativo m = true.
Proof.
  unfold selecionar. intros H.
  eapply elem_of_sublist in H; [|apply sql_limit_sublist].
  rewrite merge_sort_Permutation in H.
  apply list_elem_of_filter in H. tauto.
Qed.

Lemma selecionar_NoDup db :
  NoDup (map row_id db) -> NoDup (map row_id (selecionar cfg db)).
Proof.
  intros Hnd. unfold selecionar.
  eapply sublist_NoDup; [|apply fmap_sublist, sql_limit_sublist].
  rewrite merge_sort_Permutation.
  eapply sublist_NoDup; [exact Hnd|]. apply fmap_sublist, sublist_filter.
Qed.

(** Step 7 on a table with unique ids: the rows of the batch get the
    columns their worker returned, the others are untouched. *)
Lemma passo7_tabela q envs db :
  NoDup (map row_id db) ->
  foldl (fun db updates => executar_update updates db) db
        (map fst (passo5 cfg q envs (selecionar cfg db)))
  = map (fun r =>
           if bool_decide (row_id r ∈ map row_id (selecionar cfg db))
           then sql_update
                  (fst (processar_monitoramento cfg (sistema_em_quarentena q)
                          (envs (row_id r)) r)) r
           else r) db.
Proof.
  intros Hnd.
  pose (F := fun m r : row =>
               sql_update (fst (processar_monitoramento cfg (sistema_em_quarentena q)
                                  (envs (row_id m)) m)) r).
  assert (Hfold : forall ms db0,
    foldl (fun db updates => executar_update updates db) db0
          (map fst (passo5 cfg q envs ms))
    = foldl (fun db m => map (fun r => if row_id r =? row_id m then F m r else r) db)
            db0 ms).
  { induction ms as [|m ms IH]; intros db0; simpl; [reflexivity|].
    rewrite IH. f_equal. unfold executar_update.
    rewrite processar_monitoramento_id.
    apply map_ext. intros r. by rewrite sql_update_delete_id. }
  rewrite Hfold, foldl_update_map.
  apply map_ext_in. intros r Hr%list_elem_of_In.
  case_bool_decide as Hin.
  - apply list_elem_of_fmap in Hin as (m & Hid & Hm).
    rewrite (foldl_update_in row_id F (fun _ _ => eq_refl) _ m r);
      [|by apply selecionar_NoDup | done | done].
    assert (m = r) as ->; [|reflexivity].
    apply (NoDup_map_inj row_id db); [done | | done | done].
    by apply selecionar_elem in Hm as [? _].
  - by apply foldl_update_notin.
Qed.
End LoteImproved.

(** ** A run of the task that passes the preflight *)

Section RunImproved.
Import AppImproved.
Variables (cfg : config) (env : cycle_env) (st : state).

Lemma tentar_sites_count p get sites :
  (forall url, p (EvGet url) = false) ->
  count_ev p (snd (tentar_sites get sites)) = 0%nat.
Proof.
  intros Hp. induction sites as [|site rest IH]; simpl; [reflexivity|].
  destruct (get site) as [s| | |]; try destruct (s =? 200);
    destruct (tentar_sites get rest); simpl in *;
    rewrite count_ev_cons, Hp; simpl; try exact IH; reflexivity.
Qed.

Lemma verificar_monitoramentos_trace :
  fst (verificar_conectividade_servidor (get env)) = true ->
  snd (verificar_monitoramentos cfg env st) =
    snd (verificar_conectividade_servidor (get env))
    ++ snd (verificar_saude_kavak (get env))
    ++ EvSelect
       :: concat (map snd (passo5 cfg (quarentena_workers cfg env st) (item_envs env)
                             (selecionar cfg (tabela st)))).
Proof.
  intros Hnet. unfold verificar_monitoramentos, quarentena_workers.
  destruct (verificar_conectividade_servidor (get env)) as [net tr1].
  simpl in Hnet. subst net. simpl.
  destruct (verificar_saude_kavak (get env)) as [kavak tr2]. simpl.
  destruct (selecionar cfg (tabela st)) as [|m ms]; [reflexivity|].
  by destruct (atinge_limite cfg _).
Qed.

Lemma verificar_monitoramentos_tabela :
  fst (verificar_conectividade_servidor (get env)) = true ->
  NoDup (map row_id (tabela st)) ->
  tabela (fst (verificar_monitoramentos cfg env st)) =
    map (fun r =>
           if bool_decide (row_id r ∈ map row_id (selecionar cfg (tabela st)))
           then sql_update
                  (fst (processar_monitoramento cfg
                          (sistema_em_quarentena (quarentena_workers cfg env st))
                          (item_envs env (row_id r)) r)) r
           else r) (tabela st).
Proof.
  intros Hnet Hnd.
  rewrite <- (passo7_tabela cfg (quarentena_workers cfg env st) (item_envs env)
                (tabela st) Hnd).
  unfold verificar_monitoramentos, quarentena_workers.
  destruct (verificar_conectividade_servidor (get env)) as [net tr1].
  simpl in Hnet. subst net. simpl.
  destruct (verificar_saude_kavak (get env)) as [kavak tr2]. simpl.
  destruct (selecionar cfg (tabela st)) as [|m ms]; [reflexivity|].
  by destruct (atinge_limite cfg _).
Qed.

(** Steps 5 and 6 on a batch that is not empty. *)
Lemma verificar_monitoramentos_passo6 :
  fst (verificar_conectividade_servidor (get env)) = true ->
  selecionar cfg (tabela st) <> [] ->
  let lote := selecionar cfg (tabela st) in
  let n := Z.of_nat (length lote) in
  let total :=
    contar_falhas
      (map fst (passo5 cfg (quarentena_workers cfg env st) (item_envs env) lote)) in
  let pct := porcentagem total n in
  globals (fst (verificar_monitoramentos cfg env st)) =
    (if atinge_limite cfg pct then ativar_quarentena cfg (clock_passo6 env)
     else quarentena_workers cfg env st)
  /\ system_health (fst (verificar_monitoramentos cfg env st)) =
     (if atinge_limite cfg pct
      then system_health st ++ [mkSample n total pct 0]
      else system_health st).
Proof.
  intros Hnet Hlote. simpl.
  unfold verificar_monitoramentos, quarentena_workers.
  destruct (verificar_conectividade_servidor (get env)) as [net tr1].
  simpl in Hnet. subst net. simpl.
  destruct (verificar_saude_kavak (get env)) as [kavak tr2]. simpl.
  destruct (selecionar cfg (tabela st)) as [|m ms]; [done|].
  by destruct (atinge_limite cfg _).
Qed.

(** What step 5 counts: the rows of the batch that failed in this run. *)
Lemma contar_falhas_passo5 q envs lote :
  contar_falhas (map fst (passo5 cfg q envs lote)) =
    Z.of_nat (length (filter (fun r => falhou_no_ciclo (envs (row_id r)) r = true) lote)).
Proof.
  unfold contar_falhas, passo5. f_equal.
  induction lote as [|m ms IH]; [reflexivity|].
  simpl map. rewrite !filter_cons, processar_monitoramento_conta_falha.
  fold (falhou_no_ciclo (envs (row_id m)) m).
  destruct (falhou_no_ciclo (envs (row_id m)) m);
    repeat case_decide; try congruence; simpl; by rewrite IH.
Qed.
End RunImproved.

(** ** Notifications of one call ([app_improved.py]) *)

Section NotificacoesImproved.
Import AppImproved.
Variables (cfg : config) (q : bool) (env : item_env) (r : row).

Lemma processar_monitoramento_dispatch k :
  count_ev (is_dispatch k) (snd (processar_monitoramento cfg q env r)) =
    ((if notifica_venda cfg q env r && bool_decide (KVenda = k) then 1 else 0)
     + (if notifica_prazo env r && bool_decide (KPrazo = k) then 1 else 0))%nat.
Proof.
  rewrite processar_monitoramento_trace.
  unfold notifica_venda, marca_vendido, notifica_prazo.
  destruct (expirou env r); [reflexivity|].
  rewrite count_ev_cons, count_ev_app. cbn [is_dispatch negb andb].
  unfold envio_venda, envio_prazo.
  destruct (_ && negb (truthy (notificado_venda r)));
    destruct (_ && negb (truthy (notificado_prazo r)));
    rewrite ?enviar_notificacao_dispatch, ?count_ev_nil; reflexivity.
Qed.

Lemma processar_monitoramento_delivered k :
  count_ev (is_delivered k) (snd (processar_monitoramento cfg q env r)) =
    ((if notifica_venda cfg q env r && fst (envio_venda cfg env r)
         && bool_decide (KVenda = k) then 1 else 0)
     + (if notifica_prazo env r && fst (envio_prazo cfg env r)
           && bool_decide (KPrazo = k) then 1 else 0))%nat.
Proof.
  rewrite processar_monitoramento_trace.
  unfold notifica_venda, marca_vendido, notifica_prazo.
  destruct (expirou env r); [reflexivity|].
  rewrite count_ev_cons, count_ev_app. cbn [is_delivered negb andb].
  unfold envio_venda, envio_prazo.
  destruct (_ && negb (truthy (notificado_venda r)));
    destruct (_ && negb (truthy (notificado_prazo r)));
    rewrite ?enviar_notificacao_delivered, ?count_ev_nil; cbn [kind_of andb];
    repeat (destruct (fst (enviar_notificacao _ _ _ _ _)));
    repeat case_bool_decide; try congruence; reflexivity.
Qed.

Lemma notifica_venda_quarentena : notifica_venda cfg true env r = false.
Proof.
  unfold notifica_venda, marca_vendido. by rewrite !andb_false_r.
Qed.

Lemma marca_vendido_quarentena : marca_vendido cfg true env r = false.
Proof. unfold marca_vendido. by rewrite !andb_false_r. Qed.

Lemma falhas_necessarias_bounds e :
  FALHAS_PARA_VENDA cfg <= falhas_necessarias cfg e <= FALHAS_PARA_VENDA cfg + 1.
Proof. unfold falhas_necessarias. destruct (erro_indica_problema_sistemico e); lia. Qed.
End NotificacoesImproved.

(** ** Quarantine and the sale notification *)

Section QuarentenaVenda.
Import AppImproved.
Variable cfg : config.

Lemma passo5_sem_venda q envs lote :
  sistema_em_quarentena q = true ->
  count_ev (is_dispatch KVenda) (concat (map snd (passo5 cfg q envs lote))) = 0%nat.
Proof.
  intros Hq. unfold passo5. rewrite Hq.
  induction lote as [|m ms IH]; [reflexivity|].
  simpl. rewrite count_ev_app, IH, processar_monitoramento_dispatch.
  rewrite notifica_venda_quarentena. simpl.
  by destruct (notifica_prazo _ m).
Qed.

Lemma ciclo_item_adia r c :
  ativo r = true -> adia_venda r c ->
  let r1 := fst (ciclo_item cfg c r) in
  ativo r1 = true /\ data_venda r1 = data_venda r
  /\ carro_vendido r1 = carro_vendido r
  /\ notificado_venda r1 = notificado_venda r
  /\ falhas_consecutivas r <= falhas_consecutivas r1
  /\ count_ev (is_dispatch KVenda) (snd (ciclo_item cfg c r)) = 0%nat.
Proof.
  intros Hat Hc. cbn zeta. rewrite ciclo_item_eq, Hat. cbn [andb].
  destruct Hc as [->|(Hq & Hexp & Hoff)].
  - cbn [fst snd]. repeat split; first [done | lia].
  - destruct (no_lote c); cbn [fst snd]; [|repeat split; first [done | lia]].
    rewrite processar_monitoramento_dispatch, processar_monitoramento_row, Hq.
    rewrite notifica_venda_quarentena, marca_vendido_quarentena.
    unfold ativo. cbn [status data_venda carro_vendido notificado_venda
                         falhas_consecutivas andb].
    rewrite Hexp, Hoff. repeat split; try done; try lia.
    by destruct (notifica_prazo (mundo c) r).
Qed.

Lemma ciclos_item_adia cs :
  forall r,
    ativo r = true -> Forall (adia_venda r) cs ->
    let rn := fst (ciclos_item cfg cs r) in
    ativo rn = true /\ data_venda rn = data_venda r
    /\ carro_vendido rn = carro_vendido r
    /\ notificado_venda rn = notificado_venda r
    /\ falhas_consecutivas r <= falhas_consecutivas rn
    /\ count_ev (is_dispatch KVenda) (snd (ciclos_item cfg cs r)) = 0%nat.
Proof.
  induction cs as [|c cs IH]; intros r Hat Hall; cbn zeta.
  - simpl. repeat split; first [done | lia].
  - apply Forall_cons in Hall as [Hc Hcs].
    destruct (ciclo_item_adia r c Hat Hc) as (Hat1 & Hdv1 & Hcv1 & Hnv1 & Hf1 & Htr1).
    assert (Hcs1 : Forall (adia_venda (fst (ciclo_item cfg c r))) cs).
    { eapply Forall_impl; [exact Hcs|].
      intros c' [?|(? & Hexp & ?)]; [by left | right].
      repeat split; try done.
      rewrite <- Hexp. by apply expirou_data_venda. }
    destruct (IH _ Hat1 Hcs1) as (Hat' & Hdv' & Hcv' & Hnv' & Hf' & Htr').
    rewrite ciclos_item_cons. cbn [fst snd].
    rewrite count_ev_app, Htr1, Htr'.
    repeat split; first [done | congruence | lia].
Qed.

(** The first cycle outside quarantine in which the row still fails. *)
Lemma ciclo_item_venda_adiada r c :
  ativo r = true ->
  truthy (carro_vendido r) = false -> truthy (notificado_venda r) = false ->
  FALHAS_PARA_VENDA cfg <= falhas_consecutivas r ->
  no_lote c = true -> em_quarentena c = false ->
  expirou (mundo c) r = false -> link_offline (mundo c) = true ->
  count_ev (is_dispatch KVenda) (snd (ciclo_item cfg c r)) = 1%nat
  /\ carro_vendido (fst (ciclo_item cfg c r)) = 1
  /\ notificado_venda (fst (ciclo_item cfg c r))
     = if fst (envio_venda cfg (mundo c) r) then 1 else notificado_venda r.
Proof.
  intros Hat Hcv Hnv Hf Hlote Hq Hexp Hoff.
  rewrite ciclo_item_eq, Hat, Hlote. cbn [andb fst snd].
  rewrite processar_monitoramento_dispatch, processar_monitoramento_row, Hq.
  cbn [carro_vendido notificado_venda].
  assert (Hmarca : marca_vendido cfg false (mundo c) r = true).
  { unfold marca_vendido, falhas_suficientes. rewrite Hexp, Hoff, Hcv.
    cbn [negb andb]. rewrite !andb_true_r. apply Z.leb_le.
    pose proof (falhas_necessarias_bounds cfg
                  (snd (verificar_link (probe (mundo c))))). lia. }
  assert (Hnotif : notifica_venda cfg false (mundo c) r = true).
  { unfold notifica_venda. by rewrite Hmarca, Hnv. }
  rewrite Hmarca, Hnotif. cbn [andb].
  repeat split; try done.
  rewrite bool_decide_eq_true_2 by reflexivity.
  rewrite (bool_decide_eq_false_2 (KPrazo = KVenda)) by discriminate.
  by rewrite andb_false_r.
Qed.
End QuarentenaVenda.

(** The sale branch taken: outside quarantine, a failed probe that brings
    the counter to its threshold, on a row that is neither sold nor
    notified. *)
Lemma ciclo_item_venda cfg r c :
  AppImproved.ativo r = true ->
  truthy (AppImproved.carro_vendido r) = false ->
  truthy (AppImproved.notificado_venda r) = false ->
  AppImproved.no_lote c = true -> AppImproved.em_quarentena c = false ->
  AppImproved.expirou (AppImproved.mundo c) r = false ->
  AppImproved.link_offline (AppImproved.mundo c) = true ->
  AppImproved.falhas_suficientes cfg (AppImproved.mundo c) r = true ->
  count_ev (is_dispatch KVenda) (snd (AppImproved.ciclo_item cfg c r)) = 1%nat
  /\ count_ev (is_delivered KVenda) (snd (AppImproved.ciclo_item cfg c r))
     = (if fst (AppImproved.envio_venda cfg (AppImproved.mundo c) r)
        then 1%nat else 0%nat)
  /\ AppImproved.carro_vendido (fst (AppImproved.ciclo_item cfg c r)) = 1
  /\ AppImproved.notificado_venda (fst (AppImproved.ciclo_item cfg c r))
     = if fst (AppImproved.envio_venda cfg (AppImproved.mundo c) r)
       then 1 else AppImproved.notificado_venda r.
Proof.
  intros Hat Hcv Hnv Hlote Hq Hexp Hoff Hsuf.
  rewrite ciclo_item_eq, Hat, Hlote. cbn [andb fst snd].
  rewrite processar_monitoramento_dispatch, processar_monitoramento_delivered,
    processar_monitoramento_row, Hq.
  cbn [AppImproved.carro_vendido AppImproved.notificado_venda].
  assert (Hmarca : AppImproved.marca_vendido cfg false (AppImproved.mundo c) r = true).
  { unfold AppImproved.marca_vendido. by rewrite Hexp, Hoff, Hsuf, Hcv. }
  assert (Hnotif : AppImproved.notifica_venda cfg false (AppImproved.mundo c) r = true).
  { unfold AppImproved.notifica_venda. by rewrite Hmarca, Hnv. }
  rewrite Hmarca, Hnotif. cbn [andb].
  rewrite bool_decide_eq_true_2 by reflexivity.
  rewrite (bool_decide_eq_false_2 (KPrazo = KVenda)) by discriminate.
  rewrite !andb_false_r, !andb_true_r.
  repeat split; try done;
    by destruct (fst (AppImproved.envio_venda cfg (AppImproved.mundo c) r)).
Qed.

(** The sale branch is guarded by [carro_vendido], not by
    [notificado_venda]: a row already marked sold gets no sale notification,
    whatever its [notificado_venda]. *)
Lemma ciclo_item_vendido_sem_envio cfg c r :
  truthy (AppImproved.carro_vendido r) = true ->
  count_ev (is_dispatch KVenda) (snd (AppImproved.ciclo_item cfg c r)) = 0%nat
  /\ AppImproved.carro_vendido (fst (AppImproved.ciclo_item cfg c r))
     = AppImproved.carro_vendido r
  /\ AppImproved.notificado_venda (fst (AppImproved.ciclo_item cfg c r))
     = AppImproved.notificado_venda r.
Proof.
  intros Hcv. rewrite ciclo_item_eq.
  destruct (AppImproved.ativo r && AppImproved.no_lote c); cbn [fst snd]; [|done].
  rewrite processar_monitoramento_dispatch, processar_monitoramento_row.
  cbn [AppImproved.carro_vendido AppImproved.notificado_venda].
  assert (Hm : AppImproved.marca_vendido cfg (AppImproved.em_quarentena c)
                 (AppImproved.mundo c) r = false).
  { unfold AppImproved.marca_vendido. rewrite Hcv. cbn [negb].
    by rewrite andb_false_r. }
  unfold AppImproved.notifica_venda. rewrite Hm. cbn [andb].
  rewrite (bool_decide_eq_false_2 (KPrazo = KVenda)) by discriminate.
  by rewrite andb_false_r.
Qed.

Lemma ciclos_item_vendido_sem_envio cfg cs :
  forall r,
    truthy (AppImproved.carro_vendido r) = true ->
    count_ev (is_dispatch KVenda) (snd (AppImproved.ciclos_item cfg cs r)) = 0%nat
    /\ AppImproved.carro_vendido (fst (AppImproved.ciclos_item cfg cs r))
       = AppImproved.carro_vendido r
    /\ AppImproved.notificado_venda (fst (AppImproved.ciclos_item cfg cs r))
       = AppImproved.notificado_venda r.
Proof.
  induction cs as [|c cs IH]; intros r Hcv; [done|].
  rewrite ciclos_item_cons. cbn [fst snd].
  destruct (ciclo_item_vendido_sem_envio cfg c r Hcv) as (Hd & Hcv1 & Hnv1).
  destruct (IH (fst (AppImproved.ciclo_item cfg c r))) as (Hd' & Hcv' & Hnv');
    [by rewrite Hcv1|].
  rewrite count_ev_app, Hd, Hd', Hcv', Hnv'. done.
Qed.

(** C2. In a run whose workers find the quarantine flag set (as steps 1
    and 3 leave it), no sale notification is dispatched for any row; every
    row of the batch whose probe fails before its deadline still gets its
    counter incremented by one in the table, and under quarantine its
    [carro_vendido] and [notificado_venda] stay as they were. A sale held
    back this way is deferred, because [carro_vendido] stays unset:
    however many runs leave the row out of the batch or probe it again
    under quarantine, the first run outside quarantine in which the row is
    in the batch and still fails dispatches the sale notification once,
    marks the row sold, and sets [notificado_venda] exactly when the
    delivery is confirmed. That [notificado_venda] stays unset is not what
    brings the retry: a sale dispatched outside quarantine whose delivery
    is not confirmed leaves the row sold with [notificado_venda] unset, and
    a row marked sold is never sent a sale notification again, in any
    later cycle, whatever its [notificado_venda]. *)
Theorem C2_quarantine_defers_sale_notification :
  forall cfg : AppImproved.config,
    (forall (env : AppImproved.cycle_env) (st : AppImproved.state),
        AppImproved.sistema_em_quarentena (AppImproved.quarentena_workers cfg env st)
          = true ->
        count_ev (is_dispatch KVenda)
          (snd (AppImproved.verificar_monitoramentos cfg env st)) = 0%nat)
    /\ (forall (env : AppImproved.cycle_env) (st : AppImproved.state)
               (r : AppImproved.row),
          fst (AppImproved.verificar_conectividade_servidor (AppImproved.get env)) = true ->
          NoDup (map AppImproved.row_id (AppImproved.tabela st)) ->
          r ∈ AppImproved.selecionar cfg (AppImproved.tabela st) ->
          AppImproved.expirou (AppImproved.item_envs env (AppImproved.row_id r)) r = false ->
          AppImproved.link_offline (AppImproved.item_envs env (AppImproved.row_id r)) = true ->
          let flag := AppImproved.sistema_em_quarentena
                        (AppImproved.quarentena_workers cfg env st) in
          let r' := AppImproved.sql_update
                      (fst (AppImproved.processar_monitoramento cfg flag
                              (AppImproved.item_envs env (AppImproved.row_id r)) r)) r in
          r' ∈ AppImproved.tabela (fst (AppImproved.verificar_monitoramentos cfg env st))
          /\ AppImproved.falhas_consecutivas r' = AppImproved.falhas_consecutivas r + 1
          /\ (flag = true ->
              AppImproved.carro_vendido r' = AppImproved.carro_vendido r
              /\ AppImproved.notificado_venda r' = AppImproved.notificado_venda r))
    /\ (forall (r : AppImproved.row) (c1 : AppImproved.item_cycle)
               (cs : list AppImproved.item_cycle) (c2 : AppImproved.item_cycle),
          AppImproved.ativo r = true ->
          truthy (AppImproved.carro_vendido r) = false ->
          truthy (AppImproved.notificado_venda r) = false ->
          (AppImproved.no_lote c1 = true /\ AppImproved.em_quarentena c1 = true
           /\ AppImproved.expirou (AppImproved.mundo c1) r = false
           /\ AppImproved.link_offline (AppImproved.mundo c1) = true
           /\ AppImproved.falhas_suficientes cfg (AppImproved.mundo c1) r = true) ->
          Forall (AppImproved.adia_venda r) cs ->
          (AppImproved.no_lote c2 = true /\ AppImproved.em_quarentena c2 = false
           /\ AppImproved.expirou (AppImproved.mundo c2) r = false
           /\ AppImproved.link_offline (AppImproved.mundo c2) = true) ->
          let rn := fst (AppImproved.ciclos_item cfg (c1 :: cs) r) in
          count_ev (is_dispatch KVenda)
            (snd (AppImproved.ciclos_item cfg (c1 :: cs) r)) = 0%nat
          /\ AppImproved.carro_vendido rn = AppImproved.carro_vendido r
          /\ AppImproved.notificado_venda rn = AppImproved.notificado_venda r
          /\ count_ev (is_dispatch KVenda)
               (snd (AppImproved.ciclo_item cfg c2 rn)) = 1%nat
          /\ AppImproved.carro_vendido (fst (AppImproved.ciclo_item cfg c2 rn)) = 1
          /\ AppImproved.notificado_venda (fst (AppImproved.ciclo_item cfg c2 rn))
             = if fst (AppImproved.envio_venda cfg (AppImproved.mundo c2) rn)
               then 1 else AppImproved.notificado_venda r)
    /\ (forall (r : AppImproved.row) (c : AppImproved.item_cycle)
               (cs : list AppImproved.item_cycle),
          AppImproved.ativo r = true ->
          truthy (AppImproved.carro_vendido r) = false ->
          truthy (AppImproved.notificado_venda r) = false ->
          (AppImproved.no_lote c = true /\ AppImproved.em_quarentena c = false
           /\ AppImproved.expirou (AppImproved.mundo c) r = false
           /\ AppImproved.link_offline (AppImproved.mundo c) = true
           /\ AppImproved.falhas_suficientes cfg (AppImproved.mundo c) r = true) ->
          fst (AppImproved.envio_venda cfg (AppImproved.mundo c) r) = false ->
          let r1 := fst (AppImproved.ciclo_item cfg c r) in
          count_ev (is_dispatch KVenda) (snd (AppImproved.ciclo_item cfg c r)) = 1%nat
          /\ count_ev (is_delivered KVenda) (snd (AppImproved.ciclo_item cfg c r)) = 0%nat
          /\ AppImproved.carro_vendido r1 = 1
          /\ truthy (AppImproved.notificado_venda r1) = false
          /\ count_ev (is_dispatch KVenda)
               (snd (AppImproved.ciclos_item cfg cs r1)) = 0%nat
          /\ truthy (AppImproved.notificado_venda
                       (fst (AppImproved.ciclos_item cfg cs r1))) = false)
    /\ (forall (r : AppImproved.row) (cs : list AppImproved.item_cycle),
          truthy (AppImproved.carro_vendido r) = true ->
          count_ev (is_dispatch KVenda) (snd (AppImproved.ciclos_item cfg cs r)) = 0%nat
          /\ AppImproved.notificado_venda (fst (AppImproved.ciclos_item cfg cs r))
             = AppImproved.notificado_venda r).
Proof.
  intros cfg. split; [|split; [|split; [|split]]].
  - intros env st Hq.
    destruct (fst (AppImproved.verificar_conectividade_servidor (AppImproved.get env)))
      eqn:Hnet.
    + rewrite verificar_monitoramentos_trace by done.
      rewrite !count_ev_app, count_ev_cons. cbn [is_dispatch].
      unfold AppImproved.verificar_conectividade_servidor,
        AppImproved.verificar_saude_kavak.
      rewrite !tentar_sites_count by done.
      by rewrite passo5_sem_venda.
    + unfold AppImproved.verificar_conectividade_servidor in Hnet.
      pose proof (proj1 (tentar_sites_false _ _) Hnet) as Hsites.
      rewrite verificar_monitoramentos_sem_internet by done. reflexivity.
  - intros env st r Hnet Hnd Hr Hexp Hoff flag r'. subst flag r'.
    split; [|split].
    + rewrite verificar_monitoramentos_tabela by done.
      apply list_elem_of_fmap.
      exists r. split; [|by apply selecionar_elem in Hr as [? _]].
      rewrite bool_decide_eq_true_2; [reflexivity|].
      by apply (list_elem_of_fmap_2 AppImproved.row_id).
    + rewrite processar_monitoramento_row. cbn [AppImproved.falhas_consecutivas].
      by rewrite Hexp, Hoff.
    + intros ->. rewrite processar_monitoramento_row.
      cbn [AppImproved.carro_vendido AppImproved.notificado_venda].
      by rewrite notifica_venda_quarentena, marca_vendido_quarentena.
  - intros r c1 cs c2 Hat Hcv Hnv (Hl1 & Hq1 & Hexp1 & Hoff1 & Hsuf1) Hcs
      (Hl2 & Hq2 & Hexp2 & Hoff2) rn.
    assert (Hc1 : AppImproved.adia_venda r c1) by (right; done).
    destruct (ciclos_item_adia cfg (c1 :: cs) r Hat (Forall_cons_2 _ _ _ Hc1 Hcs))
      as (Hatn & Hdvn & Hcvn & Hnvn & _ & Htrn).
    fold rn in Hatn, Hdvn, Hcvn, Hnvn.
    assert (Hfn : AppImproved.FALHAS_PARA_VENDA cfg <= AppImproved.falhas_consecutivas rn).
    { subst rn. rewrite ciclos_item_cons. cbn [fst].
      destruct (ciclo_item_adia cfg r c1 Hat Hc1) as (Hat1 & Hdv1 & _).
      assert (Hcs1 : Forall (AppImproved.adia_venda
                               (fst (AppImproved.ciclo_item cfg c1 r))) cs).
      { eapply Forall_impl; [exact Hcs|].
        intros c' [?|(? & Hexp & ?)]; [by left | right].
        repeat split; try done.
        rewrite <- Hexp. by apply expirou_data_venda. }
      destruct (ciclos_item_adia cfg cs _ Hat1 Hcs1) as (_ & _ & _ & _ & Hle & _).
      etrans; [|exact Hle].
      rewrite ciclo_item_eq, Hat, Hl1. cbn [andb fst].
      rewrite processar_monitoramento_row. cbn [AppImproved.falhas_consecutivas].
      rewrite Hexp1, Hoff1.
      unfold AppImproved.falhas_suficientes in Hsuf1. apply Z.leb_le in Hsuf1.
      pose proof (falhas_necessarias_bounds cfg
                    (snd (AppImproved.verificar_link
                            (AppImproved.probe (AppImproved.mundo c1))))).
      lia. }
    assert (Hexpn : AppImproved.expirou (AppImproved.mundo c2) rn = false).
    { rewrite <- Hexp2. by apply expirou_data_venda. }
    destruct (ciclo_item_venda_adiada cfg rn c2) as (Hd & Hv & Hn);
      try done; try congruence.
    rewrite Hnvn in Hn. done.
  - intros r c cs Hat Hcv Hnv (Hl & Hq & Hexp & Hoff & Hsuf) Henv r1. subst r1.
    destruct (ciclo_item_venda cfg r c Hat Hcv Hnv Hl Hq Hexp Hoff Hsuf)
      as (Hd & Hdel & Hv & Hn).
    rewrite Henv in Hn, Hdel.
    destruct (ciclos_item_vendido_sem_envio cfg cs
                (fst (AppImproved.ciclo_item cfg c r))) as (Hd' & _ & Hn');
      [by rewrite Hv|].
    rewrite Hd', Hn', Hn. done.
  - intros r cs Hcv.
    by destruct (ciclos_item_vendido_sem_envio cfg cs r Hcv) as (? & _ & ?).
Qed.

(** The Kavak site is down, so step 3 sets the quarantine; the only row
    reaches its third 404 in that run: counter incremented, no sale
    notification; in the next run outside quarantine the notification goes
    out. *)
Lemma C2_witness_kavak_down :
  let r := AppImproved.mkRow 1 "https://www.kavak.com/br/carro-1" (IsoT 738000 0)
             "42" "telegram" "ativo" 0 0 0 None 2 (Some "http_404") in
  let t := mkDatetime 738010 (10 * HOUR) in
  let w := AppImproved.mkItemEnv t (Response 404) (fun _ => Response 200) in
  let env := AppImproved.mkCycleEnv t
               (fun url => if String.prefix "https://www.kavak.com" url
                           then RaiseTimeout else Response 200)
               t (fun _ => w) t in
  let st := AppImproved.mkState [r] [] AppImproved.sem_quarentena in
  let c1 := AppImproved.mkItemCycle true true w in
  let c2 := AppImproved.mkItemCycle true false w in
  count_ev (is_dispatch KVenda)
    (snd (AppImproved.verificar_monitoramentos AppImproved.default_config env st)) = 0%nat
  /\ AppImproved.falhas_consecutivas
       (AppImproved.sql_update
          (fst (AppImproved.processar_monitoramento AppImproved.default_config true w r))
          r) = 2 + 1
  /\ count_ev (is_dispatch KVenda)
       (snd (AppImproved.ciclo_item AppImproved.default_config c2
               (fst (AppImproved.ciclos_item AppImproved.default_config [c1] r)))) = 1%nat
  /\ (let c500 := AppImproved.mkItemCycle true false
                    (AppImproved.mkItemEnv t (Response 404) (fun _ => Response 500)) in
      let r1 := fst (AppImproved.ciclo_item AppImproved.default_config c500 r) in
      AppImproved.carro_vendido r1 = 1
      /\ count_ev (is_dispatch KVenda)
           (snd (AppImproved.ciclos_item AppImproved.default_config [c2; c2] r1)) = 0%nat
      /\ truthy (AppImproved.notificado_venda
                   (fst (AppImproved.ciclos_item AppImproved.default_config
                           [c2; c2] r1))) = false).
Proof.
  intros r t w env st c1 c2.
  destruct (C2_quarantine_defers_sale_notification AppImproved.default_config)
    as (Ha & Hb & Hc & Hd4 & _).
  split; [apply Ha; reflexivity|]. split; [|split].
  3:{ intros c500 r1. subst r1.
      assert (H5 : AppImproved.no_lote c500 = true /\ AppImproved.em_quarentena c500 = false
                   /\ AppImproved.expirou (AppImproved.mundo c500) r = false
                   /\ AppImproved.link_offline (AppImproved.mundo c500) = true
                   /\ AppImproved.falhas_suficientes AppImproved.default_config
                        (AppImproved.mundo c500) r = true).
      { repeat split; reflexivity. }
      destruct (Hd4 r c500 [c2; c2] eq_refl eq_refl eq_refl H5 eq_refl)
        as (_ & _ & Hv & _ & Hd' & Hn').
      split; [exact Hv|]. split; [exact Hd' | exact Hn']. }
  - assert (Hnd : NoDup (map AppImproved.row_id (AppImproved.tabela st))).
    { simpl. apply NoDup_singleton. }
    assert (Hr : r ∈ AppImproved.selecionar AppImproved.default_config
                       (AppImproved.tabela st)).
    { apply list_elem_of_singleton. reflexivity. }
    destruct (Hb env st r eq_refl Hnd Hr eq_refl eq_refl) as (_ & Hf & _).
    exact Hf.
  - assert (H1 : AppImproved.no_lote c1 = true /\ AppImproved.em_quarentena c1 = true
                 /\ AppImproved.expirou (AppImproved.mundo c1) r = false
                 /\ AppImproved.link_offline (AppImproved.mundo c1) = true
                 /\ AppImproved.falhas_suficientes AppImproved.default_config
                      (AppImproved.mundo c1) r = true).
    { repeat split; reflexivity. }
    assert (H2 : AppImproved.no_lote c2 = true /\ AppImproved.em_quarentena c2 = false
                 /\ AppImproved.expirou (AppImproved.mundo c2) r = false
                 /\ AppImproved.link_offline (AppImproved.mundo c2) = true).
    { repeat split; reflexivity. }
    destruct (Hc r c1 [] c2 eq_refl eq_refl eq_refl H1 (Forall_nil_2 _) H2)
      as (_ & _ & _ & Hd & _).
    exact Hd.
Defined.

(** C2 as stated fails where it rests the retry on [notificado_venda]: a
    sale dispatched outside quarantine while Telegram answers 500 is
    recorded ([carro_vendido] = 1) with [notificado_venda] unset; in the five
    cycles that follow the row still fails, quarantine is off and Telegram
    answers 200, yet no sale notification is dispatched and
    [notificado_venda] stays unset. *)
Lemma C2_counterexample_unconfirmed_sale_not_retried :
  let r := AppImproved.mkRow 1 "https://www.kavak.com/br/carro-1" (IsoT 738000 0)
             "42" "telegram" "ativo" 0 0 0 None 2 (Some "http_404") in
  let t := mkDatetime 738010 (10 * HOUR) in
  let c500 := AppImproved.mkItemCycle true false
                (AppImproved.mkItemEnv t (Response 404) (fun _ => Response 500)) in
  let c200 := AppImproved.mkItemCycle true false
                (AppImproved.mkItemEnv t (Response 404) (fun _ => Response 200)) in
  let res1 := AppImproved.ciclo_item AppImproved.default_config c500 r in
  let res2 := AppImproved.ciclos_item AppImproved.default_config
                [c200; c200; c200; c200; c200] (fst res1) in
  count_ev (is_dispatch KVenda) (snd res1) = 1%nat
  /\ count_ev (is_delivered KVenda) (snd res1) = 0%nat
  /\ AppImproved.carro_vendido (fst res1) = 1
  /\ AppImproved.notificado_venda (fst res1) = 0
  /\ AppImproved.falhas_consecutivas (fst res2) = 8
  /\ count_ev (is_dispatch KVenda) (snd res2) = 0%nat
  /\ AppImproved.notificado_venda (fst res2) = 0.
Proof. repeat split; vm_compute; reflexivity. Qed.

(** ** The systemic-failure check of step 6 *)

(** For the default threshold and any batch of at most 50 rows, the
    comparison made in double precision is the exact comparison of the
    ratio with 70%. *)
Lemma atinge_limite_exato_70 :
  forallb (fun n =>
     forallb (fun k =>
        Bool.eqb (PrimFloat.leb (AppImproved.z2f 70) (AppImproved.porcentagem k n))
                 (70 * n <=? 100 * k))
       (seqZ 0 (n + 1)))
    (seqZ 1 50) = true.
Proof. vm_compute. reflexivity. Qed.

Lemma atinge_limite_70 cfg k n :
  AppImproved.LIMITE_FALHAS_SISTEMICAS cfg = 70 ->
  1 <= n <= 50 -> 0 <= k <= n ->
  AppImproved.atinge_limite cfg (AppImproved.porcentagem k n) = (70 * n <=? 100 * k).
Proof.
  intros H70 Hn Hk. unfold AppImproved.atinge_limite. rewrite H70.
  pose proof atinge_limite_exato_70 as H.
  rewrite forallb_forall in H.
  assert (Hin : In n (seqZ 1 50)) by (apply list_elem_of_In, elem_of_seqZ; lia).
  specialize (H n Hin). rewrite forallb_forall in H.
  assert (Hik : In k (seqZ 0 (n + 1))) by (apply list_elem_of_In, elem_of_seqZ; lia).
  specialize (H k Hik). by apply Bool.eqb_prop in H.
Qed.

(** C3, as the code has it. In a run that passes the preflight with a batch
    that is not empty, the failure percentage is 100 times the number of
    rows of the batch whose worker reported a failed probe in this run
    (deadline not passed, probe failed, incremented counter positive) over
    the number of rows of the batch, computed in double precision; whenever
    it is at or above [LIMITE_FALHAS_SISTEMICAS] the quarantine is set until
    the clock of step 6 plus [QUARENTENA_MINUTOS] and one sample (rows,
    failures, percentage, unhealthy) is appended to [system_health];
    otherwise both stay as the workers found them. With the default
    threshold 70 and at most 50 rows the comparison is exact, and 8 failures
    out of 10 give the ratio 0.8, stored as the percentage 80.0. *)
Theorem C3_systemic_failure_ratio :
  forall (cfg : AppImproved.config) (env : AppImproved.cycle_env)
         (st : AppImproved.state),
    fst (AppImproved.verificar_conectividade_servidor (AppImproved.get env)) = true ->
    AppImproved.selecionar cfg (AppImproved.tabela st) <> [] ->
    let lote := AppImproved.selecionar cfg (AppImproved.tabela st) in
    let n := Z.of_nat (length lote) in
    let total :=
      Z.of_nat (length (filter
        (fun r => AppImproved.falhou_no_ciclo
                    (AppImproved.item_envs env (AppImproved.row_id r)) r = true) lote)) in
    let pct := AppImproved.porcentagem total n in
    let st' := fst (AppImproved.verificar_monitoramentos cfg env st) in
    (AppImproved.atinge_limite cfg pct = true ->
       AppImproved.globals st'
         = AppImproved.mkQuarentena true
             (Some (add_minutes (AppImproved.clock_passo6 env)
                      (AppImproved.QUARENTENA_MINUTOS cfg)))
       /\ AppImproved.system_health st'
          = AppImproved.system_health st ++ [AppImproved.mkSample n total pct 0])
    /\ (AppImproved.atinge_limite cfg pct = false ->
          AppImproved.globals st' = AppImproved.quarentena_workers cfg env st
          /\ AppImproved.system_health st' = AppImproved.system_health st)
    /\ (AppImproved.LIMITE_FALHAS_SISTEMICAS cfg = 70 -> n <= 50 ->
          AppImproved.atinge_limite cfg pct = (70 * n <=? 100 * total))
    /\ PrimFloat.div (AppImproved.z2f 8) (AppImproved.z2f 10)
       = 0x1.999999999999ap-1%float (* the double nearest to 0.8 *)
    /\ AppImproved.porcentagem 8 10 = 80%float
    /\ AppImproved.atinge_limite AppImproved.default_config
         (AppImproved.porcentagem 8 10) = true.
Proof.
  intros cfg env st Hnet Hlote lote n total pct st'.
  destruct (verificar_monitoramentos_passo6 cfg env st Hnet Hlote) as [Hg Hh].
  rewrite contar_falhas_passo5 in Hg, Hh.
  fold lote in Hg, Hh. fold total in Hg, Hh. fold n in Hg, Hh. fold pct in Hg, Hh.
  fold st' in Hg, Hh.
  split; [|split; [|split; [|split; [|split]]]].
  - intros Hlim. rewrite Hlim in Hg, Hh. by split.
  - intros Hlim. rewrite Hlim in Hg, Hh. by split.
  - intros H70 Hn. apply atinge_limite_70; [done| |].
    + split; [|done]. subst n lote.
      destruct (AppImproved.selecionar cfg (AppImproved.tabela st)); [done|].
      simpl length. lia.
    + subst total n. split; [lia|].
      apply inj_le, length_filter.
  - vm_compute. reflexivity.
  - vm_compute. reflexivity.
  - vm_compute. reflexivity.
Qed.

(** C3 as stated fails on a row that expires with a positive counter: the
    row (a sold car, three recorded failures) passes its deadline; the
    worker returns before probing, step 5 counts no failure, no quarantine
    is set and no sample is written, although after the run the only row of
    the batch has [falhas_consecutivas] = 3 > 0 (1 out of 1, above 70%). *)
Lemma C3_counterexample_expired_row :
  let r := AppImproved.mkRow 1 "https://www.kavak.com/br/carro-1" (IsoT 738000 0)
             "42" "telegram" "ativo" 1 1 1 None 3 (Some "http_404") in
  let t := mkDatetime 738045 (10 * HOUR) in
  let env := AppImproved.mkCycleEnv t (fun _ => Response 200) t
               (fun _ => AppImproved.mkItemEnv t (Response 404) (fun _ => Response 200))
               t in
  let st := AppImproved.mkState [r] [] AppImproved.sem_quarentena in
  let st' := fst (AppImproved.verificar_monitoramentos AppImproved.default_config env st) in
  AppImproved.selecionar AppImproved.default_config (AppImproved.tabela st) = [r]
  /\ map AppImproved.falhas_consecutivas (AppImproved.tabela st') = [3]
  /\ map AppImproved.status (AppImproved.tabela st') = ["expirado"]
  /\ AppImproved.system_health st' = []
  /\ AppImproved.globals st' = AppImproved.sem_quarentena.
Proof. repeat split; vm_compute; reflexivity. Qed.

(** Ten active rows, eight of them offline: quarantine for 30 minutes from
    the clock of step 6 and the sample (10, 8, 80.0, unhealthy). *)
Lemma C3_witness_eight_of_ten :
  let rows := map (fun i => AppImproved.mkRow i "https://www.kavak.com/br/carro"
                              (IsoT 738000 0) "42" "telegram" "ativo" 0 0 0 None 0 None)
                  (seqZ 1 10) in
  let t := mkDatetime 738010 (10 * HOUR) in
  let env := AppImproved.mkCycleEnv t (fun _ => Response 200) t
               (fun i => AppImproved.mkItemEnv t
                           (if i <=? 8 then Response 404 else Response 200)
                           (fun _ => Response 200))
               t in
  let st := AppImproved.mkState rows [] AppImproved.sem_quarentena in
  let st' := fst (AppImproved.verificar_monitoramentos AppImproved.default_config env st) in
  AppImproved.globals st'
    = AppImproved.mkQuarentena true (Some (mkDatetime 738010 (10 * HOUR + 30 * MINUTE)))
  /\ AppImproved.system_health st' = [AppImproved.mkSample 10 8 80%float 0].
Proof.
  intros rows t env st st'.
  assert (Hlote : AppImproved.selecionar AppImproved.default_config
                    (AppImproved.tabela st) <> []).
  { vm_compute. discriminate. }
  destruct (C3_systemic_failure_ratio AppImproved.default_config env st eq_refl Hlote)
    as (Hact & _).
  destruct Hact as [Hg Hh]; [vm_compute; reflexivity|].
  fold st' in Hg, Hh. rewrite Hg, Hh. split; vm_compute; reflexivity.
Defined.

(** ** Notifications of one call ([app.py]) *)

Section NotificacoesApp.
Import App.

Lemma app_enviar_notificacao_trace cfg post tipo contato m :
  exists posts,
    snd (enviar_notificacao cfg post tipo contato m)
      = posts ++ [EvNotificacao tipo contato m
                    (fst (enviar_notificacao cfg post tipo contato m))]
    /\ Forall (fun e => is_post e = true) posts.
Proof.
  unfold enviar_notificacao.
  destruct (if String.eqb tipo "telegram"
            then enviar_notificacao_telegram cfg post contato m
            else (false, [])) as [ok tr] eqn:E.
  exists tr. split; [reflexivity|].
  destruct (String.eqb tipo "telegram"); [|injection E as <- <-; constructor].
  unfold enviar_notificacao_telegram in E.
  repeat case_match; injection E as <- <-; repeat constructor.
Qed.

Lemma app_envio_dispatch cfg env r m k :
  count_ev (is_dispatch k) (snd (envio cfg env r m))
    = if bool_decide (kind_of m = k) then 1%nat else 0%nat.
Proof.
  unfold envio.
  destruct (app_enviar_notificacao_trace cfg (telegram env) (tipo_notificacao r)
              (contato r) m) as (posts & -> & Hp).
  rewrite count_ev_app, (count_posts_only _ posts); [|by intros [] | done].
  rewrite count_ev_cons. simpl. by destruct (bool_decide _).
Qed.

Lemma app_envio_delivered cfg env r m k :
  count_ev (is_delivered k) (snd (envio cfg env r m))
    = if bool_decide (kind_of m = k) && fst (envio cfg env r m)
      then 1%nat else 0%nat.
Proof.
  unfold envio.
  destruct (app_enviar_notificacao_trace cfg (telegram env) (tipo_notificacao r)
              (contato r) m) as (posts & -> & Hp).
  rewrite count_ev_app, (count_posts_only _ posts); [|by intros [] | done].
  rewrite count_ev_cons. simpl. by destruct (_ && _).
Qed.

Variables (cfg : config) (env : item_env) (r : row).

Lemma app_processar_monitoramento_dispatch k :
  count_ev (is_dispatch k) (snd (processar_monitoramento cfg env r)) =
    if expirou env r then
      if notifica_expirado env r && bool_decide (KExpirado = k) then 1%nat else 0%nat
    else
      ((if notifica_venda env r && bool_decide (KVenda = k) then 1 else 0)
       + ((if notifica_prazo env r && bool_decide (KPrazo = k) then 1 else 0)
          + (if notifica_semanal env r && bool_decide (KSemanal = k) then 1 else 0)))%nat.
Proof.
  rewrite app_processar_monitoramento_trace.
  unfold envio_expirado, envio_venda, envio_prazo, envio_semanal.
  destruct (expirou env r).
  - destruct (notifica_expirado env r); [|reflexivity].
    by rewrite app_envio_dispatch.
  - rewrite count_ev_cons, !count_ev_app. cbn [is_dispatch].
    destruct (notifica_venda env r), (notifica_prazo env r), (notifica_semanal env r);
      rewrite ?app_envio_dispatch, ?count_ev_nil; reflexivity.
Qed.

Lemma app_processar_monitoramento_delivered k :
  count_ev (is_delivered k) (snd (processar_monitoramento cfg env r)) =
    if expirou env r then
      if notifica_expirado env r && fst (envio_expirado cfg env r)
         && bool_decide (KExpirado = k) then 1%nat else 0%nat
    else
      ((if notifica_venda env r && fst (envio_venda cfg env r)
           && bool_decide (KVenda = k) then 1 else 0)
       + ((if notifica_prazo env r && fst (envio_prazo cfg env r)
              && bool_decide (KPrazo = k) then 1 else 0)
          + (if notifica_semanal env r && fst (envio_semanal cfg env r)
                && bool_decide (KSemanal = k) then 1 else 0)))%nat.
Proof.
  rewrite app_processar_monitoramento_trace.
  unfold envio_expirado, envio_venda, envio_prazo, envio_semanal.
  destruct (expirou env r).
  - destruct (notifica_expirado env r); [|reflexivity].
    rewrite app_envio_delivered. cbn [kind_of andb].
    destruct (fst (envio cfg env r MsgExpirado)), (bool_decide (KExpirado = k));
      reflexivity.
  - rewrite count_ev_cons, !count_ev_app. cbn [is_delivered].
    destruct (notifica_venda env r), (notifica_prazo env r), (notifica_semanal env r);
      rewrite ?app_envio_delivered, ?count_ev_nil; cbn [kind_of andb];
      repeat (destruct (fst (envio _ _ _ _)));
      repeat (destruct (bool_decide _)); reflexivity.
Qed.
End NotificacoesApp.

(** ** Idempotency markers *)

Lemma count_delivered_le_dispatch k tr :
  (count_ev (is_delivered k) tr <= count_ev (is_dispatch k) tr)%nat.
Proof.
  induction tr as [|e tr IH]; [reflexivity|].
  rewrite !count_ev_cons.
  destruct e as [| | | |tipo contato m ok]; simpl; try lia.
  destruct (bool_decide (kind_of m = k)), ok; simpl; lia.
Qed.

(** The argument shared by the two back ends: a step that delivers at most
    once, sets the marker exactly on delivery and dispatches nothing once
    the marker is set, keeps these three properties over any number of
    steps. *)
Section AtMostOnce.
Context {R C : Type}.
Variables (step : C -> R -> R * list event)
          (run : list C -> R -> R * list event)
          (mark : R -> bool) (k : notif_kind).
Hypothesis run_nil : forall r, run [] r = (r, []).
Hypothesis run_cons : forall c cs r,
  run (c :: cs) r =
    (fst (run cs (fst (step c r))),
     snd (step c r) ++ snd (run cs (fst (step c r)))).
Hypothesis step_marker : forall c r,
  (count_ev (is_delivered k) (snd (step c r)) <= 1)%nat
  /\ mark (fst (step c r))
     = mark r || (0 <? count_ev (is_delivered k) (snd (step c r)))%nat
  /\ (mark r = true -> count_ev (is_dispatch k) (snd (step c r)) = 0%nat).

Lemma run_marker cs :
  forall r,
    (count_ev (is_delivered k) (snd (run cs r)) <= 1)%nat
    /\ mark (fst (run cs r))
       = mark r || (0 <? count_ev (is_delivered k) (snd (run cs r)))%nat
    /\ (mark r = true -> count_ev (is_dispatch k) (snd (run cs r)) = 0%nat).
Proof.
  induction cs as [|c cs IH]; intros r.
  - rewrite run_nil. cbn [fst snd]. rewrite !count_ev_nil.
    split; [lia|]. split; [|done].
    change (0 <? 0)%nat with false. by rewrite orb_false_r.
  - rewrite run_cons. cbn [fst snd]. rewrite !count_ev_app.
    destruct (step_marker c r) as (Hd1 & Hm1 & Hz1).
    destruct (IH (fst (step c r))) as (Hd2 & Hm2 & Hz2).
    pose proof (count_delivered_le_dispatch k (snd (step c r))) as Hle1.
    pose proof (count_delivered_le_dispatch k (snd (run cs (fst (step c r))))) as Hle2.
    rewrite Hm2, Hm1.
    destruct (mark r) eqn:Hr; cbn [orb] in *.
    + specialize (Hz1 eq_refl). specialize (Hz2 Hm1).
      split; [lia|]. split; [done|]. intros _. lia.
    + destruct (Nat.ltb_spec 0 (count_ev (is_delivered k) (snd (step c r))))
        as [Hpos|Hzero]; cbn [orb] in *.
      * specialize (Hz2 Hm1).
        split; [lia|]. split; [|done].
        symmetry. apply Nat.ltb_lt. lia.
      * assert (Hz : count_ev (is_delivered k) (snd (step c r)) = 0%nat) by lia.
        rewrite Hz. cbn [Nat.add].
        split; [lia|]. split; [done|done].
Qed.
End AtMostOnce.

Section MarcadoresImproved.
Import AppImproved.
Variable cfg : config.

Lemma ciclo_item_marcador k c r :
  (count_ev (is_delivered k) (snd (ciclo_item cfg c r)) <= 1)%nat
  /\ truthy (marcador k (fst (ciclo_item cfg c r)))
     = truthy (marcador k r)
       || (0 <? count_ev (is_delivered k) (snd (ciclo_item cfg c r)))%nat
  /\ (truthy (marcador k r) = true ->
      count_ev (is_dispatch k) (snd (ciclo_item cfg c r)) = 0%nat).
Proof.
  rewrite ciclo_item_eq. destruct (ativo r && no_lote c); cbn [fst snd].
  2:{ rewrite !count_ev_nil. split; [lia|]. split; [|done].
      change (0 <? 0)%nat with false. by rewrite orb_false_r. }
  rewrite processar_monitoramento_delivered, processar_monitoramento_dispatch,
    processar_monitoramento_row.
  unfold notifica_venda, notifica_prazo.
  destruct k; cbn [marcador notificado_venda notificado_prazo];
    repeat match goal with
           | |- context [bool_decide (?a = ?b)] =>
               first [ rewrite (bool_decide_eq_true_2 (a = b)) by reflexivity
                     | rewrite (bool_decide_eq_false_2 (a = b)) by discriminate ]
           end;
    rewrite ?andb_true_r, ?andb_false_r; cbn [Nat.add].
  - destruct (truthy (notificado_venda r)) eqn:Hm;
      rewrite ?andb_false_r; cbn [andb negb orb].
    + rewrite Hm. split; [lia|]. split; [done|done].
    + rewrite andb_true_r.
      destruct (marca_vendido cfg (em_quarentena c) (mundo c) r); cbn [andb].
      * destruct (fst (envio_venda cfg (mundo c) r)); rewrite ?Hm;
          (split; [simpl; lia|]); (split; [done|done]).
      * rewrite Hm. split; [simpl; lia|]. split; [done|done].
  - destruct (truthy (notificado_prazo r)) eqn:Hm;
      rewrite ?andb_false_r; cbn [andb negb orb].
    + rewrite Hm. split; [lia|]. split; [done|done].
    + rewrite andb_true_r.
      destruct (negb (expirou (mundo c) r)
                && (dias_restantes r (now (mundo c)) <=? 5)
                && (0 <? dias_restantes r (now (mundo c)))); cbn [andb].
      * destruct (fst (envio_prazo cfg (mundo c) r)); rewrite ?Hm;
          (split; [simpl; lia|]); (split; [done|done]).
      * rewrite Hm. split; [simpl; lia|]. split; [done|done].
  - split; [simpl; lia|]. split; [done|done].
  - split; [simpl; lia|]. split; [done|done].
Qed.

Lemma ciclos_item_marcador k cs r :
  (count_ev (is_delivered k) (snd (ciclos_item cfg cs r)) <= 1)%nat
  /\ truthy (marcador k (fst (ciclos_item cfg cs r)))
     = truthy (marcador k r)
       || (0 <? count_ev (is_delivered k) (snd (ciclos_item cfg cs r)))%nat
  /\ (truthy (marcador k r) = true ->
      count_ev (is_dispatch k) (snd (ciclos_item cfg cs r)) = 0%nat).
Proof.
  apply (run_marker (ciclo_item cfg) (ciclos_item cfg)
           (fun r => truthy (marcador k r)) k).
  - reflexivity.
  - apply ciclos_item_cons.
  - apply ciclo_item_marcador.
Qed.
End MarcadoresImproved.

Section MarcadoresApp.
Import App.
Variable cfg : config.

Lemma app_ciclo_item_eq c r :
  ciclo_item cfg c r =
    if ativo r && no_lote c
    then (sql_update (fst (processar_monitoramento cfg (mundo c) r)) r,
          snd (processar_monitoramento cfg (mundo c) r))
    else (r, []).
Proof.
  unfold ciclo_item. destruct (ativo r && no_lote c); [|reflexivity].
  by destruct (processar_monitoramento cfg (mundo c) r).
Qed.

Lemma app_ciclos_item_cons c cs r :
  ciclos_item cfg (c :: cs) r =
    (fst (ciclos_item cfg cs (fst (ciclo_item cfg c r))),
     snd (ciclo_item cfg c r) ++ snd (ciclos_item cfg cs (fst (ciclo_item cfg c r)))).
Proof.
  simpl. destruct (ciclo_item cfg c r) as [r1 tr1]. simpl.
  by destruct (ciclos_item cfg cs r1).
Qed.

Lemma app_ciclos_item_app cs1 cs2 r :
  ciclos_item cfg (cs1 ++ cs2) r =
    (fst (ciclos_item cfg cs2 (fst (ciclos_item cfg cs1 r))),
     snd (ciclos_item cfg cs1 r) ++ snd (ciclos_item cfg cs2 (fst (ciclos_item cfg cs1 r)))).
Proof.
  revert r. induction cs1 as [|c cs1 IH]; intros r.
  - simpl. by destruct (ciclos_item cfg cs2 r).
  - rewrite <- app_comm_cons, !app_ciclos_item_cons, IH. simpl. by rewrite app_assoc.
Qed.

Lemma app_ciclo_item_marcador k c r :
  k <> KSemanal ->
  (count_ev (is_delivered k) (snd (ciclo_item cfg c r)) <= 1)%nat
  /\ truthy (marcador k (fst (ciclo_item cfg c r)))
     = truthy (marcador k r)
       || (0 <? count_ev (is_delivered k) (snd (ciclo_item cfg c r)))%nat
  /\ (truthy (marcador k r) = true ->
      count_ev (is_dispatch k) (snd (ciclo_item cfg c r)) = 0%nat).
Proof.
  intros Hk.
  rewrite app_ciclo_item_eq. destruct (ativo r && no_lote c); cbn [fst snd].
  2:{ rewrite !count_ev_nil. split; [lia|]. split; [|done].
      change (0 <? 0)%nat with false. by rewrite orb_false_r. }
  rewrite app_processar_monitoramento_delivered, app_processar_monitoramento_dispatch,
    app_processar_monitoramento_row.
  unfold notifica_venda, notifica_prazo, notifica_expirado.
  destruct k; [| | |done];
    cbn [marcador notificado_venda notificado_prazo notificado_expirado];
    repeat match goal with
           | |- context [bool_decide (?a = ?b)] =>
               first [ rewrite (bool_decide_eq_true_2 (a = b)) by reflexivity
                     | rewrite (bool_decide_eq_false_2 (a = b)) by discriminate ]
           end;
    rewrite ?andb_true_r, ?andb_false_r; cbn [Nat.add].
  - destruct (expirou (mundo c) r) eqn:Hexp.
    { unfold marca_vendido. rewrite Hexp. cbn [negb andb].
      split; [lia|]. split; [|done].
      change (0 <? 0)%nat with false. by rewrite orb_false_r. }
    rewrite Nat.add_0_r.
    destruct (truthy (notificado_venda r)) eqn:Hm;
      rewrite ?andb_false_r; cbn [andb negb orb].
    + rewrite Hm. split; [lia|]. split; [done|done].
    + rewrite andb_true_r.
      destruct (marca_vendido (mundo c) r); cbn [andb].
      * destruct (fst (envio_venda cfg (mundo c) r)); rewrite ?Hm;
          (split; [simpl; lia|]); (split; [done|done]).
      * rewrite Hm. split; [simpl; lia|]. split; [done|done].
  - destruct (expirou (mundo c) r) eqn:Hexp; cbn [negb andb].
    { split; [lia|]. split; [|done].
      change (0 <? 0)%nat with false. by rewrite orb_false_r. }
    rewrite Nat.add_0_r.
    destruct (truthy (notificado_prazo r)) eqn:Hm;
      rewrite ?andb_false_r; cbn [andb negb orb].
    + rewrite Hm. split; [lia|]. split; [done|done].
    + rewrite andb_true_r.
      destruct ((dias_restantes (mundo c) r <=? 5)
                && (0 <? dias_restantes (mundo c) r)); cbn [andb].
      * destruct (fst (envio_prazo cfg (mundo c) r)); rewrite ?Hm;
          (split; [simpl; lia|]); (split; [done|done]).
      * rewrite Hm. split; [simpl; lia|]. split; [done|done].
  - destruct (expirou (mundo c) r) eqn:Hexp; cbn [negb andb].
    2:{ split; [simpl; lia|]. split; [|done].
        change (0 <? 0 + 0)%nat with false. by rewrite orb_false_r. }
    destruct (truthy (notificado_expirado r)) eqn:Hm; cbn [andb negb orb].
    + rewrite Hm. split; [lia|]. split; [done|done].
    + destruct (fst (envio_expirado cfg (mundo c) r)); rewrite ?Hm;
        (split; [simpl; lia|]); (split; [done|done]).
Qed.

Lemma app_ciclos_item_marcador k cs r :
  k <> KSemanal ->
  (count_ev (is_delivered k) (snd (ciclos_item cfg cs r)) <= 1)%nat
  /\ truthy (marcador k (fst (ciclos_item cfg cs r)))
     = truthy (marcador k r)
       || (0 <? count_ev (is_delivered k) (snd (ciclos_item cfg cs r)))%nat
  /\ (truthy (marcador k r) = true ->
      count_ev (is_dispatch k) (snd (ciclos_item cfg cs r)) = 0%nat).
Proof.
  intros Hk.
  apply (run_marker (ciclo_item cfg) (ciclos_item cfg)
           (fun r => truthy (marcador k r)) k).
  - reflexivity.
  - apply app_ciclos_item_cons.
  - intros c r0. by apply app_ciclo_item_marcador.
Qed.
End MarcadoresApp.

(** C4. For the sale, deadline and expiry notifications, over any number of
    cycles of a row and in both back ends: the calls of [enviar_notificacao]
    of that kind that returned [True] are at most one; the marker is set
    after the cycles exactly when it was set before or such a call happened
    (so, from an unset marker, it is set if and only if one delivery was
    confirmed); once the marker is set no notification of that kind is
    dispatched again; and a marker that is set stays set. *)
Theorem C4_marker_iff_confirmed_delivery :
  forall k : notif_kind,
    k <> KSemanal ->
    (forall (cfg : AppImproved.config) (cs : list AppImproved.item_cycle)
            (r : AppImproved.row),
        let res := AppImproved.ciclos_item cfg cs r in
        (count_ev (is_delivered k) (snd res) <= 1)%nat
        /\ truthy (AppImproved.marcador k (fst res))
           = truthy (AppImproved.marcador k r)
             || (0 <? count_ev (is_delivered k) (snd res))%nat
        /\ (truthy (AppImproved.marcador k r) = false ->
            (truthy (AppImproved.marcador k (fst res)) = true
             <-> count_ev (is_delivered k) (snd res) = 1%nat))
        /\ (truthy (AppImproved.marcador k r) = true ->
            count_ev (is_dispatch k) (snd res) = 0%nat)
        /\ (forall cs2,
              truthy (AppImproved.marcador k (fst res)) = true ->
              truthy (AppImproved.marcador k
                        (fst (AppImproved.ciclos_item cfg (cs ++ cs2) r))) = true))
    /\ (forall (cfg : App.config) (cs : list App.item_cycle) (r : App.row),
          let res := App.ciclos_item cfg cs r in
          (count_ev (is_delivered k) (snd res) <= 1)%nat
          /\ truthy (App.marcador k (fst res))
             = truthy (App.marcador k r)
               || (0 <? count_ev (is_delivered k) (snd res))%nat
          /\ (truthy (App.marcador k r) = false ->
              (truthy (App.marcador k (fst res)) = true
               <-> count_ev (is_delivered k) (snd res) = 1%nat))
          /\ (truthy (App.marcador k r) = true ->
              count_ev (is_dispatch k) (snd res) = 0%nat)
          /\ (forall cs2,
                truthy (App.marcador k (fst res)) = true ->
                truthy (App.marcador k
                          (fst (App.ciclos_item cfg (cs ++ cs2) r))) = true)).
Proof.
  intros k Hk. split.
  - intros cfg cs r res. subst res.
    destruct (ciclos_item_marcador cfg k cs r) as (Hd & Hm & Hz).
    split; [exact Hd|]. split; [exact Hm|]. split; [|split; [exact Hz|]].
    + intros Hunset. rewrite Hm, Hunset. cbn [orb].
      rewrite Nat.ltb_lt. lia.
    + intros cs2 Hset. rewrite ciclos_item_app. cbn [fst].
      destruct (ciclos_item_marcador cfg k cs2 (fst (AppImproved.ciclos_item cfg cs r)))
        as (_ & Hm2 & _).
      by rewrite Hm2, Hset.
  - intros cfg cs r res. subst res.
    destruct (app_ciclos_item_marcador cfg k cs r Hk) as (Hd & Hm & Hz).
    split; [exact Hd|]. split; [exact Hm|]. split; [|split; [exact Hz|]].
    + intros Hunset. rewrite Hm, Hunset. cbn [orb].
      rewrite Nat.ltb_lt. lia.
    + intros cs2 Hset. rewrite app_ciclos_item_app. cbn [fst].
      destruct (app_ciclos_item_marcador cfg k cs2 (fst (App.ciclos_item cfg cs r)) Hk)
        as (_ & Hm2 & _).
      by rewrite Hm2, Hset.
Qed.

(** A row of [app.py] that fails twice, is reported sold (delivery
    confirmed) and keeps failing: one confirmed sale notification in four
    cycles, and the marker is set. *)
Lemma C4_witness_sale_delivered_once :
  let r := App.mkRow 1 "https://www.kavak.com/br/carro-1" (IsoT 738000 0)
             "42" "telegram" "ativo" 0 0 0 None 0 0 None in
  let t := mkDatetime 738010 (9 * HOUR) in
  let c := App.mkItemCycle true (App.mkItemEnv t (Response 404) (fun _ => Response 200)) in
  let res := App.ciclos_item App.default_config [c; c; c; c] r in
  (count_ev (is_delivered KVenda) (snd res) <= 1)%nat
  /\ truthy (App.marcador KVenda (fst res)) = true
  /\ count_ev (is_delivered KVenda) (snd res) = 1%nat.
Proof.
  intros r t c res.
  assert (Hk : KVenda <> KSemanal) by discriminate.
  destruct (C4_marker_iff_confirmed_delivery KVenda Hk) as [_ Happ].
  destruct (Happ App.default_config [c; c; c; c] r) as (Hle & _ & Hiff & _).
  split; [exact Hle|]. split; [reflexivity|].
  apply Hiff; reflexivity.
Defined.

(** ** Expiry *)

Section ExpiracaoApp.
Import App.
Variable cfg : config.

Lemma app_ativo_status r : ativo r = true <-> status r = "ativo".
Proof. unfold ativo. apply String.eqb_eq. Qed.

(** An active row has never been sent the expiry message. *)
Lemma app_ciclo_item_inv c r :
  (status r = "ativo" -> notificado_expirado r = 0) ->
  status (fst (ciclo_item cfg c r)) = "ativo" ->
  notificado_expirado (fst (ciclo_item cfg c r)) = 0.
Proof.
  intros Hinv. rewrite app_ciclo_item_eq.
  destruct (ativo r && no_lote c) eqn:Hsel; cbn [fst]; [|exact Hinv].
  apply andb_prop in Hsel as [Hat _]. apply app_ativo_status in Hat.
  rewrite app_processar_monitoramento_row. cbn [status notificado_expirado].
  unfold notifica_expirado.
  destruct (expirou (mundo c) r); [discriminate|].
  intros _. cbn [andb]. by apply Hinv.
Qed.

Lemma app_alcancavel_inv r :
  alcancavel cfg r -> ativo r = true -> notificado_expirado r = 0.
Proof.
  intros (r0 & cs & Hcr & ->) Hat. apply app_ativo_status in Hat.
  assert (H0 : status r0 = "ativo" -> notificado_expirado r0 = 0).
  { intros _. by destruct Hcr as (_ & _ & _ & _ & _ & ? & _). }
  clear Hcr. revert r0 H0 Hat.
  induction cs as [|c cs IH]; intros r0 H0 Hat.
  - simpl in *. by apply H0.
  - rewrite app_ciclos_item_cons in *. cbn [fst] in *.
    apply (IH (fst (ciclo_item cfg c r0))); [|exact Hat].
    by apply app_ciclo_item_inv.
Qed.

(** A row that is not active is never selected again. *)
Lemma app_ciclos_item_inativo cs r :
  ativo r = false -> ciclos_item cfg cs r = (r, []).
Proof.
  intros Hat. induction cs as [|c cs IH]; [reflexivity|].
  rewrite app_ciclos_item_cons, app_ciclo_item_eq, Hat. cbn [andb fst snd].
  by rewrite IH.
Qed.

Lemma app_ciclo_item_expira c r :
  ativo r = true -> notificado_expirado r = 0 -> no_lote c = true ->
  dias_restantes (mundo c) r = 0 ->
  status (fst (ciclo_item cfg c r)) = "expirado"
  /\ count_ev (is_dispatch KExpirado) (snd (ciclo_item cfg c r)) = 1%nat
  /\ (forall k, k <> KExpirado ->
        count_ev (is_dispatch k) (snd (ciclo_item cfg c r)) = 0%nat)
  /\ count_ev is_probe (snd (ciclo_item cfg c r)) = 0%nat.
Proof.
  intros Hat Hne Hlote Hd.
  rewrite app_ciclo_item_eq, Hat, Hlote. cbn [andb fst snd].
  rewrite app_processar_monitoramento_row. cbn [status].
  assert (Hexp : expirou (mundo c) r = true) by (unfold expirou; by rewrite Hd).
  assert (Hnot : notifica_expirado (mundo c) r = true).
  { unfold notifica_expirado. by rewrite Hexp, Hne. }
  rewrite Hexp. split; [reflexivity|]. split; [|split].
  - by rewrite app_processar_monitoramento_dispatch, Hexp, Hnot.
  - intros k Hk. rewrite app_processar_monitoramento_dispatch, Hexp, Hnot.
    cbn [andb]. by rewrite bool_decide_eq_false_2.
  - rewrite app_processar_monitoramento_trace, Hexp, Hnot.
    unfold envio_expirado, envio.
    destruct (app_enviar_notificacao_trace cfg (telegram (mundo c))
                (tipo_notificacao r) (contato r) MsgExpirado) as (posts & -> & Hp).
    rewrite count_ev_app, (count_posts_only _ posts); [reflexivity | by intros [] | done].
Qed.
End ExpiracaoApp.

Section ExpiracaoImproved.
Import AppImproved.
Variable cfg : config.

Lemma ciclos_item_inativo cs r :
  ativo r = false -> ciclos_item cfg cs r = (r, []).
Proof.
  intros Hat. induction cs as [|c cs IH]; [reflexivity|].
  rewrite ciclos_item_cons, ciclo_item_eq, Hat. cbn [andb fst snd].
  by rewrite IH.
Qed.

Lemma ciclo_item_expira c r :
  ativo r = true -> no_lote c = true ->
  dias_restantes r (now (mundo c)) < 0 ->
  status (fst (ciclo_item cfg c r)) = "expirado"
  /\ snd (ciclo_item cfg c r) = [].
Proof.
  intros Hat Hlote Hd.
  rewrite ciclo_item_eq, Hat, Hlote. cbn [andb fst snd].
  rewrite processar_monitoramento_row, processar_monitoramento_trace. cbn [status].
  assert (Hexp : expirou (mundo c) r = true) by (by apply Z.ltb_lt).
  by rewrite Hexp.
Qed.

Lemma ciclo_item_nao_expira c r :
  0 <= dias_restantes r (now (mundo c)) ->
  status (fst (ciclo_item cfg c r)) = status r.
Proof.
  intros Hd. rewrite ciclo_item_eq.
  destruct (ativo r && no_lote c); cbn [fst]; [|reflexivity].
  rewrite processar_monitoramento_row. cbn [status].
  assert (Hexp : expirou (mundo c) r = false) by (by apply Z.ltb_ge).
  by rewrite Hexp.
Qed.
End ExpiracaoImproved.

(** C5, as the code has it. In [app.py], for every active row the task can
    have produced, a cycle that finds [dias_restantes] = 0 sets the row to
    'expirado', dispatches exactly one expiry notification and no other
    notification, and no later cycle does anything for the row. In
    [app_improved.py] the row is set to 'expirado' in a cycle that finds
    [dias_restantes] < 0, a cycle that dispatches nothing, and no later
    cycle does anything for the row; with [dias_restantes] >= 0, zero
    included, the status is left as it is. *)
Theorem C5_expiry_is_terminal :
  forall (acfg : App.config) (cfg : AppImproved.config),
    (forall (c : App.item_cycle) (r : App.row),
        App.alcancavel acfg r ->
        App.ativo r = true -> App.no_lote c = true ->
        App.dias_restantes (App.mundo c) r = 0 ->
        let res := App.ciclo_item acfg c r in
        App.status (fst res) = "expirado"
        /\ count_ev (is_dispatch KExpirado) (snd res) = 1%nat
        /\ (forall k, k <> KExpirado -> count_ev (is_dispatch k) (snd res) = 0%nat)
        /\ (forall cs, App.ciclos_item acfg cs (fst res) = (fst res, [])))
    /\ (forall (c : AppImproved.item_cycle) (r : AppImproved.row),
          AppImproved.ativo r = true -> AppImproved.no_lote c = true ->
          let res := AppImproved.ciclo_item cfg c r in
          (AppImproved.dias_restantes r (AppImproved.now (AppImproved.mundo c)) < 0 ->
           AppImproved.status (fst res) = "expirado"
           /\ snd res = []
           /\ (forall cs, AppImproved.ciclos_item cfg cs (fst res) = (fst res, [])))
          /\ (0 <= AppImproved.dias_restantes r (AppImproved.now (AppImproved.mundo c)) ->
              AppImproved.status (fst res) = AppImproved.status r)).
Proof.
  intros acfg cfg. split.
  - intros c r Hreach Hat Hlote Hd res. subst res.
    pose proof (app_alcancavel_inv acfg r Hreach Hat) as Hne.
    destruct (app_ciclo_item_expira acfg c r Hat Hne Hlote Hd) as (Hst & H1 & H0 & _).
    split; [exact Hst|]. split; [exact H1|]. split; [exact H0|].
    intros cs. apply app_ciclos_item_inativo. unfold App.ativo. by rewrite Hst.
  - intros c r Hat Hlote res. subst res. split.
    + intros Hd. destruct (ciclo_item_expira cfg c r Hat Hlote Hd) as (Hst & Htr).
      split; [exact Hst|]. split; [exact Htr|].
      intros cs. apply ciclos_item_inativo. unfold AppImproved.ativo. by rewrite Hst.
    + by apply ciclo_item_nao_expira.
Qed.

(** C5 as stated fails in [app_improved.py]: a row with [dias_restantes] = 0
    (noon of the day before the deadline date) stays 'ativo' and is probed;
    a day later it is set to 'expirado', and over the two cycles no expiry
    notification was dispatched. *)
Lemma C5_counterexample_improved_at_zero :
  let r := AppImproved.mkRow 1 "https://www.kavak.com/br/carro-1" (IsoT 738000 0)
             "42" "telegram" "ativo" 0 0 1 None 0 None in
  let c0 := AppImproved.mkItemCycle true false
              (AppImproved.mkItemEnv (mkDatetime 738044 (12 * HOUR)) (Response 200)
                 (fun _ => Response 200)) in
  let c1 := AppImproved.mkItemCycle true false
              (AppImproved.mkItemEnv (mkDatetime 738045 (12 * HOUR)) (Response 200)
                 (fun _ => Response 200)) in
  AppImproved.dias_restantes r (mkDatetime 738044 (12 * HOUR)) = 0
  /\ AppImproved.status
       (fst (AppImproved.ciclo_item AppImproved.default_config c0 r)) = "ativo"
  /\ snd (AppImproved.ciclo_item AppImproved.default_config c0 r)
     = [EvVerificarLink "https://www.kavak.com/br/carro-1"]
  /\ AppImproved.status
       (fst (AppImproved.ciclos_item AppImproved.default_config [c0; c1] r)) = "expirado"
  /\ count_ev (is_dispatch KExpirado)
       (snd (AppImproved.ciclos_item AppImproved.default_config [c0; c1] r)) = 0%nat.
Proof. repeat split; vm_compute; reflexivity. Qed.

(** A row of [app.py] as created, checked on its deadline date. *)
Lemma C5_witness_app_deadline_day :
  let r := App.mkRow 1 "https://www.kavak.com/br/carro-1" (IsoT 738000 (8 * HOUR))
             "42" "telegram" "ativo" 0 0 0 None 0 0 None in
  let c := App.mkItemCycle true
             (App.mkItemEnv (mkDatetime 738045 (9 * HOUR)) (Response 200)
                (fun _ => Response 200)) in
  let res := App.ciclo_item App.default_config c r in
  App.status (fst res) = "expirado"
  /\ count_ev (is_dispatch KExpirado) (snd res) = 1%nat
  /\ count_ev (is_dispatch KVenda) (snd res) = 0%nat
  /\ App.ciclos_item App.default_config [c; c; c] (fst res) = (fst res, []).
Proof.
  intros r c res.
  destruct (C5_expiry_is_terminal App.default_config AppImproved.default_config)
    as [Happ _].
  assert (Hreach : App.alcancavel App.default_config r).
  { exists r, []. split; [|reflexivity]. repeat split; reflexivity. }
  destruct (Happ c r Hreach eq_refl eq_refl eq_refl) as (Hst & H1 & H0 & Hafter).
  split; [exact Hst|]. split; [exact H1|]. split; [|apply Hafter].
  apply H0. discriminate.
Defined.

(** ** Days remaining *)

Lemma app_calcular_dias_restantes_calendar agora s :
  App.calcular_dias_restantes agora s
    = (Z.max 0 (dt_date (fromisoformat s) + 45 - dt_date agora),
       combine_min (dt_date (fromisoformat s) + 45)).
Proof. destruct s; reflexivity. Qed.

(** C9. [calcular_dias_restantes] of [app.py] takes the deadline at
    reference date + 45 days and counts on calendar dates only: neither the
    time of day of the reference nor that of the clock changes its result.
    The inline computation of [app_improved.py] does not strip the time of
    day: for the reference date 2021-07-29 (ordinal 738000) and the deadline
    date 2021-09-12 it gives 0 at 00:00 and -1 at 12:00 of that same date
    (so that the row expires or not depending on the hour), 4 on 2021-09-07
    at 10:00 where five calendar days remain, and it changes with the time
    of day recorded with the reference date. *)
Theorem C9_days_remaining_on_calendar_dates :
  (forall (agora : datetime) (s : iso_str),
      App.calcular_dias_restantes agora s
        = (Z.max 0 (dt_date (fromisoformat s) + 45 - dt_date agora),
           combine_min (dt_date (fromisoformat s) + 45)))
  /\ (forall (agora1 agora2 : datetime) (s1 s2 : iso_str),
        dt_date agora1 = dt_date agora2 ->
        dt_date (fromisoformat s1) = dt_date (fromisoformat s2) ->
        App.calcular_dias_restantes agora1 s1 = App.calcular_dias_restantes agora2 s2)
  /\ (let r := AppImproved.mkRow 1 "https://www.kavak.com/br/carro-1" (IsoDate 738000)
                 "42" "telegram" "ativo" 0 0 0 None 0 None in
      let r' := AppImproved.mkRow 1 "https://www.kavak.com/br/carro-1"
                  (IsoT 738000 (15 * HOUR))
                  "42" "telegram" "ativo" 0 0 0 None 0 None in
      AppImproved.dias_restantes r (mkDatetime 738045 0) = 0
      /\ AppImproved.dias_restantes r (mkDatetime 738045 (12 * HOUR)) = -1
      /\ AppImproved.expirou
           (AppImproved.mkItemEnv (mkDatetime 738045 0) (Response 200)
              (fun _ => Response 200)) r = false
      /\ AppImproved.expirou
           (AppImproved.mkItemEnv (mkDatetime 738045 (12 * HOUR)) (Response 200)
              (fun _ => Response 200)) r = true
      /\ AppImproved.dias_restantes r (mkDatetime 738040 (10 * HOUR)) = 4
      /\ fst (App.calcular_dias_restantes (mkDatetime 738040 (10 * HOUR))
                (IsoDate 738000)) = 5
      /\ AppImproved.dias_restantes r' (mkDatetime 738040 (10 * HOUR)) = 5).
Proof.
  split; [apply app_calcular_dias_restantes_calendar|]. split.
  - intros agora1 agora2 s1 s2 Hnow Hs.
    by rewrite !app_calcular_dias_restantes_calendar, Hnow, Hs.
  - repeat split; vm_compute; reflexivity.
Qed.

(** Same calendar dates, different times of day: same result in [app.py]. *)
Lemma C9_witness_same_dates :
  App.calcular_dias_restantes (mkDatetime 738045 0) (IsoT 738000 (15 * HOUR))
  = App.calcular_dias_restantes (mkDatetime 738045 (23 * HOUR)) (IsoDate 738000).
Proof.
  destruct C9_days_remaining_on_calendar_dates as (_ & H & _).
  apply H; reflexivity.
Defined.

(** ** A run of the task and the cycles of its rows *)

(** The item-level cycles used above are what a run of the task does to
    each row of a table with unique ids. *)
Lemma verificar_monitoramentos_ciclo_item cfg env st :
  fst (AppImproved.verificar_conectividade_servidor (AppImproved.get env)) = true ->
  NoDup (map AppImproved.row_id (AppImproved.tabela st)) ->
  AppImproved.tabela (fst (AppImproved.verificar_monitoramentos cfg env st)) =
    map (fun r =>
           fst (AppImproved.ciclo_item cfg
                  (AppImproved.mkItemCycle
                     (bool_decide (AppImproved.row_id r ∈
                        map AppImproved.row_id
                            (AppImproved.selecionar cfg (AppImproved.tabela st))))
                     (AppImproved.sistema_em_quarentena
                        (AppImproved.quarentena_workers cfg env st))
                     (AppImproved.item_envs env (AppImproved.row_id r))) r))
        (AppImproved.tabela st).
Proof.
  intros Hnet Hnd. rewrite verificar_monitoramentos_tabela by done.
  apply map_ext_in. intros r Hr%list_elem_of_In.
  rewrite ciclo_item_eq. cbn [AppImproved.no_lote AppImproved.em_quarentena
                               AppImproved.mundo].
  case_bool_decide as Hin; [|by rewrite andb_false_r].
  apply list_elem_of_fmap in Hin as (m & Hid & Hm).
  destruct (selecionar_elem cfg _ m Hm) as [Hmdb Hat].
  assert (m = r) as -> by (by apply (NoDup_map_inj AppImproved.row_id
                                       (AppImproved.tabela st))).
  by rewrite Hat.
Qed.

Section LoteApp.
Import App.
Variable cfg : config.

Lemma app_sql_update_delete_id u r : sql_update (delete "id" u) r = sql_update u r.
Proof.
  unfold sql_update, col_str, col_int, col_opt_time, col_opt_texto.
  by rewrite !lookup_delete_ne.
Qed.

Lemma app_selecionar_elem db m :
  m ∈ selecionar cfg db -> m ∈ db /\ ativo m = true.
Proof.
  unfold selecionar. intros H.
  eapply elem_of_sublist in H; [|apply sql_limit_sublist].
  rewrite merge_sort_Permutation in H.
  apply list_elem_of_filter in H. tauto.
Qed.

Lemma app_selecionar_NoDup db :
  NoDup (map row_id db) -> NoDup (map row_id (selecionar cfg db)).
Proof.
  intros Hnd. unfold selecionar.
  eapply sublist_NoDup; [|apply fmap_sublist, sql_limit_sublist].
  rewrite merge_sort_Permutation.
  eapply sublist_NoDup; [exact Hnd|]. apply fmap_sublist, sublist_filter.
Qed.

Lemma app_verificar_monitoramentos_ciclo_item envs db :
  NoDup (map row_id db) ->
  fst (verificar_monitoramentos cfg envs db) =
    map (fun r =>
           fst (ciclo_item cfg
                  (mkItemCycle
                     (bool_decide (row_id r ∈ map row_id (selecionar cfg db)))
                     (envs (row_id r))) r)) db.
Proof.
  intros Hnd.
  pose (F := fun m r : row =>
               sql_update (fst (processar_monitoramento cfg (envs (row_id m)) m)) r).
  assert (Hfold : forall ms db0,
    foldl (fun db updates => executar_update updates db) db0
          (map fst (map (fun mon => processar_monitoramento cfg (envs (row_id mon)) mon) ms))
    = foldl (fun db m => map (fun r => if row_id r =? row_id m then F m r else r) db)
            db0 ms).
  { induction ms as [|m ms IH]; intros db0; simpl; [reflexivity|].
    rewrite IH. f_equal. unfold executar_update.
    rewrite app_processar_monitoramento_id.
    apply map_ext. intros r. by rewrite app_sql_update_delete_id. }
  assert (Hrun : fst (verificar_monitoramentos cfg envs db)
                 = foldl (fun db m =>
                            map (fun r => if row_id r =? row_id m then F m r else r) db)
                         db (selecionar cfg db)).
  { unfold verificar_monitoramentos. rewrite <- Hfold.
    by destruct (selecionar cfg db). }
  rewrite Hrun, foldl_update_map.
  apply map_ext_in. intros r Hr%list_elem_of_In.
  rewrite app_ciclo_item_eq. cbn [no_lote mundo].
  case_bool_decide as Hin.
  - apply list_elem_of_fmap in Hin as (m & Hid & Hm).
    rewrite (foldl_update_in row_id F (fun _ _ => eq_refl) _ m r);
      [|by apply app_selecionar_NoDup | done | done].
    destruct (app_selecionar_elem _ m Hm) as [Hmdb Hat].
    assert (m = r) as -> by (by apply (NoDup_map_inj row_id db)).
    by rewrite Hat.
  - rewrite andb_false_r. by apply foldl_update_notin.
Qed.
End LoteApp.

(** The quarantine that step 6 sets does not cover the run that sets it:
    the workers have already dispatched. Ten rows reach their third 404 in
    one run while the preflight passes: ten sale notifications go out, then
    the run ends with the quarantine set. *)
Lemma quarentena_do_passo6_apos_os_envios :
  let rows := map (fun i => AppImproved.mkRow i "https://www.kavak.com/br/carro"
                              (IsoT 738000 0) "42" "telegram" "ativo" 0 0 0 None 2
                              (Some "http_404"))
                  (seqZ 1 10) in
  let t := mkDatetime 738010 (10 * HOUR) in
  let env := AppImproved.mkCycleEnv t (fun _ => Response 200) t
               (fun _ => AppImproved.mkItemEnv t (Response 404) (fun _ => Response 200))
               t in
  let st := AppImproved.mkState rows [] AppImproved.sem_quarentena in
  let res := AppImproved.verificar_monitoramentos AppImproved.default_config env st in
  AppImproved.sistema_em_quarentena
    (AppImproved.quarentena_workers AppImproved.default_config env st) = false
  /\ count_ev (is_dispatch KVenda) (snd res) = 10%nat
  /\ AppImproved.sistema_em_quarentena (AppImproved.globals (fst res)) = true.
Proof. repeat split; vm_compute; reflexivity. Qed.

(** * Further properties of the code *)

(** ** The preflight stops at the first site that answers 200 *)

Lemma tentar_sites_prefixo get sites :
  (fst (AppImproved.tentar_sites get sites) = true ->
   exists pre site post,
     sites = pre ++ site :: post
     /\ (forall s, s ∈ pre -> get s <> Response 200)
     /\ get site = Response 200
     /\ snd (AppImproved.tentar_sites get sites) = map EvGet (pre ++ [site]))
  /\ (fst (AppImproved.tentar_sites get sites) = false ->
      (forall s, s ∈ sites -> get s <> Response 200)
      /\ snd (AppImproved.tentar_sites get sites) = map EvGet sites).
Proof.
  split.
  - induction sites as [|site rest IH]; [discriminate|].
    assert (Hdec : get site = Response 200 \/ get site <> Response 200).
    { destruct (get site) as [c| | |]; try (right; discriminate).
      destruct (Z.eq_dec c 200) as [->|Hc]; [by left | right; congruence]. }
    destruct Hdec as [E|Hne].
    + intros _. exists [], site, rest. simpl. rewrite E. simpl.
      repeat split; try done. intros s Hs. by apply elem_of_nil in Hs.
    + intros H.
      assert (Hstep : AppImproved.tentar_sites get (site :: rest)
                      = (fst (AppImproved.tentar_sites get rest),
                         EvGet site :: snd (AppImproved.tentar_sites get rest))).
      { simpl. destruct (get site) as [c| | |];
          try (by destruct (AppImproved.tentar_sites get rest)).
        destruct (Z.eqb_spec c 200) as [->|_]; [done|].
        by destruct (AppImproved.tentar_sites get rest). }
      rewrite Hstep in H |- *. cbn [fst snd] in *.
      destruct (IH H) as (pre & s0 & post & -> & Hpre & Hs0 & Htr).
      exists (site :: pre), s0, post. rewrite Htr.
      repeat split; try done.
      intros s Hs. apply elem_of_cons in Hs as [->|Hs]; [done | by apply Hpre].
  - intros H. pose proof (proj1 (tentar_sites_false get sites) H) as Hall.
    split; [exact Hall|]. by rewrite tentar_sites_falha.
Qed.

(** X1. Each preflight function answers [True] exactly when one of its
    sites answers with status 200; it then has requested the sites of its
    list in order up to that one and no further, and every earlier site had
    failed (another status or an exception). When it answers [False] it has
    requested all of them. *)
Theorem X1_preflight_first_success :
  forall get : string -> http_outcome,
    (fst (AppImproved.verificar_conectividade_servidor get) = true <->
     exists site, site ∈ AppImproved.sites_teste /\ get site = Response 200)
    /\ (fst (AppImproved.verificar_saude_kavak get) = true <->
        exists url, url ∈ AppImproved.urls_teste /\ get url = Response 200)
    /\ (fst (AppImproved.verificar_conectividade_servidor get) = true ->
        exists pre site post,
          AppImproved.sites_teste = pre ++ site :: post
          /\ (forall s, s ∈ pre -> get s <> Response 200)
          /\ get site = Response 200
          /\ snd (AppImproved.verificar_conectividade_servidor get)
             = map EvGet (pre ++ [site]))
    /\ (fst (AppImproved.verificar_saude_kavak get) = true ->
        exists pre url post,
          AppImproved.urls_teste = pre ++ url :: post
          /\ (forall s, s ∈ pre -> get s <> Response 200)
          /\ get url = Response 200
          /\ snd (AppImproved.verificar_saude_kavak get) = map EvGet (pre ++ [url]))
    /\ (fst (AppImproved.verificar_saude_kavak get) = false ->
        snd (AppImproved.verificar_saude_kavak get) = map EvGet AppImproved.urls_teste)
    /\ (fst (AppImproved.verificar_conectividade_servidor get) = false ->
        snd (AppImproved.verificar_conectividade_servidor get)
        = map EvGet AppImproved.sites_teste).
Proof.
  intros get.
  assert (Hiff : forall sites,
    fst (AppImproved.tentar_sites get sites) = true <->
    exists site, site ∈ sites /\ get site = Response 200).
  { intros sites. split.
    - intros H. destruct (proj1 (tentar_sites_prefixo get sites) H)
        as (pre & site & post & -> & _ & Hs & _).
      exists site. split; [|done]. apply elem_of_app. right. by left.
    - intros (site & Hin & Hs).
      destruct (fst (AppImproved.tentar_sites get sites)) eqn:E; [done|].
      exfalso. by apply (proj1 (tentar_sites_false get sites) E site). }
  unfold AppImproved.verificar_conectividade_servidor, AppImproved.verificar_saude_kavak.
  split; [apply Hiff|]. split; [apply Hiff|].
  split; [apply tentar_sites_prefixo|]. split; [apply tentar_sites_prefixo|].
  split; intros H; by apply tentar_sites_prefixo.
Qed.

(** The first site times out, the second answers: two requests, not three. *)
Lemma X1_witness_second_site :
  let get := fun url => if String.eqb url "https://www.google.com"
                        then RaiseTimeout else Response 200 in
  snd (AppImproved.verificar_conectividade_servidor get)
  = [EvGet "https://www.google.com"; EvGet "https://www.cloudflare.com"]
  /\ (exists pre site post,
        AppImproved.sites_teste = pre ++ site :: post
        /\ (forall s, s ∈ pre -> get s <> Response 200)
        /\ get site = Response 200
        /\ snd (AppImproved.verificar_conectividade_servidor get)
           = map EvGet (pre ++ [site])).
Proof.
  intros get. split; [reflexivity|].
  destruct (X1_preflight_first_success get) as (_ & _ & H & _).
  apply H. reflexivity.
Defined.

(** ** What a run probes *)

Section ProbesImproved.
Import AppImproved.
Variable cfg : config.

Lemma envio_sem_probe post tipo contato m :
  count_ev is_probe (snd (enviar_notificacao cfg post tipo contato m)) = 0%nat.
Proof.
  destruct (enviar_notificacao_trace cfg post tipo contato m) as (posts & -> & Hp).
  rewrite count_ev_app, (count_posts_only _ posts); [reflexivity | by intros [] | done].
Qed.

Lemma processar_monitoramento_probes q env r :
  count_ev is_probe (snd (processar_monitoramento cfg q env r))
  = if expirou env r then 0%nat else 1%nat.
Proof.
  rewrite processar_monitoramento_trace.
  destruct (expirou env r); [reflexivity|].
  rewrite count_ev_cons, count_ev_app. cbn [is_probe].
  unfold envio_venda, envio_prazo.
  destruct (notifica_venda cfg q env r), (notifica_prazo env r);
    rewrite ?envio_sem_probe, ?count_ev_nil; reflexivity.
Qed.

Lemma passo5_probes q envs lote :
  count_ev is_probe (concat (map snd (passo5 cfg q envs lote)))
  = length (filter (fun m => expirou (envs (row_id m)) m = false) lote).
Proof.
  unfold passo5. induction lote as [|m ms IH]; [reflexivity|].
  simpl map. simpl concat.
  rewrite count_ev_app, IH, processar_monitoramento_probes, filter_cons.
  destruct (expirou (envs (row_id m)) m); case_decide; try done; reflexivity.
Qed.

Lemma passo5_links q envs lote e :
  e ∈ concat (map snd (passo5 cfg q envs lote)) -> is_probe e = true ->
  exists m, m ∈ lote /\ e = EvVerificarLink (link_carro m).
Proof.
  unfold passo5. induction lote as [|m ms IH]; simpl.
  - intros H. by apply elem_of_nil in H.
  - intros Hin Hp. apply elem_of_app in Hin as [Hin|Hin].
    + exists m. split; [by left|].
      rewrite processar_monitoramento_trace in Hin.
      destruct (expirou (envs (row_id m)) m); [by apply elem_of_nil in Hin|].
      apply elem_of_cons in Hin as [->|Hin]; [reflexivity|].
      exfalso.
      assert (Hz : count_ev is_probe
                     ((if notifica_venda cfg (sistema_em_quarentena q)
                            (envs (row_id m)) m
                       then snd (envio_venda cfg (envs (row_id m)) m) else [])
                      ++ (if notifica_prazo (envs (row_id m)) m
                          then snd (envio_prazo cfg (envs (row_id m)) m) else []))
                   = 0%nat).
      { rewrite count_ev_app. unfold envio_venda, envio_prazo.
        destruct (notifica_venda _ _ _ m), (notifica_prazo _ m);
          rewrite ?envio_sem_probe, ?count_ev_nil; reflexivity. }
      apply count_ev_zero_Forall in Hz. rewrite Forall_forall in Hz.
      specialize (Hz e Hin). congruence.
    + destruct (IH Hin Hp) as (m' & Hm' & ->). exists m'. split; [by right | done].
Qed.
End ProbesImproved.

(** X2. A run that passes the preflight probes exactly the rows of its
    batch that have not passed their deadline, each once (the number of
    probes is the number of such rows, and every probe is for the link of a
    row of the batch); rows outside the batch are not probed. *)
Theorem X2_run_probes_batch_once :
  forall (cfg : AppImproved.config) (env : AppImproved.cycle_env)
         (st : AppImproved.state),
    fst (AppImproved.verificar_conectividade_servidor (AppImproved.get env)) = true ->
    let lote := AppImproved.selecionar cfg (AppImproved.tabela st) in
    let tr := snd (AppImproved.verificar_monitoramentos cfg env st) in
    count_ev is_probe tr
      = length (filter (fun m => AppImproved.expirou
                                   (AppImproved.item_envs env (AppImproved.row_id m)) m
                                 = false) lote)
    /\ (forall e, e ∈ tr -> is_probe e = true ->
          exists m, m ∈ lote /\ AppImproved.ativo m = true
                    /\ e = EvVerificarLink (AppImproved.link_carro m))
    /\ count_ev (fun e => match e with EvSelect => true | _ => false end) tr = 1%nat.
Proof.
  intros cfg env st Hnet lote tr. subst lote tr.
  rewrite verificar_monitoramentos_trace by done.
  unfold AppImproved.verificar_conectividade_servidor, AppImproved.verificar_saude_kavak.
  split; [|split].
  - rewrite !count_ev_app, count_ev_cons, !tentar_sites_count by done.
    cbn [is_probe]. by rewrite passo5_probes.
  - intros e Hin Hp.
    assert (Hget : forall get sites, e ∈ snd (AppImproved.tentar_sites get sites) -> False).
    { intros get sites He.
      pose proof (tentar_sites_count is_probe get sites (fun _ => eq_refl)) as Hz.
      apply count_ev_zero_Forall in Hz. rewrite Forall_forall in Hz.
      specialize (Hz e He). congruence. }
    apply elem_of_app in Hin as [Hin|Hin]; [by apply Hget in Hin|].
    apply elem_of_app in Hin as [Hin|Hin]; [by apply Hget in Hin|].
    apply elem_of_cons in Hin as [->|Hin]; [discriminate|].
    destruct (passo5_links cfg _ _ _ e Hin Hp) as (m & Hm & ->).
    exists m. split; [done|]. split; [|done].
    by apply selecionar_elem in Hm as [_ ?].
  - rewrite !count_ev_app, count_ev_cons, !tentar_sites_count by done.
    cbn [Nat.add].
    assert (Hz : forall q envs lote,
      count_ev (fun e => match e with EvSelect => true | _ => false end)
        (concat (map snd (AppImproved.passo5 cfg q envs lote))) = 0%nat).
    { intros q envs lote. apply count_ev_zero_Forall, Forall_forall.
      intros e He. destruct e; try reflexivity. exfalso.
      unfold AppImproved.passo5 in He.
      induction lote as [|m ms IH]; simpl in He; [by apply elem_of_nil in He|].
      apply elem_of_app in He as [He|He]; [|by apply IH].
      rewrite processar_monitoramento_trace in He.
      destruct (AppImproved.expirou (envs (AppImproved.row_id m)) m);
        [by apply elem_of_nil in He|].
      apply elem_of_cons in He as [He|He]; [discriminate|].
      unfold AppImproved.envio_venda, AppImproved.envio_prazo in He.
      apply elem_of_app in He as [He|He];
        [destruct (AppImproved.notifica_venda _ _ _ m)
        |destruct (AppImproved.notifica_prazo _ m)];
        try (by apply elem_of_nil in He);
        match type of He with
        | _ ∈ snd (AppImproved.enviar_notificacao ?c ?p ?t ?ct ?msg) =>
            destruct (enviar_notificacao_trace c p t ct msg) as (posts & Heq & Hp);
            rewrite Heq in He;
            apply elem_of_app in He as [He|He];
            [rewrite Forall_forall in Hp; specialize (Hp _ He); discriminate
            |apply list_elem_of_singleton in He; discriminate]
        end. }
    by rewrite Hz.
Qed.

(** Three rows: one active, one active past its deadline, one already
    expired. One probe, for the first. *)
Lemma X2_witness_three_rows :
  let t := mkDatetime 738050 (10 * HOUR) in
  let r1 := AppImproved.mkRow 1 "https://www.kavak.com/br/a" (IsoT 738040 0)
              "42" "telegram" "ativo" 0 0 0 None 0 None in
  let r2 := AppImproved.mkRow 2 "https://www.kavak.com/br/b" (IsoT 738000 0)
              "42" "telegram" "ativo" 0 0 0 None 0 None in
  let r3 := AppImproved.mkRow 3 "https://www.kavak.com/br/c" (IsoT 737000 0)
              "42" "telegram" "expirado" 0 0 0 None 0 None in
  let env := AppImproved.mkCycleEnv t (fun _ => Response 200) t
               (fun _ => AppImproved.mkItemEnv t (Response 200) (fun _ => Response 200))
               t in
  let st := AppImproved.mkState [r1; r2; r3] [] AppImproved.sem_quarentena in
  count_ev is_probe
    (snd (AppImproved.verificar_monitoramentos AppImproved.default_config env st)) = 1%nat.
Proof.
  intros t r1 r2 r3 env st.
  destruct (X2_run_probes_batch_once AppImproved.default_config env st eq_refl)
    as (H & _).
  rewrite H. vm_compute. reflexivity.
Defined.

(** X3. When the preflight passes but no Kavak URL answers 200, the workers
    run under a quarantine set until the clock of step 3 plus
    [QUARENTENA_MINUTOS], whatever the globals were before; the run does not
    stop there: it selects and probes its batch as usual (each row of a
    table with unique ids goes through its cycle with the flag set), it
    dispatches no sale notification, and it ends with the quarantine set. *)
Theorem X3_provider_down_sets_quarantine :
  forall (cfg : AppImproved.config) (env : AppImproved.cycle_env)
         (st : AppImproved.state),
    fst (AppImproved.verificar_conectividade_servidor (AppImproved.get env)) = true ->
    fst (AppImproved.verificar_saude_kavak (AppImproved.get env)) = false ->
    let res := AppImproved.verificar_monitoramentos cfg env st in
    AppImproved.quarentena_workers cfg env st
      = AppImproved.mkQuarentena true
          (Some (add_minutes (AppImproved.clock_passo3 env)
                   (AppImproved.QUARENTENA_MINUTOS cfg)))
    /\ count_ev (is_dispatch KVenda) (snd res) = 0%nat
    /\ count_ev is_probe (snd res)
       = length (filter (fun m => AppImproved.expirou
                                    (AppImproved.item_envs env (AppImproved.row_id m)) m
                                  = false)
                   (AppImproved.selecionar cfg (AppImproved.tabela st)))
    /\ AppImproved.sistema_em_quarentena (AppImproved.globals (fst res)) = true
    /\ (NoDup (map AppImproved.row_id (AppImproved.tabela st)) ->
        AppImproved.tabela (fst res) =
          map (fun r =>
                 fst (AppImproved.ciclo_item cfg
                        (AppImproved.mkItemCycle
                           (bool_decide (AppImproved.row_id r ∈
                              map AppImproved.row_id
                                  (AppImproved.selecionar cfg (AppImproved.tabela st))))
                           true
                           (AppImproved.item_envs env (AppImproved.row_id r))) r))
              (AppImproved.tabela st)).
Proof.
  intros cfg env st Hnet Hkavak res. subst res.
  assert (Hq : AppImproved.quarentena_workers cfg env st
               = AppImproved.mkQuarentena true
                   (Some (add_minutes (AppImproved.clock_passo3 env)
                            (AppImproved.QUARENTENA_MINUTOS cfg)))).
  { unfold AppImproved.quarentena_workers. by rewrite Hkavak. }
  split; [exact Hq|]. split; [|split; [|split]].
  - rewrite verificar_monitoramentos_trace by done.
    rewrite !count_ev_app, count_ev_cons. cbn [is_dispatch].
    unfold AppImproved.verificar_conectividade_servidor,
      AppImproved.verificar_saude_kavak.
    rewrite !tentar_sites_count by done.
    rewrite passo5_sem_venda; [reflexivity | by rewrite Hq].
  - rewrite verificar_monitoramentos_trace by done.
    unfold AppImproved.verificar_conectividade_servidor,
      AppImproved.verificar_saude_kavak.
    rewrite !count_ev_app, count_ev_cons, !tentar_sites_count by done.
    cbn [is_probe]. by rewrite passo5_probes.
  - destruct (AppImproved.selecionar cfg (AppImproved.tabela st)) as [|m ms] eqn:Hl.
    + unfold AppImproved.verificar_monitoramentos.
      destruct (AppImproved.verificar_conectividade_servidor (AppImproved.get env))
        as [net tr1]. simpl in Hnet. subst net. simpl.
      destruct (AppImproved.verificar_saude_kavak (AppImproved.get env))
        as [kavak tr2]. simpl in Hkavak. subst kavak. simpl.
      by rewrite Hl.
    + assert (Hne : AppImproved.selecionar cfg (AppImproved.tabela st) <> [])
        by (by rewrite Hl).
      destruct (verificar_monitoramentos_passo6 cfg env st Hnet Hne) as [-> _].
      destruct (AppImproved.atinge_limite cfg _); [reflexivity | by rewrite Hq].
  - intros Hnd. rewrite verificar_monitoramentos_ciclo_item by done.
    by rewrite Hq.
Qed.

(** The Kavak pages time out while the rest of the internet answers. *)
Lemma X3_witness_kavak_timeout :
  let t := mkDatetime 738010 (10 * HOUR) in
  let r := AppImproved.mkRow 1 "https://www.kavak.com/br/carro-1" (IsoT 738000 0)
             "42" "telegram" "ativo" 0 0 0 None 0 None in
  let env := AppImproved.mkCycleEnv t
               (fun url => if String.prefix "https://www.kavak.com" url
                           then RaiseTimeout else Response 200)
               t (fun _ => AppImproved.mkItemEnv t (Response 200) (fun _ => Response 200))
               t in
  let st := AppImproved.mkState [r] [] AppImproved.sem_quarentena in
  AppImproved.quarentena_workers AppImproved.default_config env st
  = AppImproved.mkQuarentena true (Some (add_minutes t 30))
  /\ count_ev is_probe
       (snd (AppImproved.verificar_monitoramentos AppImproved.default_config env st))
     = 1%nat.
Proof.
  intros t r env st.
  destruct (X3_provider_down_sets_quarantine AppImproved.default_config env st
              eq_refl eq_refl) as (Hq & _ & Hp & _).
  split; [exact Hq|]. rewrite Hp. vm_compute. reflexivity.
Defined.

(** ** The failure counter *)

Lemma ciclo_item_falhas_consecutivas cfg c r :
  AppImproved.falhas_consecutivas (fst (AppImproved.ciclo_item cfg c r)) =
    if AppImproved.ativo r && AppImproved.no_lote c
       && negb (AppImproved.expirou (AppImproved.mundo c) r)
    then if AppImproved.link_offline (AppImproved.mundo c)
         then AppImproved.falhas_consecutivas r + 1
         else if 0 <? AppImproved.falhas_consecutivas r then 0
              else AppImproved.falhas_consecutivas r
    else AppImproved.falhas_consecutivas r.
Proof.
  rewrite ciclo_item_eq.
  destruct (AppImproved.ativo r && AppImproved.no_lote c); cbn [andb fst]; [|done].
  rewrite processar_monitoramento_row. cbn [AppImproved.falhas_consecutivas].
  by destruct (AppImproved.expirou (AppImproved.mundo c) r).
Qed.

Lemma app_ciclo_item_falhas_consecutivas cfg c r :
  App.falhas_consecutivas (fst (App.ciclo_item cfg c r)) =
    if App.ativo r && App.no_lote c && negb (App.expirou (App.mundo c) r)
    then if App.link_offline (App.mundo c)
         then App.falhas_consecutivas r + 1
         else if 0 <? App.falhas_consecutivas r then 0 else App.falhas_consecutivas r
    else App.falhas_consecutivas r.
Proof.
  rewrite app_ciclo_item_eq.
  destruct (App.ativo r && App.no_lote c); cbn [andb fst]; [|done].
  rewrite app_processar_monitoramento_row. cbn [App.falhas_consecutivas].
  by destruct (App.expirou (App.mundo c) r).
Qed.

(** X4. In both back ends a cycle changes the failure counter of a row
    only when the row is probed (active, in the batch, deadline not passed):
    a failed probe adds one, a successful probe brings a positive counter
    back to 0 (and, in [app_improved.py], clears the recorded error); a
    counter that is not negative never becomes negative, over any number of
    cycles, and is 0 after any cycle whose probe succeeded. *)
Theorem X4_failure_counter :
  (forall (cfg : AppImproved.config) (c : AppImproved.item_cycle) (r : AppImproved.row),
      let r' := fst (AppImproved.ciclo_item cfg c r) in
      (AppImproved.ativo r && AppImproved.no_lote c
         && negb (AppImproved.expirou (AppImproved.mundo c) r) = false ->
       AppImproved.falhas_consecutivas r' = AppImproved.falhas_consecutivas r)
      /\ (AppImproved.ativo r && AppImproved.no_lote c
            && negb (AppImproved.expirou (AppImproved.mundo c) r) = true ->
          (AppImproved.link_offline (AppImproved.mundo c) = true ->
           AppImproved.falhas_consecutivas r' = AppImproved.falhas_consecutivas r + 1)
          /\ (AppImproved.link_offline (AppImproved.mundo c) = false ->
              0 <= AppImproved.falhas_consecutivas r ->
              AppImproved.falhas_consecutivas r' = 0)
          /\ (AppImproved.link_offline (AppImproved.mundo c) = false ->
              0 < AppImproved.falhas_consecutivas r ->
              AppImproved.ultimo_erro r' = None)))
  /\ (forall (cfg : AppImproved.config) (cs : list AppImproved.item_cycle)
             (r : AppImproved.row),
        0 <= AppImproved.falhas_consecutivas r ->
        0 <= AppImproved.falhas_consecutivas (fst (AppImproved.ciclos_item cfg cs r)))
  /\ (forall (cfg : App.config) (c : App.item_cycle) (r : App.row),
        let r' := fst (App.ciclo_item cfg c r) in
        (App.ativo r && App.no_lote c && negb (App.expirou (App.mundo c) r) = false ->
         App.falhas_consecutivas r' = App.falhas_consecutivas r)
        /\ (App.ativo r && App.no_lote c && negb (App.expirou (App.mundo c) r) = true ->
            (App.link_offline (App.mundo c) = true ->
             App.falhas_consecutivas r' = App.falhas_consecutivas r + 1)
            /\ (App.link_offline (App.mundo c) = false ->
                0 <= App.falhas_consecutivas r ->
                App.falhas_consecutivas r' = 0)))
  /\ (forall (cfg : App.config) (cs : list App.item_cycle) (r : App.row),
        0 <= App.falhas_consecutivas r ->
        0 <= App.falhas_consecutivas (fst (App.ciclos_item cfg cs r))).
Proof.
  split; [|split; [|split]].
  - intros cfg c r r'. subst r'. split.
    + intros Hsel. by rewrite ciclo_item_falhas_consecutivas, Hsel.
    + intros Hsel. split; [|split].
      * intros Hoff. by rewrite ciclo_item_falhas_consecutivas, Hsel, Hoff.
      * intros Hon Hf. rewrite ciclo_item_falhas_consecutivas, Hsel, Hon.
        destruct (Z.ltb_spec 0 (AppImproved.falhas_consecutivas r)); lia.
      * intros Hon Hf. apply andb_prop in Hsel as [Hsel Hexp].
        rewrite ciclo_item_eq, Hsel. cbn [fst].
        rewrite processar_monitoramento_row. cbn [AppImproved.ultimo_erro].
        apply negb_true_iff in Hexp. rewrite Hexp, Hon.
        by destruct (Z.ltb_spec 0 (AppImproved.falhas_consecutivas r)); [|lia].
  - intros cfg cs. induction cs as [|c cs IH]; intros r Hf; [done|].
    rewrite ciclos_item_cons. cbn [fst]. apply IH.
    rewrite ciclo_item_falhas_consecutivas.
    repeat case_match; lia.
  - intros cfg c r r'. subst r'. split.
    + intros Hsel. by rewrite app_ciclo_item_falhas_consecutivas, Hsel.
    + intros Hsel. split.
      * intros Hoff. by rewrite app_ciclo_item_falhas_consecutivas, Hsel, Hoff.
      * intros Hon Hf. rewrite app_ciclo_item_falhas_consecutivas, Hsel, Hon.
        destruct (Z.ltb_spec 0 (App.falhas_consecutivas r)); lia.
  - intros cfg cs. induction cs as [|c cs IH]; intros r Hf; [done|].
    rewrite app_ciclos_item_cons. cbn [fst]. apply IH.
    rewrite app_ciclo_item_falhas_consecutivas.
    repeat case_match; lia.
Qed.

(** Two failures then the link is back: the counter goes 1, 2, 0. *)
Lemma X4_witness_reset :
  let r := AppImproved.mkRow 1 "https://www.kavak.com/br/carro-1" (IsoT 738000 0)
             "42" "telegram" "ativo" 0 0 0 None 0 None in
  let t := mkDatetime 738010 (10 * HOUR) in
  let off := AppImproved.mkItemCycle true false
               (AppImproved.mkItemEnv t RaiseTimeout (fun _ => Response 200)) in
  let on := AppImproved.mkItemCycle true false
              (AppImproved.mkItemEnv t (Response 200) (fun _ => Response 200)) in
  let r2 := fst (AppImproved.ciclos_item AppImproved.default_config [off; off] r) in
  AppImproved.falhas_consecutivas r2 = 2
  /\ AppImproved.falhas_consecutivas
       (fst (AppImproved.ciclo_item AppImproved.default_config on r2)) = 0
  /\ AppImproved.ultimo_erro
       (fst (AppImproved.ciclo_item AppImproved.default_config on r2)) = None.
Proof.
  intros r t off on r2.
  destruct X4_failure_counter as (H1 & _).
  destruct (H1 AppImproved.default_config on r2) as (_ & Hsel).
  destruct (Hsel eq_refl) as (_ & Hzero & Herr).
  split; [reflexivity|]. split.
  - apply Hzero; [reflexivity | vm_compute; discriminate].
  - apply Herr; [reflexivity | vm_compute; reflexivity].
Defined.

(** ** The sale notification goes out with the sold flag *)

Section ExactlyWithFlag.
Context {R C : Type}.
Variables (step : C -> R -> R * list event)
          (run : list C -> R -> R * list event)
          (sold inv : R -> bool) (k : notif_kind).
Hypothesis run_nil : forall r, run [] r = (r, []).
Hypothesis run_cons : forall c cs r,
  run (c :: cs) r =
    (fst (run cs (fst (step c r))),
     snd (step c r) ++ snd (run cs (fst (step c r)))).
Hypothesis step_flag : forall c r,
  inv r = true ->
  inv (fst (step c r)) = true
  /\ (sold r = true -> sold (fst (step c r)) = true)
  /\ count_ev (is_dispatch k) (snd (step c r))
     = if negb (sold r) && sold (fst (step c r)) then 1%nat else 0%nat.

Lemma run_flag cs :
  forall r,
    inv r = true ->
    inv (fst (run cs r)) = true
    /\ (sold r = true -> sold (fst (run cs r)) = true)
    /\ count_ev (is_dispatch k) (snd (run cs r))
       = if negb (sold r) && sold (fst (run cs r)) then 1%nat else 0%nat.
Proof.
  induction cs as [|c cs IH]; intros r Hinv.
  - rewrite run_nil. cbn [fst snd]. split; [done|]. split; [done|].
    by destruct (sold r).
  - rewrite run_cons. cbn [fst snd]. rewrite count_ev_app.
    destruct (step_flag c r Hinv) as (Hinv1 & Hmono1 & Hd1).
    destruct (IH _ Hinv1) as (Hinv2 & Hmono2 & Hd2).
    split; [done|]. split; [auto|].
    rewrite Hd1, Hd2.
    destruct (sold r) eqn:Hs; cbn [negb andb].
    + rewrite (Hmono1 eq_refl). reflexivity.
    + destruct (sold (fst (step c r))) eqn:Hs1; cbn [negb andb].
      * by rewrite (Hmono2 eq_refl).
      * by destruct (sold (fst (run cs (fst (step c r))))).
Qed.
End ExactlyWithFlag.

Lemma ciclo_item_venda_flag cfg c r :
  implb (truthy (AppImproved.notificado_venda r))
        (truthy (AppImproved.carro_vendido r)) = true ->
  implb (truthy (AppImproved.notificado_venda (fst (AppImproved.ciclo_item cfg c r))))
        (truthy (AppImproved.carro_vendido (fst (AppImproved.ciclo_item cfg c r)))) = true
  /\ (truthy (AppImproved.carro_vendido r) = true ->
      truthy (AppImproved.carro_vendido (fst (AppImproved.ciclo_item cfg c r))) = true)
  /\ count_ev (is_dispatch KVenda) (snd (AppImproved.ciclo_item cfg c r))
     = if negb (truthy (AppImproved.carro_vendido r))
          && truthy (AppImproved.carro_vendido (fst (AppImproved.ciclo_item cfg c r)))
       then 1%nat else 0%nat.
Proof.
  intros Hinv. rewrite ciclo_item_eq.
  destruct (AppImproved.ativo r && AppImproved.no_lote c); cbn [fst snd].
  2:{ split; [done|]. split; [done|].
      by destruct (truthy (AppImproved.carro_vendido r)). }
  rewrite processar_monitoramento_dispatch, processar_monitoramento_row.
  cbn [AppImproved.carro_vendido AppImproved.notificado_venda].
  rewrite (bool_decide_eq_true_2 (KVenda = KVenda)) by reflexivity.
  rewrite (bool_decide_eq_false_2 (KPrazo = KVenda)) by discriminate.
  rewrite andb_true_r, andb_false_r, Nat.add_0_r.
  unfold AppImproved.notifica_venda.
  destruct (AppImproved.marca_vendido cfg (AppImproved.em_quarentena c)
              (AppImproved.mundo c) r) eqn:Hm; cbn [andb].
  - assert (Hcv : truthy (AppImproved.carro_vendido r) = false).
    { unfold AppImproved.marca_vendido in Hm.
      destruct (truthy (AppImproved.carro_vendido r)); [|done].
      by rewrite !andb_false_r in Hm. }
    rewrite Hcv in Hinv |- *.
    destruct (truthy (AppImproved.notificado_venda r)); [discriminate|].
    cbn [negb andb]. change (truthy 1) with true.
    split; [by rewrite implb_true_r|]. split; [done|done].
  - split; [done|]. split; [done|].
    by destruct (truthy (AppImproved.carro_vendido r)).
Qed.

Lemma app_ciclo_item_venda_flag cfg c r :
  implb (truthy (App.notificado_venda r)) (truthy (App.carro_vendido r)) = true ->
  implb (truthy (App.notificado_venda (fst (App.ciclo_item cfg c r))))
        (truthy (App.carro_vendido (fst (App.ciclo_item cfg c r)))) = true
  /\ (truthy (App.carro_vendido r) = true ->
      truthy (App.carro_vendido (fst (App.ciclo_item cfg c r))) = true)
  /\ count_ev (is_dispatch KVenda) (snd (App.ciclo_item cfg c r))
     = if negb (truthy (App.carro_vendido r))
          && truthy (App.carro_vendido (fst (App.ciclo_item cfg c r)))
       then 1%nat else 0%nat.
Proof.
  intros Hinv. rewrite app_ciclo_item_eq.
  destruct (App.ativo r && App.no_lote c); cbn [fst snd].
  2:{ split; [done|]. split; [done|]. by destruct (truthy (App.carro_vendido r)). }
  rewrite app_processar_monitoramento_dispatch, app_processar_monitoramento_row.
  cbn [App.carro_vendido App.notificado_venda].
  rewrite (bool_decide_eq_true_2 (KVenda = KVenda)) by reflexivity.
  rewrite (bool_decide_eq_false_2 (KPrazo = KVenda)) by discriminate.
  rewrite (bool_decide_eq_false_2 (KSemanal = KVenda)) by discriminate.
  rewrite (bool_decide_eq_false_2 (KExpirado = KVenda)) by discriminate.
  rewrite !andb_true_r, !andb_false_r, !Nat.add_0_r.
  unfold App.notifica_venda.
  destruct (App.marca_vendido (App.mundo c) r) eqn:Hm; cbn [andb].
  - assert (Hcv : truthy (App.carro_vendido r) = false).
    { unfold App.marca_vendido in Hm.
      destruct (truthy (App.carro_vendido r)); [|done].
      by rewrite !andb_false_r in Hm. }
    assert (Hexp : App.expirou (App.mundo c) r = false).
    { unfold App.marca_vendido in Hm.
      destruct (App.expirou (App.mundo c) r); [done|done]. }
    rewrite Hcv in Hinv |- *. rewrite Hexp.
    destruct (truthy (App.notificado_venda r)); [discriminate|].
    cbn [negb andb]. change (truthy 1) with true.
    split; [by rewrite implb_true_r|]. split; [done|done].
  - split; [done|]. split; [done|].
    destruct (App.expirou (App.mundo c) r);
      by destruct (truthy (App.carro_vendido r)).
Qed.

(** X5. In both back ends, for a row whose sale marker is not set without
    the sold flag (every new row), over any number of cycles: the sold flag
    is never unset, and the sale notification is dispatched exactly once if
    the row goes from not sold to sold and not at all otherwise. It goes out
    in the cycle that sets the flag, so a delivery that fails there is not
    attempted again. *)
Theorem X5_sale_dispatched_once_with_sold_flag :
  (forall (cfg : AppImproved.config) (cs : list AppImproved.item_cycle)
          (r : AppImproved.row),
      (truthy (AppImproved.notificado_venda r) = true ->
       truthy (AppImproved.carro_vendido r) = true) ->
      let res := AppImproved.ciclos_item cfg cs r in
      (truthy (AppImproved.carro_vendido r) = true ->
       truthy (AppImproved.carro_vendido (fst res)) = true)
      /\ count_ev (is_dispatch KVenda) (snd res)
         = if negb (truthy (AppImproved.carro_vendido r))
              && truthy (AppImproved.carro_vendido (fst res))
           then 1%nat else 0%nat)
  /\ (forall (cfg : App.config) (cs : list App.item_cycle) (r : App.row),
        (truthy (App.notificado_venda r) = true ->
         truthy (App.carro_vendido r) = true) ->
        let res := App.ciclos_item cfg cs r in
        (truthy (App.carro_vendido r) = true ->
         truthy (App.carro_vendido (fst res)) = true)
        /\ count_ev (is_dispatch KVenda) (snd res)
           = if negb (truthy (App.carro_vendido r))
                && truthy (App.carro_vendido (fst res))
             then 1%nat else 0%nat).
Proof.
  split.
  - intros cfg cs r Hinv res. subst res.
    assert (Hinv' : implb (truthy (AppImproved.notificado_venda r))
                          (truthy (AppImproved.carro_vendido r)) = true).
    { destruct (truthy (AppImproved.notificado_venda r)); [|done].
      by rewrite Hinv. }
    destruct (run_flag (AppImproved.ciclo_item cfg) (AppImproved.ciclos_item cfg)
                (fun r => truthy (AppImproved.carro_vendido r))
                (fun r => implb (truthy (AppImproved.notificado_venda r))
                                (truthy (AppImproved.carro_vendido r)))
                KVenda (fun _ => eq_refl) (ciclos_item_cons cfg)
                (ciclo_item_venda_flag cfg) cs r Hinv') as (_ & Hm & Hd).
    by split.
  - intros cfg cs r Hinv res. subst res.
    assert (Hinv' : implb (truthy (App.notificado_venda r))
                          (truthy (App.carro_vendido r)) = true).
    { destruct (truthy (App.notificado_venda r)); [|done]. by rewrite Hinv. }
    destruct (run_flag (App.ciclo_item cfg) (App.ciclos_item cfg)
                (fun r => truthy (App.carro_vendido r))
                (fun r => implb (truthy (App.notificado_venda r))
                                (truthy (App.carro_vendido r)))
                KVenda (fun _ => eq_refl) (app_ciclos_item_cons cfg)
                (app_ciclo_item_venda_flag cfg) cs r Hinv') as (_ & Hm & Hd).
    by split.
Qed.

(** The Telegram API answers 500 when the sale is detected and 200
    afterwards: one dispatch over five cycles, the row is sold, and the
    sale marker stays unset. *)
Lemma X5_witness_failed_delivery_not_retried :
  let r := App.mkRow 1 "https://www.kavak.com/br/carro-1" (IsoT 738000 0)
             "42" "telegram" "ativo" 0 0 0 None 1 0 None in
  let t := mkDatetime 738010 (9 * HOUR) in
  let c500 := App.mkItemCycle true
                (App.mkItemEnv t (Response 404) (fun _ => Response 500)) in
  let c200 := App.mkItemCycle true
                (App.mkItemEnv t (Response 404) (fun _ => Response 200)) in
  let res := App.ciclos_item App.default_config [c500; c200; c200; c200; c200] r in
  count_ev (is_dispatch KVenda) (snd res) = 1%nat
  /\ App.carro_vendido (fst res) = 1
  /\ App.notificado_venda (fst res) = 0.
Proof.
  intros r t c500 c200 res.
  destruct X5_sale_dispatched_once_with_sold_flag as [_ Happ].
  assert (Hinv : truthy (App.notificado_venda r) = true ->
                 truthy (App.carro_vendido r) = true) by discriminate.
  destruct (Happ App.default_config [c500; c200; c200; c200; c200] r Hinv)
    as (_ & Hd).
  split; [exact Hd|]. split; reflexivity.
Defined.

(** ** The weekly notification of [app.py] *)

Section SemanalApp.
Import App.
Variable cfg : config.

Lemma notifica_semanal_nao_expirou env r :
  notifica_semanal env r = true -> expirou env r = false.
Proof.
  unfold notifica_semanal. destruct (expirou env r); [|done].
  by rewrite !andb_false_l.
Qed.

Lemma app_ciclo_item_semanal c r :
  count_ev (is_dispatch KSemanal) (snd (ciclo_item cfg c r))
    = (if ativo r && no_lote c && notifica_semanal (mundo c) r then 1%nat else 0%nat)
  /\ count_ev (is_delivered KSemanal) (snd (ciclo_item cfg c r))
     = (if ativo r && no_lote c && notifica_semanal (mundo c) r
           && fst (envio_semanal cfg (mundo c) r) then 1%nat else 0%nat)
  /\ ultima_notificacao_semanal (fst (ciclo_item cfg c r))
     = (if ativo r && no_lote c && notifica_semanal (mundo c) r
           && fst (envio_semanal cfg (mundo c) r)
        then Some (TextoIso (now (mundo c))) else ultima_notificacao_semanal r).
Proof.
  rewrite app_ciclo_item_eq.
  destruct (ativo r && no_lote c); cbn [andb fst snd]; [|done].
  rewrite app_processar_monitoramento_dispatch, app_processar_monitoramento_delivered,
    app_processar_monitoramento_row.
  cbn [ultima_notificacao_semanal].
  rewrite (bool_decide_eq_true_2 (KSemanal = KSemanal)) by reflexivity.
  rewrite (bool_decide_eq_false_2 (KPrazo = KSemanal)) by discriminate.
  rewrite (bool_decide_eq_false_2 (KVenda = KSemanal)) by discriminate.
  rewrite (bool_decide_eq_false_2 (KExpirado = KSemanal)) by discriminate.
  rewrite !andb_true_r, !andb_false_r. cbn [Nat.add].
  destruct (notifica_semanal (mundo c) r) eqn:Hs.
  - by rewrite (notifica_semanal_nao_expirou _ _ Hs).
  - by destruct (expirou (mundo c) r).
Qed.

(** What the condition of the weekly message asks for. *)
Lemma notifica_semanal_gate env r :
  notifica_semanal env r = true ->
  weekday (now env) = 4 /\ hour (now env) = 10
  /\ truthy (carro_vendido r) = false /\ status r = "ativo"
  /\ 0 < dias_restantes env r
  /\ match ultima_notificacao_semanal r with
     | Some (TextoIso ultima) => dt_date ultima < dt_date (now env)
     | _ => 1 <= dias_desde_venda env r
     end.
Proof.
  unfold notifica_semanal, deve_notificar_semanal.
  intros H. repeat (apply andb_prop in H as [H ?]).
  destruct (Z.eqb_spec (weekday (now env)) 4) as [Hw|]; [|done].
  destruct (Z.eqb_spec (hour (now env)) 10) as [Hh|]; [|done].
  cbn [andb] in *.
  split; [done|]. split; [done|].
  split; [by apply negb_true_iff|]. split; [by apply String.eqb_eq|].
  split; [by apply Z.ltb_lt|].
  destruct (ultima_notificacao_semanal r) as [[u|]|];
    first [by apply Z.ltb_lt | by apply Z.leb_le].
Qed.

(** The stored date of the last weekly message never goes back. *)
Lemma app_ciclos_item_semanal_data cs :
  forall r u,
    ultima_notificacao_semanal r = Some (TextoIso u) ->
    exists u', ultima_notificacao_semanal (fst (ciclos_item cfg cs r)) = Some (TextoIso u')
               /\ dt_date u <= dt_date u'.
Proof.
  induction cs as [|c cs IH]; intros r u Hu.
  - exists u. by split.
  - rewrite app_ciclos_item_cons. cbn [fst].
    destruct (app_ciclo_item_semanal c r) as (_ & _ & Hst).
    destruct (ativo r && no_lote c && notifica_semanal (mundo c) r
              && fst (envio_semanal cfg (mundo c) r)) eqn:Hd.
    + repeat (apply andb_prop in Hd as [Hd ?]).
      pose proof (notifica_semanal_gate (mundo c) r) as Hg.
      destruct Hg as (_ & _ & _ & _ & _ & Hlt); [done|]. rewrite Hu in Hlt.
      destruct (IH _ _ Hst) as (u' & Hu' & Hle).
      exists u'. split; [done | lia].
    + rewrite Hu in Hst. by apply IH.
Qed.
End SemanalApp.

(** X6. In [app.py] the weekly message is dispatched for a row only in a
    cycle that probes it on a Friday between 10:00 and 10:59, while the row
    is not sold and days remain, and only if no weekly message was confirmed
    on that calendar date or a later one (for the first message: if at least
    one day has passed since the sale). A confirmed delivery stores the
    time of the cycle; from then on, whatever happens in between, no cycle
    whose clock reads that date or an earlier one dispatches the weekly
    message again: at most one confirmed weekly message per calendar date.
    A delivery that is not confirmed stores nothing. *)
Theorem X6_weekly_notification :
  forall cfg : App.config,
    (forall (c : App.item_cycle) (r : App.row),
        (0 < count_ev (is_dispatch KSemanal) (snd (App.ciclo_item cfg c r)))%nat ->
        App.ativo r = true /\ App.no_lote c = true
        /\ weekday (App.now (App.mundo c)) = 4 /\ hour (App.now (App.mundo c)) = 10
        /\ truthy (App.carro_vendido r) = false
        /\ 0 < App.dias_restantes (App.mundo c) r
        /\ match App.ultima_notificacao_semanal r with
           | Some (App.TextoIso ultima) =>
               dt_date ultima < dt_date (App.now (App.mundo c))
           | _ => 1 <= App.dias_desde_venda (App.mundo c) r
           end)
    /\ (forall (c : App.item_cycle) (r : App.row),
          App.ultima_notificacao_semanal (fst (App.ciclo_item cfg c r))
          = if (0 <? count_ev (is_delivered KSemanal) (snd (App.ciclo_item cfg c r)))%nat
            then Some (App.TextoIso (App.now (App.mundo c)))
            else App.ultima_notificacao_semanal r)
    /\ (forall (c1 : App.item_cycle) (cs : list App.item_cycle) (c2 : App.item_cycle)
               (r : App.row),
          count_ev (is_delivered KSemanal) (snd (App.ciclo_item cfg c1 r)) = 1%nat ->
          dt_date (App.now (App.mundo c2)) <= dt_date (App.now (App.mundo c1)) ->
          count_ev (is_dispatch KSemanal)
            (snd (App.ciclo_item cfg c2 (fst (App.ciclos_item cfg (c1 :: cs) r))))
          = 0%nat).
Proof.
  intros cfg. split; [|split].
  - intros c r Hpos.
    destruct (app_ciclo_item_semanal cfg c r) as (Hd & _).
    rewrite Hd in Hpos.
    destruct (App.ativo r) eqn:Hat; [|simpl in Hpos; lia].
    destruct (App.no_lote c) eqn:Hl; [|simpl in Hpos; lia].
    destruct (App.notifica_semanal (App.mundo c) r) eqn:Hs; [|simpl in Hpos; lia].
    destruct (notifica_semanal_gate _ _ Hs) as (? & ? & ? & ? & ? & ?).
    repeat split; done.
  - intros c r. destruct (app_ciclo_item_semanal cfg c r) as (_ & Hdel & Hst).
    rewrite Hst, Hdel.
    by destruct (App.ativo r && App.no_lote c
                 && App.notifica_semanal (App.mundo c) r
                 && fst (App.envio_semanal cfg (App.mundo c) r)).
  - intros c1 cs c2 r Hdel Hdate.
    destruct (app_ciclo_item_semanal cfg c1 r) as (_ & Hdel1 & Hst1).
    rewrite Hdel1 in Hdel.
    destruct (App.ativo r && App.no_lote c1
              && App.notifica_semanal (App.mundo c1) r
              && fst (App.envio_semanal cfg (App.mundo c1) r)); [|discriminate].
    rewrite app_ciclos_item_cons. cbn [fst].
    destruct (app_ciclos_item_semanal_data cfg cs _ _ Hst1) as (u' & Hu' & Hle).
    destruct (app_ciclo_item_semanal cfg c2
                (fst (App.ciclos_item cfg cs (fst (App.ciclo_item cfg c1 r)))))
      as (Hd2 & _).
    rewrite Hd2.
    destruct (App.notifica_semanal (App.mundo c2) _) eqn:Hs;
      [|by rewrite andb_false_r].
    destruct (notifica_semanal_gate _ _ Hs) as (_ & _ & _ & _ & _ & Hlt).
    rewrite Hu' in Hlt. lia.
Qed.

(** Friday 2021-08-06 (ordinal 738008): delivered at 10:05, and the cycles
    of 10:15 and 10:25 of the same day do not dispatch it again. *)
Lemma X6_witness_friday :
  let r := App.mkRow 1 "https://www.kavak.com/br/carro-1" (IsoT 738000 0)
             "42" "telegram" "ativo" 0 0 0 None 0 0 None in
  let at_ := fun m => App.mkItemCycle true
                        (App.mkItemEnv (mkDatetime 738008 (10 * HOUR + m * MINUTE))
                           (Response 200) (fun _ => Response 200)) in
  weekday (mkDatetime 738008 (10 * HOUR)) = 4
  /\ count_ev (is_delivered KSemanal)
       (snd (App.ciclo_item App.default_config (at_ 5) r)) = 1%nat
  /\ count_ev (is_dispatch KSemanal)
       (snd (App.ciclo_item App.default_config (at_ 25)
               (fst (App.ciclos_item App.default_config [at_ 5; at_ 15] r)))) = 0%nat.
Proof.
  intros r at_.
  destruct (X6_weekly_notification App.default_config) as (_ & _ & H).
  split; [reflexivity|]. split; [reflexivity|].
  apply (H (at_ 5) [at_ 15] (at_ 25) r); [reflexivity | simpl; lia].
Defined.

(** ** The deadline alert *)

(** X7. The deadline alert is dispatched in a call of the worker exactly
    when between 1 and 5 days remain and the alert marker is not set: in
    [app_improved.py] this does not depend on the quarantine flag nor on the
    answer of the probe, and the marker is written exactly when that
    delivery is confirmed; the same holds in [app.py] on its own day count. *)
Theorem X7_deadline_alert :
  (forall (cfg : AppImproved.config) (q : bool) (env : AppImproved.item_env)
          (r : AppImproved.row),
      let d := AppImproved.dias_restantes r (AppImproved.now env) in
      let res := AppImproved.processar_monitoramento cfg q env r in
      count_ev (is_dispatch KPrazo) (snd res)
        = (if (0 <? d) && (d <=? 5) && negb (truthy (AppImproved.notificado_prazo r))
           then 1%nat else 0%nat)
      /\ AppImproved.notificado_prazo (AppImproved.sql_update (fst res) r)
         = (if (0 <? count_ev (is_delivered KPrazo) (snd res))%nat
            then 1 else AppImproved.notificado_prazo r))
  /\ (forall (cfg : App.config) (env : App.item_env) (r : App.row),
        let d := App.dias_restantes env r in
        let res := App.processar_monitoramento cfg env r in
        count_ev (is_dispatch KPrazo) (snd res)
          = (if (0 <? d) && (d <=? 5) && negb (truthy (App.notificado_prazo r))
             then 1%nat else 0%nat)
        /\ App.notificado_prazo (App.sql_update (fst res) r)
           = (if (0 <? count_ev (is_delivered KPrazo) (snd res))%nat
              then 1 else App.notificado_prazo r)).
Proof.
  split.
  - intros cfg q env r d res. subst d res.
    rewrite processar_monitoramento_dispatch, processar_monitoramento_delivered,
      processar_monitoramento_row.
    cbn [AppImproved.notificado_prazo].
    rewrite (bool_decide_eq_true_2 (KPrazo = KPrazo)) by reflexivity.
    rewrite (bool_decide_eq_false_2 (KVenda = KPrazo)) by discriminate.
    rewrite !andb_true_r, !andb_false_r. cbn [Nat.add].
    unfold AppImproved.notifica_prazo, AppImproved.expirou.
    destruct (Z.ltb_spec (AppImproved.dias_restantes r (AppImproved.now env)) 0),
      (Z.ltb_spec 0 (AppImproved.dias_restantes r (AppImproved.now env)));
      try lia; cbn [negb andb];
      rewrite (andb_comm (_ <=? 5) true) || idtac; cbn [andb];
      split; try reflexivity;
      try (by destruct (_ <=? 5), (truthy (AppImproved.notificado_prazo r)),
                (fst (AppImproved.envio_prazo cfg env r))).
  - intros cfg env r d res. subst d res.
    rewrite app_processar_monitoramento_dispatch, app_processar_monitoramento_delivered,
      app_processar_monitoramento_row.
    cbn [App.notificado_prazo].
    rewrite (bool_decide_eq_true_2 (KPrazo = KPrazo)) by reflexivity.
    rewrite (bool_decide_eq_false_2 (KVenda = KPrazo)) by discriminate.
    rewrite (bool_decide_eq_false_2 (KSemanal = KPrazo)) by discriminate.
    rewrite (bool_decide_eq_false_2 (KExpirado = KPrazo)) by discriminate.
    rewrite !andb_true_r, !andb_false_r. cbn [Nat.add].
    unfold App.notifica_prazo, App.expirou.
    destruct (Z.leb_spec (App.dias_restantes env r) 0),
      (Z.ltb_spec 0 (App.dias_restantes env r));
      try lia; cbn [negb andb]; rewrite ?Nat.add_0_r;
      rewrite (andb_comm (_ <=? 5) true) || idtac; cbn [andb];
      split; try reflexivity;
      try (by destruct (_ <=? 5), (truthy (App.notificado_prazo r)),
                (fst (App.envio_prazo cfg env r))).
Qed.

(** ** A run keeps the rows and their immutable columns *)

Lemma executar_update_chaves (u : gmap string val) (db : list AppImproved.row) :
  map (fun r => (AppImproved.row_id r, AppImproved.link_carro r,
                 AppImproved.data_venda r, AppImproved.contato r,
                 AppImproved.tipo_notificacao r))
      (AppImproved.executar_update u db)
  = map (fun r => (AppImproved.row_id r, AppImproved.link_carro r,
                   AppImproved.data_venda r, AppImproved.contato r,
                   AppImproved.tipo_notificacao r)) db.
Proof.
  unfold AppImproved.executar_update.
  destruct (u !! "id") as [[mon_id| | |]|]; try reflexivity.
  rewrite map_map. apply map_ext. intros r.
  by destruct (AppImproved.row_id r =? mon_id).
Qed.

Lemma app_executar_update_chaves (u : gmap string val) (db : list App.row) :
  map (fun r => (App.row_id r, App.link_carro r, App.data_venda r, App.contato r,
                 App.tipo_notificacao r))
      (App.executar_update u db)
  = map (fun r => (App.row_id r, App.link_carro r, App.data_venda r, App.contato r,
                   App.tipo_notificacao r)) db.
Proof.
  unfold App.executar_update.
  destruct (u !! "id") as [[mon_id| | |]|]; try reflexivity.
  rewrite map_map. apply map_ext. intros r.
  by destruct (App.row_id r =? mon_id).
Qed.

(** The keys of the dictionary a worker returns, by cases on every test
    and call of its body. *)
Ltac chaves_cases :=
  cbv zeta;
  repeat (match goal with
          | |- context [AppImproved.verificar_link ?o] =>
              destruct (AppImproved.verificar_link o) as [[] ?]
          | |- context [AppImproved.enviar_notificacao ?a ?b ?c ?d ?m] =>
              destruct (AppImproved.enviar_notificacao a b c d m) as [[] ?]
          | |- context [App.calcular_dias_restantes ?a ?b] =>
              destruct (App.calcular_dias_restantes a b) as [? ?]
          | |- context [App.enviar_notificacao ?a ?b ?c ?d ?m] =>
              destruct (App.enviar_notificacao a b c d m) as [[] ?]
          | |- context [if ?b then _ else _] => destruct b
          end; cbn [fst snd negb andb]);
  apply (bool_decide_unpack _); vm_compute; reflexivity.

Lemma processar_monitoramento_chaves cfg q env r :
  dom (fst (AppImproved.processar_monitoramento cfg q env r))
  ⊆@{gset string}
    list_to_set ["id"; "ultima_verificacao"; "status"; "falhas_consecutivas";
                 "ultimo_erro"; "carro_vendido"; "notificado_venda";
                 "notificado_prazo"].
Proof. unfold AppImproved.processar_monitoramento. chaves_cases. Qed.

Lemma app_processar_monitoramento_chaves cfg env r :
  dom (fst (App.processar_monitoramento cfg env r))
  ⊆@{gset string}
    list_to_set ["id"; "ultima_verificacao"; "status"; "notificado_expirado";
                 "falhas_consecutivas"; "carro_vendido"; "notificado_venda";
                 "notificado_prazo"; "ultima_notificacao_semanal"].
Proof. unfold App.processar_monitoramento. chaves_cases. Qed.

(** X8. What a worker can write, and what a run leaves alone, in both back
    ends. The dictionary a worker returns names its own row (['id'] is the
    id of the row it was given, so the UPDATE of step 7 reaches no other
    row) and, besides ['id'], only columns of the verification state: never
    [link_carro], [data_venda], [contato] or [tipo_notificacao]. Hence a
    run, whatever the world answers, neither adds nor removes nor reorders
    rows, and leaves the id, link, sale date, contact and notification type
    of every row as they were. *)
Theorem X8_run_keeps_rows :
  (forall (cfg : AppImproved.config) (q : bool) (env : AppImproved.item_env)
          (r : AppImproved.row),
      let updates := fst (AppImproved.processar_monitoramento cfg q env r) in
      updates !! "id" = Some (VInt (AppImproved.row_id r))
      /\ dom updates
         ⊆@{gset string}
           list_to_set ["id"; "ultima_verificacao"; "status"; "falhas_consecutivas";
                        "ultimo_erro"; "carro_vendido"; "notificado_venda";
                        "notificado_prazo"])
  /\ (forall (cfg : App.config) (env : App.item_env) (r : App.row),
        let updates := fst (App.processar_monitoramento cfg env r) in
        updates !! "id" = Some (VInt (App.row_id r))
        /\ dom updates
           ⊆@{gset string}
             list_to_set ["id"; "ultima_verificacao"; "status"; "notificado_expirado";
                          "falhas_consecutivas"; "carro_vendido"; "notificado_venda";
                          "notificado_prazo"; "ultima_notificacao_semanal"])
  /\ (forall (cfg : AppImproved.config) (env : AppImproved.cycle_env)
             (st : AppImproved.state),
        map (fun r => (AppImproved.row_id r, AppImproved.link_carro r,
                       AppImproved.data_venda r, AppImproved.contato r,
                       AppImproved.tipo_notificacao r))
            (AppImproved.tabela (fst (AppImproved.verificar_monitoramentos cfg env st)))
        = map (fun r => (AppImproved.row_id r, AppImproved.link_carro r,
                         AppImproved.data_venda r, AppImproved.contato r,
                         AppImproved.tipo_notificacao r)) (AppImproved.tabela st))
  /\ (forall (cfg : App.config) (envs : Z -> App.item_env) (db : list App.row),
        map (fun r => (App.row_id r, App.link_carro r, App.data_venda r,
                       App.contato r, App.tipo_notificacao r))
            (fst (App.verificar_monitoramentos cfg envs db))
        = map (fun r => (App.row_id r, App.link_carro r, App.data_venda r,
                         App.contato r, App.tipo_notificacao r)) db).
Proof.
  split; [|split; [|split]].
  - intros cfg q env r updates. subst updates.
    split; [apply processar_monitoramento_id | apply processar_monitoramento_chaves].
  - intros cfg env r updates. subst updates.
    split; [apply app_processar_monitoramento_id
           | apply app_processar_monitoramento_chaves].
  - intros cfg env st.
    assert (Hfold : forall us db,
      map (fun r => (AppImproved.row_id r, AppImproved.link_carro r,
                     AppImproved.data_venda r, AppImproved.contato r,
                     AppImproved.tipo_notificacao r))
          (foldl (fun db updates => AppImproved.executar_update updates db) db us)
      = map (fun r => (AppImproved.row_id r, AppImproved.link_carro r,
                       AppImproved.data_venda r, AppImproved.contato r,
                       AppImproved.tipo_notificacao r)) db).
    { induction us as [|u us IH]; intros db; simpl; [done|].
      by rewrite IH, executar_update_chaves. }
    unfold AppImproved.verificar_monitoramentos.
    destruct (AppImproved.verificar_conectividade_servidor (AppImproved.get env))
      as [[] tr1]; simpl; [|done].
    destruct (AppImproved.verificar_saude_kavak (AppImproved.get env))
      as [kavak tr2]. simpl.
    destruct (AppImproved.selecionar cfg (AppImproved.tabela st)) as [|m ms];
      [done|].
    destruct (AppImproved.atinge_limite cfg _); cbn [fst AppImproved.tabela];
      apply Hfold.
  - intros cfg envs db.
    assert (Hfold : forall us db0,
      map (fun r => (App.row_id r, App.link_carro r, App.data_venda r,
                     App.contato r, App.tipo_notificacao r))
          (foldl (fun db updates => App.executar_update updates db) db0 us)
      = map (fun r => (App.row_id r, App.link_carro r, App.data_venda r,
                       App.contato r, App.tipo_notificacao r)) db0).
    { induction us as [|u us IH]; intros db0; simpl; [done|].
      by rewrite IH, app_executar_update_chaves. }
    unfold App.verificar_monitoramentos.
    destruct (App.selecionar cfg db) as [|m ms]; [done|]. cbn [fst]. apply Hfold.
Qed.

(** ** The batch of step 4 *)

Section Lote.
Context {A : Type} (R : relation A) `{!RelDecision R} `{!Transitive R} `{!Total R}.
Context (P : A -> Prop) `{!forall x, Decision (P x)}.

Lemma lote_ordenado (n : Z) (db : list A) :
  let lote := sql_limit n (merge_sort R (filter P db)) in
  (forall r, r ∈ lote -> r ∈ db /\ P r)
  /\ length lote = (if n <? 0 then length (filter P db)
                    else Nat.min (Z.to_nat n) (length (filter P db)))
  /\ StronglySorted R lote
  /\ (forall r r', r ∈ lote -> r' ∈ db -> P r' -> r' ∉ lote -> R r r').
Proof.
  intros lote.
  pose proof (merge_sort_Permutation R (filter P db)) as Hperm.
  pose proof (StronglySorted_merge_sort R (filter P db)) as Hsort.
  assert (Hlen : length (merge_sort R (filter P db)) = length (filter P db))
    by (by rewrite Hperm).
  split; [|split; [|split]].
  - subst lote. intros r Hr.
    eapply elem_of_sublist in Hr; [|apply sql_limit_sublist].
    rewrite Hperm in Hr. by apply list_elem_of_filter in Hr as [? ?].
  - subst lote. unfold sql_limit. destruct (n <? 0); [done|].
    by rewrite length_take, Hlen.
  - subst lote. unfold sql_limit. destruct (n <? 0); [done|].
    rewrite <- (take_drop (Z.to_nat n) (merge_sort R (filter P db))) in Hsort.
    by apply StronglySorted_app_1_l in Hsort.
  - subst lote. unfold sql_limit. intros r r' Hr Hdb HP Hout.
    assert (Hin : r' ∈ merge_sort R (filter P db))
      by (rewrite Hperm; by apply list_elem_of_filter).
    destruct (n <? 0); [done|].
    rewrite <- (take_drop (Z.to_nat n) (merge_sort R (filter P db))) in Hsort, Hin.
    apply elem_of_app in Hin as [Hin|Hin]; [done|].
    by eapply StronglySorted_app_1_elem_of.
Qed.

End Lote.

Global Instance uv_le_trans : Transitive AppImproved.uv_le.
Proof.
  intros r1 r2 r3. unfold AppImproved.uv_le.
  destruct (AppImproved.ultima_verificacao r1), (AppImproved.ultima_verificacao r2),
    (AppImproved.ultima_verificacao r3); try done. lia.
Qed.

Global Instance uv_le_total : Total AppImproved.uv_le.
Proof.
  intros r1 r2. unfold AppImproved.uv_le.
  destruct (AppImproved.ultima_verificacao r1), (AppImproved.ultima_verificacao r2);
    try (by left); try (by right). lia.
Qed.

Global Instance app_uv_le_trans : Transitive App.uv_le.
Proof.
  intros r1 r2 r3. unfold App.uv_le.
  destruct (App.ultima_verificacao r1), (App.ultima_verificacao r2),
    (App.ultima_verificacao r3); try done. lia.
Qed.

Global Instance app_uv_le_total : Total App.uv_le.
Proof.
  intros r1 r2. unfold App.uv_le.
  destruct (App.ultima_verificacao r1), (App.ultima_verificacao r2);
    try (by left); try (by right). lia.
Qed.

(** X9. The batch a run works on (step 4, [SELECT ... WHERE status = 'ativo'
    ORDER BY ultima_verificacao ASC LIMIT BATCH_SIZE]), in both back ends:
    it holds only active rows of the table; it has [BATCH_SIZE] rows, or
    all the active rows when there are fewer or when [BATCH_SIZE] is
    negative; it is in ascending order of the last verification, rows
    never verified first; and it is fair: an active row that was left out
    was verified no earlier than every row of the batch. *)
Theorem X9_batch_oldest_first :
  (forall (cfg : AppImproved.config) (db : list AppImproved.row),
      let lote := AppImproved.selecionar cfg db in
      let ativos := filter (fun r => AppImproved.ativo r = true) db in
      (forall r, r ∈ lote -> r ∈ db /\ AppImproved.ativo r = true)
      /\ length lote
         = (if AppImproved.BATCH_SIZE cfg <? 0 then length ativos
            else Nat.min (Z.to_nat (AppImproved.BATCH_SIZE cfg)) (length ativos))
      /\ StronglySorted AppImproved.uv_le lote
      /\ (forall r r', r ∈ lote -> r' ∈ db -> AppImproved.ativo r' = true ->
                       r' ∉ lote -> AppImproved.uv_le r r'))
  /\ (forall (cfg : App.config) (db : list App.row),
        let lote := App.selecionar cfg db in
        let ativos := filter (fun r => App.ativo r = true) db in
        (forall r, r ∈ lote -> r ∈ db /\ App.ativo r = true)
        /\ length lote
           = (if App.BATCH_SIZE cfg <? 0 then length ativos
              else Nat.min (Z.to_nat (App.BATCH_SIZE cfg)) (length ativos))
        /\ StronglySorted App.uv_le lote
        /\ (forall r r', r ∈ lote -> r' ∈ db -> App.ativo r' = true ->
                         r' ∉ lote -> App.uv_le r r')).
Proof.
  split; intros cfg db.
  - apply (lote_ordenado AppImproved.uv_le (fun r => AppImproved.ativo r = true)).
  - apply (lote_ordenado App.uv_le (fun r => App.ativo r = true)).
Qed.

(** Four rows and [BATCH_SIZE = 2]: the row never verified and the oldest
    verified one are taken, the later one waits, the expired one is out. *)
Lemma X9_witness_batch_of_two :
  let cfg := {| AppImproved.BATCH_SIZE := 2; AppImproved.FALHAS_PARA_VENDA := 3;
                AppImproved.LIMITE_FALHAS_SISTEMICAS := 70;
                AppImproved.QUARENTENA_MINUTOS := 30;
                AppImproved.TELEGRAM_BOT_TOKEN := "123:abc" |} in
  let r := fun i st uv =>
    AppImproved.mkRow i "https://www.kavak.com/br/carro" (IsoDate 19730)
      "42" "telegram" st 0 0 0 uv 0 None in
  let r1 := r 1 "ativo" (Some (mkDatetime 19740 (10 * HOUR))) in
  let r2 := r 2 "ativo" (Some (mkDatetime 19740 (9 * HOUR))) in
  let r3 := r 3 "expirado" None in
  let r4 := r 4 "ativo" None in
  let db := [r1; r2; r3; r4] in
  AppImproved.selecionar cfg db = [r4; r2]
  /\ AppImproved.uv_le r2 r1
  /\ AppImproved.ativo r4 = true.
Proof.
  intros cfg r r1 r2 r3 r4 db.
  destruct (proj1 X9_batch_oldest_first cfg db) as (H1 & _ & _ & H4).
  split; [by vm_compute|]. split.
  - apply (H4 r2 r1); [vm_compute; right; left | left | reflexivity |].
    intros Hin. vm_compute in Hin.
    repeat (apply elem_of_cons in Hin as [Heq|Hin]; [discriminate|]).
    by apply elem_of_nil in Hin.
  - apply (H1 r4). vm_compute. left.
Defined.

(** ** [app.py]: a channel that cannot deliver *)

Section CanalMudoApp.
Import App.
Variable cfg : config.

Lemma envio_canal_mudo env r m :
  TELEGRAM_BOT_TOKEN cfg = "" \/ tipo_notificacao r <> "telegram" ->
  envio cfg env r m
  = (false, [EvNotificacao (tipo_notificacao r) (contato r) m false]).
Proof.
  unfold envio, enviar_notificacao, enviar_notificacao_telegram.
  intros [Htok|Htipo].
  - rewrite Htok. cbn [String.eqb]. by destruct (String.eqb _ "telegram").
  - apply String.eqb_neq in Htipo. by rewrite Htipo.
Qed.

Lemma ciclo_item_canal_mudo c r :
  TELEGRAM_BOT_TOKEN cfg = "" \/ tipo_notificacao r <> "telegram" ->
  (TELEGRAM_BOT_TOKEN cfg = "" \/
   tipo_notificacao (fst (ciclo_item cfg c r)) <> "telegram")
  /\ count_ev is_post (snd (ciclo_item cfg c r)) = 0%nat
  /\ (forall k, count_ev (is_delivered k) (snd (ciclo_item cfg c r)) = 0%nat)
  /\ notificado_venda (fst (ciclo_item cfg c r)) = notificado_venda r
  /\ notificado_prazo (fst (ciclo_item cfg c r)) = notificado_prazo r
  /\ notificado_expirado (fst (ciclo_item cfg c r)) = notificado_expirado r
  /\ ultima_notificacao_semanal (fst (ciclo_item cfg c r))
     = ultima_notificacao_semanal r.
Proof.
  intros Hmudo. rewrite app_ciclo_item_eq.
  destruct (ativo r && no_lote c); cbn [fst snd]; [|done].
  rewrite app_processar_monitoramento_row, app_processar_monitoramento_trace.
  unfold envio_venda, envio_prazo, envio_expirado, envio_semanal.
  rewrite !(envio_canal_mudo _ _ _ Hmudo).
  cbn [fst snd notificado_venda notificado_prazo notificado_expirado
       ultima_notificacao_semanal].
  rewrite !andb_false_r.
  split; [exact Hmudo|].
  split; [|split; [|done]].
  - destruct (expirou (mundo c) r).
    + by destruct (notifica_expirado (mundo c) r).
    + by destruct (notifica_venda (mundo c) r), (notifica_prazo (mundo c) r),
        (notifica_semanal (mundo c) r).
  - intros k. destruct (expirou (mundo c) r).
    + destruct (notifica_expirado (mundo c) r); [|done].
      rewrite count_ev_cons, count_ev_nil. cbn [is_delivered].
      by rewrite andb_false_r.
    + rewrite count_ev_cons, !count_ev_app. cbn [is_delivered].
      destruct (notifica_venda (mundo c) r), (notifica_prazo (mundo c) r),
        (notifica_semanal (mundo c) r);
        rewrite ?count_ev_cons, ?count_ev_nil; cbn [is_delivered];
        by rewrite ?andb_false_r.
Qed.

End CanalMudoApp.

(** X10. [app.py] confirms a notification only through Telegram: for a
    row whose type is not ["telegram"], or with [TELEGRAM_BOT_TOKEN]
    empty, over any number of cycles no POST is made, no notification of
    any kind is confirmed, and the three markers and the weekly stamp of
    the row stay as they were. *)
Theorem X10_app_only_telegram_confirms (cfg : App.config) (cs : list App.item_cycle)
    (r : App.row) :
  App.TELEGRAM_BOT_TOKEN cfg = "" \/ App.tipo_notificacao r <> "telegram" ->
  let res := App.ciclos_item cfg cs r in
  count_ev is_post (snd res) = 0%nat
  /\ (forall k, count_ev (is_delivered k) (snd res) = 0%nat)
  /\ App.notificado_venda (fst res) = App.notificado_venda r
  /\ App.notificado_prazo (fst res) = App.notificado_prazo r
  /\ App.notificado_expirado (fst res) = App.notificado_expirado r
  /\ App.ultima_notificacao_semanal (fst res) = App.ultima_notificacao_semanal r.
Proof.
  intros Hmudo.
  revert r Hmudo. induction cs as [|c cs IH]; intros r Hmudo res; subst res.
  - by cbn.
  - rewrite app_ciclos_item_cons. cbn [fst snd].
    destruct (ciclo_item_canal_mudo cfg c r Hmudo)
      as (Hmudo' & Hp & Hd & Hv & Hz & He & Hs).
    destruct (IH _ Hmudo') as (Hp' & Hd' & Hv' & Hz' & He' & Hs').
    rewrite count_ev_app, Hp, Hp', Hv', Hz', He', Hs'.
    split; [done|]. split; [|done].
    intros k. by rewrite count_ev_app, Hd, Hd'.
Qed.

Lemma X10_witness_whatsapp_row :
  let cfg := App.default_config in
  let r := {| App.row_id := 1; App.link_carro := "https://www.kavak.com/br/carro";
              App.data_venda := IsoDate 19730; App.contato := "5511999990000";
              App.tipo_notificacao := "whatsapp"; App.status := "ativo";
              App.carro_vendido := 0; App.notificado_venda := 0;
              App.notificado_prazo := 0; App.ultima_verificacao := None;
              App.falhas_consecutivas := 1; App.notificado_expirado := 0;
              App.ultima_notificacao_semanal := None |} in
  let c := {| App.no_lote := true;
              App.mundo := {| App.now := mkDatetime 19740 0;
                              App.probe := Response 404;
                              App.telegram := fun _ => Response 200 |} |} in
  let res := App.ciclos_item cfg [c] r in
  count_ev is_post (snd res) = 0%nat
  /\ (forall k, count_ev (is_delivered k) (snd res) = 0%nat)
  /\ App.notificado_venda (fst res) = App.notificado_venda r
  /\ App.notificado_prazo (fst res) = App.notificado_prazo r
  /\ App.notificado_expirado (fst res) = App.notificado_expirado r
  /\ App.ultima_notificacao_semanal (fst res) = App.ultima_notificacao_semanal r.
Proof.
  intros cfg r c. apply (X10_app_only_telegram_confirms cfg [c] r).
  right. discriminate.
Defined.

(** ** [app.py]: the rate limit of the creation endpoint *)

Lemma micros_of_micros (us : Z) : micros (of_micros us) = us.
Proof.
  unfold micros, of_micros. cbn [dt_date dt_tod].
  assert (DAY <> 0) by (unfold DAY; lia).
  pose proof (Z.div_mod us DAY). lia.
Qed.

Section RateLimit.
Import AppApi.
Variable ip : string.

Lemma micros_add_hours t n : micros (add_hours t n) = micros t + n * HOUR.
Proof. apply micros_of_micros. Qed.

Lemma chamadas_cons now ts tbl :
  chamadas ip (now :: ts) tbl =
    (fst (check_rate_limit now ip tbl)
       :: fst (chamadas ip ts (snd (check_rate_limit now ip tbl))),
     snd (chamadas ip ts (snd (check_rate_limit now ip tbl)))).
Proof.
  simpl. destruct (check_rate_limit now ip tbl) as [res tbl1]. simpl.
  by destruct (chamadas ip ts tbl1).
Qed.

(** A call that neither finds a block nor resets: the counter goes up. *)
Lemma check_rate_limit_incrementa now tbl row :
  tbl !! ip = Some row ->
  esta_bloqueado now row = false ->
  dt_sub now (ultima_tentativa row) <= HOUR ->
  check_rate_limit now ip tbl =
    if 20 <? tentativas row + 1 then
      ((false, MsgLimite),
       <[ip := mkRateRow (tentativas row + 1) now (Some (add_hours now 1))]> tbl)
    else
      ((true, MsgVazia),
       <[ip := mkRateRow (tentativas row + 1) now (bloqueado_ate row)]> tbl).
Proof.
  intros Hrow Hb Hgap. unfold check_rate_limit. rewrite Hrow, Hb.
  by rewrite (proj2 (Z.ltb_ge _ _) Hgap).
Qed.

Lemma rajada_ate_o_limite ts : forall tbl n t,
  tbl !! ip = Some (mkRateRow n t None) ->
  em_sequencia t ts ->
  n <= 20 ->
  n + Z.of_nat (length ts) = 21 ->
  fst (chamadas ip ts tbl)
    = replicate (Z.to_nat (20 - n)) (true, MsgVazia) ++ [(false, MsgLimite)]
  /\ snd (chamadas ip ts tbl) !! ip
     = Some (mkRateRow 21 (default t (last ts))
               (Some (add_hours (default t (last ts)) 1))).
Proof.
  induction ts as [|t' ts IH]; intros tbl n t Hrow Hseq Hn Hlen.
  - simpl in Hlen. lia.
  - destruct Hseq as [Hgap Hseq]. rewrite chamadas_cons. cbn [fst snd].
    rewrite (check_rate_limit_incrementa t' tbl _ Hrow eq_refl Hgap).
    cbn [tentativas bloqueado_ate].
    assert (Hlast : default t (last (t' :: ts)) = default t' (last ts)).
    { rewrite last_cons. by destruct (last ts). }
    rewrite Hlast.
    destruct (20 <? n + 1) eqn:Hlim.
    + apply Z.ltb_lt in Hlim. assert (n = 20) as -> by lia.
      destruct ts as [|? ?]; [|simpl in Hlen; lia].
      cbn. by rewrite lookup_insert_eq.
    + apply Z.ltb_ge in Hlim. cbn [fst snd].
      destruct (IH (<[ip := mkRateRow (n + 1) t' None]> tbl) (n + 1) t')
        as [Hres Hfim]; [by rewrite lookup_insert_eq | exact Hseq | lia | |].
      { simpl in Hlen. lia. }
      rewrite Hres, Hfim. split; [|done].
      replace (Z.to_nat (20 - n)) with (S (Z.to_nat (20 - (n + 1)))) by lia.
      reflexivity.
Qed.

Lemma rajada_permitida ts : forall tbl row,
  tbl !! ip = Some row ->
  em_sequencia (ultima_tentativa row) ts ->
  Forall (fun r => fst r = true) (fst (chamadas ip ts tbl)) ->
  ts = [] \/ tentativas row + Z.of_nat (length ts) <= 20.
Proof.
  induction ts as [|t' ts IH]; intros tbl row Hrow Hseq Hall; [by left|right].
  destruct Hseq as [Hgap Hseq]. rewrite chamadas_cons in Hall. cbn [fst] in Hall.
  apply Forall_cons in Hall as [Hok Hall].
  unfold check_rate_limit in Hok, Hall. rewrite Hrow in Hok, Hall.
  destruct (esta_bloqueado t' row); [discriminate|].
  rewrite (proj2 (Z.ltb_ge _ _) Hgap) in Hok, Hall.
  destruct (20 <? tentativas row + 1) eqn:Hlim; [discriminate|].
  apply Z.ltb_ge in Hlim. cbn [snd] in Hall.
  destruct (IH (<[ip := mkRateRow (tentativas row + 1) t' (bloqueado_ate row)]> tbl)
              (mkRateRow (tentativas row + 1) t' (bloqueado_ate row)))
    as [->|Hle]; [by rewrite lookup_insert_eq | exact Hseq | exact Hall | |].
  - simpl. lia.
  - cbn [tentativas] in Hle. simpl. lia.
Qed.

End RateLimit.

(** X11. The rate limit on an IP that has no row yet: of 21 requests,
    each at most one hour after the one before it, the first 20 are
    allowed and the 21st is refused with the message of the exceeded
    limit, and the IP is left with 21 attempts and blocked for one hour
    from the instant of that 21st request. *)
Theorem X11_rate_limit_burst (ip : string) (tbl : gmap string AppApi.rate_row)
    (t0 : datetime) (ts : list datetime) :
  tbl !! ip = None ->
  AppApi.em_sequencia t0 ts ->
  length ts = 20%nat ->
  let res := AppApi.chamadas ip (t0 :: ts) tbl in
  let ultimo := default t0 (last ts) in
  fst res = replicate 20 (true, AppApi.MsgVazia) ++ [(false, AppApi.MsgLimite)]
  /\ snd res !! ip
     = Some (AppApi.mkRateRow 21 ultimo (Some (AppApi.add_hours ultimo 1)))
  /\ micros (AppApi.add_hours ultimo 1) = micros ultimo + HOUR.
Proof.
  intros Hnovo Hseq Hlen res ultimo. subst res ultimo.
  assert (Hc : AppApi.check_rate_limit t0 ip tbl
               = ((true, AppApi.MsgVazia), <[ip := AppApi.mkRateRow 1 t0 None]> tbl))
    by (unfold AppApi.check_rate_limit; by rewrite Hnovo).
  rewrite chamadas_cons, Hc. cbn [fst snd].
  destruct (rajada_ate_o_limite ip ts
              (<[ip := AppApi.mkRateRow 1 t0 None]> tbl) 1 t0)
    as [Hres Hfim]; [by rewrite lookup_insert_eq | exact Hseq | lia | lia |].
  rewrite Hres, Hfim. split; [reflexivity|]. split; [reflexivity|].
  apply micros_add_hours.
Qed.

Lemma X11_witness_every_three_minutes :
  let ip := "203.0.113.7" in
  let t0 := mkDatetime 19740 0 in
  let ts := map (fun i => mkDatetime 19740 (Z.of_nat i * 3 * MINUTE)) (seq 1 20) in
  let res := AppApi.chamadas ip (t0 :: ts) ∅ in
  let ultimo := default t0 (last ts) in
  fst res = replicate 20 (true, AppApi.MsgVazia) ++ [(false, AppApi.MsgLimite)]
  /\ snd res !! ip
     = Some (AppApi.mkRateRow 21 ultimo (Some (AppApi.add_hours ultimo 1)))
  /\ micros (AppApi.add_hours ultimo 1) = micros ultimo + HOUR.
Proof.
  intros ip t0 ts.
  apply (X11_rate_limit_burst ip ∅ t0 ts).
  - apply lookup_empty.
  - subst t0 ts. cbn. unfold dt_sub, micros, HOUR, MINUTE, DAY. cbn. lia.
  - reflexivity.
Defined.

(** X12. The rate limit never allows 21 requests in a row of one IP when
    each comes at most one hour after the one before it, whatever row
    the IP had before (with a counter that is not negative, as every row
    the function writes): if all the requests of such a sequence are
    allowed, there are at most 20 of them. *)
Theorem X12_rate_limit_at_most_20 (ip : string) (tbl : gmap string AppApi.rate_row)
    (t0 : datetime) (ts : list datetime) :
  (forall row, tbl !! ip = Some row -> 0 <= AppApi.tentativas row) ->
  AppApi.em_sequencia t0 ts ->
  Forall (fun r => fst r = true) (fst (AppApi.chamadas ip (t0 :: ts) tbl)) ->
  (length (t0 :: ts) <= 20)%nat.
Proof.
  intros Hpos Hseq Hall. rewrite chamadas_cons in Hall. cbn [fst] in Hall.
  apply Forall_cons in Hall as [Hok Hall].
  assert (Hrow : exists row,
             snd (AppApi.check_rate_limit t0 ip tbl) !! ip = Some row
             /\ AppApi.ultima_tentativa row = t0 /\ 1 <= AppApi.tentativas row).
  { unfold AppApi.check_rate_limit in *.
    destruct (tbl !! ip) as [row|] eqn:Hrow.
    - specialize (Hpos row eq_refl).
      destruct (AppApi.esta_bloqueado t0 row); [discriminate|].
      destruct (HOUR <? _).
      + eexists. cbn [snd]. rewrite lookup_insert_eq.
        split; [reflexivity|]. split; [reflexivity|]. simpl. lia.
      + destruct (20 <? _); [discriminate|].
        eexists. cbn [snd]. rewrite lookup_insert_eq.
        split; [reflexivity|]. split; [reflexivity|]. simpl. lia.
    - eexists. cbn [snd]. rewrite lookup_insert_eq.
      split; [reflexivity|]. split; [reflexivity|]. simpl. lia. }
  destruct Hrow as (row & Hrow & Hult & Hcnt).
  rewrite <- Hult in Hseq.
  destruct (rajada_permitida ip ts _ row Hrow Hseq Hall) as [->|Hle].
  - simpl. lia.
  - simpl. lia.
Qed.

Lemma X12_witness_two_requests :
  (length [mkDatetime 19740 0; mkDatetime 19740 MINUTE] <= 20)%nat.
Proof.
  apply (X12_rate_limit_at_most_20 "203.0.113.7" ∅
           (mkDatetime 19740 0) [mkDatetime 19740 MINUTE]).
  - intros row Hrow. by rewrite lookup_empty in Hrow.
  - cbn. unfold dt_sub, micros, HOUR, MINUTE, DAY. cbn. lia.
  - by repeat constructor.
Defined.

Lemma check_rate_limit_limite (ip : string) (t : datetime)
    (tbl : gmap string AppApi.rate_row) :
  fst (AppApi.check_rate_limit t ip tbl) = (false, AppApi.MsgLimite) ->
  exists n, 20 < n
    /\ snd (AppApi.check_rate_limit t ip tbl)
       = <[ip := AppApi.mkRateRow n t (Some (AppApi.add_hours t 1))]> tbl.
Proof.
  unfold AppApi.check_rate_limit.
  destruct (tbl !! ip) as [row|]; [|discriminate].
  destruct (AppApi.esta_bloqueado t row); [discriminate|].
  destruct (HOUR <? _); [discriminate|].
  destruct (20 <? AppApi.tentativas row + 1) eqn:Hlim; [|discriminate].
  intros _. apply Z.ltb_lt in Hlim. by eexists.
Qed.

(** X13. The block of the rate limit. After a request at instant [t] was
    refused for exceeding the limit: every request of the IP before
    [t] + 1 hour is refused with the time that remains and writes nothing,
    however many there are; the first request after [t] + 1 hour is
    allowed and restarts the counter at 1; a request at [t] + 1 hour
    exactly is refused for exceeding the limit and blocks the IP for
    another hour. *)
Theorem X13_rate_limit_block (ip : string) (tbl : gmap string AppApi.rate_row)
    (t : datetime) :
  fst (AppApi.check_rate_limit t ip tbl) = (false, AppApi.MsgLimite) ->
  let tbl1 := snd (AppApi.check_rate_limit t ip tbl) in
  (forall ts, Forall (fun now => micros now < micros t + HOUR) ts ->
     AppApi.chamadas ip ts tbl1
     = (map (fun now => (false, AppApi.MsgBloqueado (micros t + HOUR - micros now))) ts,
        tbl1))
  /\ (forall now, micros t + HOUR < micros now ->
        fst (AppApi.check_rate_limit now ip tbl1) = (true, AppApi.MsgVazia)
        /\ snd (AppApi.check_rate_limit now ip tbl1) !! ip
           = Some (AppApi.mkRateRow 1 now (Some (AppApi.add_hours t 1))))
  /\ (forall now, micros now = micros t + HOUR ->
        fst (AppApi.check_rate_limit now ip tbl1) = (false, AppApi.MsgLimite)
        /\ AppApi.bloqueado_ate <$> snd (AppApi.check_rate_limit now ip tbl1) !! ip
           = Some (Some (AppApi.add_hours now 1))).
Proof.
  intros Hlim tbl1. subst tbl1.
  destruct (check_rate_limit_limite ip t tbl Hlim) as (n & Hn & ->).
  set (tbl1 := <[ip := _]> tbl).
  assert (Hrow : tbl1 !! ip
                 = Some (AppApi.mkRateRow n t (Some (AppApi.add_hours t 1))))
    by (subst tbl1; by rewrite lookup_insert_eq).
  clearbody tbl1.
  split; [|split].
  - induction ts as [|now ts IH]; intros Hts; [reflexivity|].
    apply Forall_cons in Hts as [Hnow Hts].
    assert (Hc : AppApi.check_rate_limit now ip tbl1
                 = ((false, AppApi.MsgBloqueado (micros t + HOUR - micros now)), tbl1)).
    { unfold AppApi.check_rate_limit. rewrite Hrow.
      unfold AppApi.esta_bloqueado, AppApi.restante, dt_ltb, dt_sub.
      cbn [AppApi.bloqueado_ate]. rewrite micros_add_hours.
      rewrite (proj2 (Z.ltb_lt _ _)) by lia.
      by replace (micros t + 1 * HOUR) with (micros t + HOUR) by lia. }
    rewrite chamadas_cons, Hc. cbn [fst snd]. by rewrite (IH Hts).
  - intros now Hnow. unfold AppApi.check_rate_limit. rewrite Hrow.
    unfold AppApi.esta_bloqueado, dt_ltb, dt_sub.
    cbn [AppApi.bloqueado_ate AppApi.ultima_tentativa].
    rewrite micros_add_hours.
    rewrite (proj2 (Z.ltb_ge _ _)) by lia.
    rewrite (proj2 (Z.ltb_lt _ _)) by lia.
    cbn [fst snd]. by rewrite lookup_insert_eq.
  - intros now Hnow. unfold AppApi.check_rate_limit. rewrite Hrow.
    unfold AppApi.esta_bloqueado, dt_ltb, dt_sub.
    cbn [AppApi.bloqueado_ate AppApi.ultima_tentativa AppApi.tentativas].
    rewrite micros_add_hours.
    rewrite (proj2 (Z.ltb_ge (micros now) _)) by lia.
    rewrite (proj2 (Z.ltb_ge HOUR _)) by lia.
    rewrite (proj2 (Z.ltb_lt 20 _)) by lia.
    cbn [fst snd]. by rewrite lookup_insert_eq.
Qed.

Lemma X13_witness_twenty_first :
  let ip := "203.0.113.7" in
  let t := mkDatetime 19740 0 in
  let tbl : gmap string AppApi.rate_row :=
    {[ ip := AppApi.mkRateRow 20 (mkDatetime 19739 (23 * HOUR + 30 * MINUTE)) None ]} in
  let tbl1 := snd (AppApi.check_rate_limit t ip tbl) in
  (forall ts, Forall (fun now => micros now < micros t + HOUR) ts ->
     AppApi.chamadas ip ts tbl1
     = (map (fun now => (false, AppApi.MsgBloqueado (micros t + HOUR - micros now))) ts,
        tbl1))
  /\ (forall now, micros t + HOUR < micros now ->
        fst (AppApi.check_rate_limit now ip tbl1) = (true, AppApi.MsgVazia)
        /\ snd (AppApi.check_rate_limit now ip tbl1) !! ip
           = Some (AppApi.mkRateRow 1 now (Some (AppApi.add_hours t 1))))
  /\ (forall now, micros now = micros t + HOUR ->
        fst (AppApi.check_rate_limit now ip tbl1) = (false, AppApi.MsgLimite)
        /\ AppApi.bloqueado_ate <$> snd (AppApi.check_rate_limit now ip tbl1) !! ip
           = Some (Some (AppApi.add_hours now 1))).
Proof.
  intros ip t tbl.
  apply (X13_rate_limit_block ip tbl t).
  subst ip t tbl. unfold AppApi.check_rate_limit.
  rewrite lookup_singleton_eq. reflexivity.
Defined.

(** X14. A call of the rate limit touches the row of its IP only: the
    rows of the other IPs are as before; the IP has a row afterwards;
    the request is allowed exactly when that row is not blocked at the
    instant of the call; and an allowed request leaves the instant of the
    call as the last attempt and a counter of at most 20. *)
Theorem X14_rate_limit_frame :
  forall (now : datetime) (ip : string) (tbl : gmap string AppApi.rate_row),
    let res := AppApi.check_rate_limit now ip tbl in
    (forall ip', ip' <> ip -> snd res !! ip' = tbl !! ip')
    /\ exists row,
         snd res !! ip = Some row
         /\ AppApi.esta_bloqueado now row = negb (fst (fst res))
         /\ (fst (fst res) = true ->
             AppApi.ultima_tentativa row = now /\ AppApi.tentativas row <= 20).
Proof.
  intros now ip tbl res. subst res. unfold AppApi.check_rate_limit.
  destruct (tbl !! ip) as [row|] eqn:Hrow.
  - destruct (AppApi.esta_bloqueado now row) eqn:Hb.
    { cbn [fst snd]. split; [done|]. exists row. by rewrite Hb. }
    destruct (HOUR <? _).
    { cbn [fst snd]. split; [by intros ip' Hne; rewrite lookup_insert_ne|].
      eexists. rewrite lookup_insert_eq. split; [reflexivity|].
      split; [exact Hb|]. intros _. cbn. split; [done|lia]. }
    destruct (20 <? AppApi.tentativas row + 1) eqn:Hlim.
    + cbn [fst snd]. split; [by intros ip' Hne; rewrite lookup_insert_ne|].
      eexists. rewrite lookup_insert_eq. split; [reflexivity|].
      split; [|done].
      unfold AppApi.esta_bloqueado, dt_ltb. cbn [AppApi.bloqueado_ate negb].
      rewrite micros_add_hours. apply Z.ltb_lt. unfold HOUR. lia.
    + apply Z.ltb_ge in Hlim.
      cbn [fst snd]. split; [by intros ip' Hne; rewrite lookup_insert_ne|].
      eexists. rewrite lookup_insert_eq. split; [reflexivity|].
      split; [exact Hb|]. intros _. cbn. split; [done|lia].
  - cbn [fst snd]. split; [by intros ip' Hne; rewrite lookup_insert_ne|].
    eexists. rewrite lookup_insert_eq. split; [reflexivity|].
    split; [done|]. intros _. cbn. split; [done|lia].
Qed.

Lemma X14_witness_other_ip_untouched :
  let now := mkDatetime 19740 0 in
  let tbl : gmap string AppApi.rate_row :=
    {[ "198.51.100.9" := AppApi.mkRateRow 20 (mkDatetime 19739 (23 * HOUR + 30 * MINUTE)) None ]} in
  let res := AppApi.check_rate_limit now "203.0.113.7" tbl in
  snd res !! "198.51.100.9" = tbl !! "198.51.100.9"
  /\ exists row,
       snd res !! "203.0.113.7" = Some row
       /\ AppApi.esta_bloqueado now row = negb (fst (fst res))
       /\ AppApi.ultima_tentativa row = now /\ AppApi.tentativas row <= 20.
Proof.
  intros now tbl res.
  destruct (X14_rate_limit_frame now "203.0.113.7" tbl) as (Hframe & row & Hrow & Hb & Hok).
  split; [by apply Hframe|].
  exists row. split; [exact Hrow|]. split; [exact Hb|].
  apply Hok. reflexivity.
Defined.

(** ** [app.py]: the pages of [GET /api/monitoramentos] *)

Lemma paginas_concat {A} (n : nat) : forall (k : nat) (l : list A),
  (0 < n)%nat -> (length l <= k * n)%nat ->
  concat (map (fun i => take n (drop (i * n) l)) (seq 0 k)) = l.
Proof.
  induction k as [|k IH]; intros l Hn Hlen.
  - simpl in *. destruct l; [done | simpl in Hlen; lia].
  - cbn [seq map concat]. rewrite <- fmap_S_seq.
    change (map ?f (S <$> ?l)) with (map f (map S l)). rewrite map_map.
    rewrite (map_ext _ (fun i => take n (drop (i * n) (drop n l)))).
    2:{ intros i. rewrite drop_drop. do 2 f_equal; simpl; lia. }
    rewrite IH; [|done|rewrite length_drop; lia].
    simpl. rewrite drop_0. apply take_drop.
Qed.

Lemma filtrar_length status (db : list App.row) :
  (length (AppApi.filtrar status db) <= length db)%nat.
Proof.
  unfold AppApi.filtrar. destruct status as [s|]; [|done].
  destruct (String.eqb s ""); [done|]. apply length_filter.
Qed.

Section Paginas.
Import AppApi.
Variables (agora : Z -> datetime) (db : list App.row) (per_page : Z)
  (status : option string).
Hypothesis Hpp : 0 < per_page <= INT64_MAX.

Lemma listar_monitoramentos_overflow page :
  sqlite_int ((page - 1) * per_page) = false ->
  listar_monitoramentos agora db page per_page status = inl OverflowError.
Proof.
  intros Hoff. unfold listar_monitoramentos. rewrite Hoff.
  by rewrite andb_false_r.
Qed.

Lemma listar_monitoramentos_linhas page :
  sqlite_int ((page - 1) * per_page) = true ->
  exists pg,
    listar_monitoramentos agora db page per_page status = inr pg
    /\ map fst (monitoramentos pg)
       = take (Z.to_nat per_page)
           (drop (Z.to_nat ((page - 1) * per_page)) (filtrar status db))
    /\ pg_total pg = Z.of_nat (length (filtrar status db))
    /\ total_pages pg
       = (Z.of_nat (length (filtrar status db)) + per_page - 1) / per_page.
Proof.
  intros Hoff. unfold listar_monitoramentos. rewrite Hoff.
  assert (Hfit : sqlite_int per_page = true).
  { unfold sqlite_int. apply andb_true_iff.
    split; apply Z.leb_le; unfold INT64_MAX in *; lia. }
  rewrite Hfit. cbn [andb negb].
  rewrite (proj2 (Z.eqb_neq per_page 0)) by lia.
  eexists. split; [reflexivity|]. cbn [monitoramentos pg_total total_pages].
  split; [|done].
  rewrite map_map. cbn [fst]. rewrite map_id.
  unfold sql_limit_offset, sql_limit.
  by rewrite (proj2 (Z.ltb_ge per_page 0)) by lia.
Qed.

End Paginas.

(** X15. The pages of the listing, for a [per_page] that is positive and
    a 64-bit value, over the rows the filter selects (fewer than 2^63), in
    the order of the query. A request whose offset [(page - 1) * per_page]
    is not a 64-bit value fails with [OverflowError]; every other request
    answers with the number of those rows as [total], its ceiling division
    by [per_page] as [total_pages], and at most [per_page] rows: the first
    page for a page number of 1 or below, no row for a page after the
    last. The pages 1 to [total_pages] never overflow; put one after the
    other they are exactly those rows, each once; the pages before the
    last are full and the last one is not empty. *)
Theorem X15_pagination (agora : Z -> datetime) (db : list App.row) (per_page : Z)
    (status : option string) :
  0 < per_page <= AppApi.INT64_MAX ->
  Z.of_nat (length db) <= AppApi.INT64_MAX ->
  let rows := AppApi.filtrar status db in
  let total := Z.of_nat (length rows) in
  let tp := (total + per_page - 1) / per_page in
  let resposta := fun page =>
    AppApi.listar_monitoramentos agora db page per_page status in
  let linhas := fun page =>
    match resposta page with
    | inr pg => map fst (AppApi.monitoramentos pg)
    | inl _ => []
    end in
  (forall page, AppApi.sqlite_int ((page - 1) * per_page) = false ->
      resposta page = inl AppApi.OverflowError)
  /\ (forall page, AppApi.sqlite_int ((page - 1) * per_page) = true ->
        exists pg,
          resposta page = inr pg
          /\ AppApi.pg_total pg = total /\ AppApi.total_pages pg = tp
          /\ (length (AppApi.monitoramentos pg) <= Z.to_nat per_page)%nat
          /\ (page <= 1 ->
              map fst (AppApi.monitoramentos pg) = take (Z.to_nat per_page) rows)
          /\ (tp < page -> AppApi.monitoramentos pg = []))
  /\ (0 <= tp /\ (tp - 1) * per_page < total <= tp * per_page)
  /\ (forall page, 1 <= page <= tp ->
        AppApi.sqlite_int ((page - 1) * per_page) = true)
  /\ concat (map (fun p => linhas (Z.of_nat p)) (seq 1 (Z.to_nat tp))) = rows
  /\ (forall page, 1 <= page < tp -> length (linhas page) = Z.to_nat per_page)
  /\ (0 < tp -> linhas tp <> []).
Proof.
  intros Hpp Hdb rows total tp resposta linhas.
  assert (Htot : 0 <= total <= AppApi.INT64_MAX).
  { subst total rows. pose proof (filtrar_length status db). lia. }
  assert (Htp : 0 <= tp /\ (tp - 1) * per_page < total <= tp * per_page).
  { subst tp.
    pose proof (Z.div_mod (total + per_page - 1) per_page ltac:(lia)) as Hdm.
    pose proof (Z.mod_pos_bound (total + per_page - 1) per_page ltac:(lia)) as Hmod.
    split; [apply Z.div_pos; lia | nia]. }
  destruct Htp as (Htp0 & Htp1 & Htp2).
  assert (Hfit : forall page, 1 <= page <= tp ->
             AppApi.sqlite_int ((page - 1) * per_page) = true).
  { intros page Hpage. unfold AppApi.sqlite_int. apply andb_true_iff.
    assert (0 <= (page - 1) * per_page) by nia.
    assert ((page - 1) * per_page <= (tp - 1) * per_page) by nia.
    split; apply Z.leb_le; unfold AppApi.INT64_MAX in *; lia. }
  assert (Hlin : forall page,
             AppApi.sqlite_int ((page - 1) * per_page) = true ->
             linhas page
             = take (Z.to_nat per_page)
                 (drop (Z.to_nat ((page - 1) * per_page)) rows)).
  { intros page Hoff. subst linhas resposta. cbv beta.
    destruct (listar_monitoramentos_linhas agora db per_page status Hpp page Hoff)
      as (pg & -> & Hl & _). exact Hl. }
  assert (Hlen : length rows = Z.to_nat total) by (subst total; lia).
  split; [|split; [|split; [done|split; [exact Hfit|split; [|split]]]]].
  - intros page Hoff. by apply listar_monitoramentos_overflow.
  - intros page Hoff.
    destruct (listar_monitoramentos_linhas agora db per_page status Hpp page Hoff)
      as (pg & Hpg & Hl & Ht & Htps).
    exists pg. split; [done|]. split; [done|]. split; [done|].
    split; [|split].
    + rewrite <- (length_map fst), Hl, length_take. lia.
    + intros Hpage. rewrite Hl.
      replace (Z.to_nat ((page - 1) * per_page)) with 0%nat; [by rewrite drop_0|].
      assert ((page - 1) * per_page <= 0) by nia. lia.
    + intros Hpage. apply (f_equal length) in Hl.
      rewrite length_map, length_take, length_drop in Hl.
      fold rows in Hl. rewrite Hlen in Hl.
      assert (total <= (page - 1) * per_page) by nia.
      apply length_zero_iff_nil. lia.
  - rewrite <- fmap_S_seq.
    change (map ?f (S <$> ?l)) with (map f (map S l)). rewrite map_map.
    rewrite (map_ext_in _ (fun i => take (Z.to_nat per_page)
                                      (drop (i * Z.to_nat per_page) rows))).
    2:{ intros i Hi%in_seq. rewrite Hlin by (apply Hfit; lia). do 2 f_equal.
        replace (Z.of_nat (S i) - 1) with (Z.of_nat i) by lia.
        rewrite Z2Nat.inj_mul by lia. by rewrite Nat2Z.id. }
    apply paginas_concat; [lia|].
    rewrite Hlen, <- Z2Nat.inj_mul by lia. apply Z2Nat.inj_le; lia.
  - intros page Hpage. rewrite Hlin by (apply Hfit; lia).
    rewrite length_take, length_drop, Hlen.
    assert ((page - 1) * per_page + per_page <= total) by nia.
    assert (0 <= (page - 1) * per_page) by nia.
    lia.
  - intros Hpos Hnil. apply (f_equal length) in Hnil.
    rewrite Hlin in Hnil by (apply Hfit; lia).
    rewrite length_take, length_drop, Hlen in Hnil. simpl in Hnil.
    assert (0 <= (tp - 1) * per_page) by nia.
    lia.
Qed.

Lemma X15_witness_three_rows_two_per_page :
  let r := fun i st =>
    {| App.row_id := i; App.link_carro := "https://www.kavak.com/br/carro";
       App.data_venda := IsoDate 19730; App.contato := "42";
       App.tipo_notificacao := "telegram"; App.status := st;
       App.carro_vendido := 0; App.notificado_venda := 0;
       App.notificado_prazo := 0; App.ultima_verificacao := None;
       App.falhas_consecutivas := 0; App.notificado_expirado := 0;
       App.ultima_notificacao_semanal := None |} in
  let db := [r 4 "ativo"; r 3 "expirado"; r 2 "ativo"; r 1 "ativo"] in
  let agora := fun _ : Z => mkDatetime 19740 0 in
  let rows := AppApi.filtrar (Some "ativo") db in
  let total := Z.of_nat (length rows) in
  let tp := (total + 2 - 1) / 2 in
  let resposta := fun page =>
    AppApi.listar_monitoramentos agora db page 2 (Some "ativo") in
  let linhas := fun page =>
    match resposta page with
    | inr pg => map fst (AppApi.monitoramentos pg)
    | inl _ => []
    end in
  (forall page, AppApi.sqlite_int ((page - 1) * 2) = false ->
      resposta page = inl AppApi.OverflowError)
  /\ (forall page, AppApi.sqlite_int ((page - 1) * 2) = true ->
        exists pg,
          resposta page = inr pg
          /\ AppApi.pg_total pg = total /\ AppApi.total_pages pg = tp
          /\ (length (AppApi.monitoramentos pg) <= Z.to_nat 2)%nat
          /\ (page <= 1 ->
              map fst (AppApi.monitoramentos pg) = take (Z.to_nat 2) rows)
          /\ (tp < page -> AppApi.monitoramentos pg = []))
  /\ (0 <= tp /\ (tp - 1) * 2 < total <= tp * 2)
  /\ (forall page, 1 <= page <= tp ->
        AppApi.sqlite_int ((page - 1) * 2) = true)
  /\ concat (map (fun p => linhas (Z.of_nat p)) (seq 1 (Z.to_nat tp))) = rows
  /\ (forall page, 1 <= page < tp -> length (linhas page) = Z.to_nat 2)
  /\ (0 < tp -> linhas tp <> []).
Proof.
  intros r db agora.
  apply (X15_pagination agora db 2 (Some "ativo")).
  - unfold AppApi.INT64_MAX. lia.
  - subst db. cbn. unfold AppApi.INT64_MAX. lia.
Defined.

(** ** [app.py]: the counts of [GET /api/stats] across a run *)

Lemma count_where_cons p r l :
  AppApi.count_where p (r :: l)
  = (if p r then 1 else 0) + AppApi.count_where p l.
Proof.
  unfold AppApi.count_where. rewrite filter_cons.
  destruct (p r); case_decide; simpl; try congruence; lia.
Qed.

Lemma count_where_map_le (p q : App.row -> bool) (f : App.row -> App.row) l :
  (forall r, p r = true -> q (f r) = true) ->
  AppApi.count_where p l <= AppApi.count_where q (map f l).
Proof.
  intros Hpq. induction l as [|r l IH]; [done|].
  cbn [map]. rewrite !count_where_cons.
  specialize (Hpq r).
  destruct (p r), (q (f r)); first [lia | by specialize (Hpq eq_refl)].
Qed.

Lemma count_where_map_sum (p q : App.row -> bool) (f : App.row -> App.row) l :
  (forall r, (if p (f r) then 1 else 0) + (if q (f r) then 1 else 0)
             = (if p r then 1 else 0) + (if q r then 1 else 0)) ->
  AppApi.count_where p (map f l) + AppApi.count_where q (map f l)
  = AppApi.count_where p l + AppApi.count_where q l.
Proof.
  intros Hpq. induction l as [|r l IH]; [done|].
  cbn [map]. rewrite !count_where_cons. specialize (Hpq r). lia.
Qed.

Lemma app_ciclo_item_status cfg c r :
  App.status (fst (App.ciclo_item cfg c r)) = App.status r
  \/ (App.status r = "ativo"
      /\ App.status (fst (App.ciclo_item cfg c r)) = "expirado").
Proof.
  rewrite app_ciclo_item_eq. destruct (App.ativo r) eqn:Ha; [|by left].
  destruct (App.no_lote c); cbn [andb fst]; [|by left].
  rewrite app_processar_monitoramento_row. cbn [App.status].
  destruct (App.expirou (App.mundo c) r); [right|by left].
  split; [|done]. by apply String.eqb_eq.
Qed.

Lemma app_ciclo_item_vendido cfg c r :
  App.carro_vendido r = 1 ->
  App.carro_vendido (fst (App.ciclo_item cfg c r)) = 1.
Proof.
  intros Hv. rewrite app_ciclo_item_eq.
  destruct (App.ativo r && App.no_lote c); cbn [fst]; [|done].
  rewrite app_processar_monitoramento_row. cbn [App.carro_vendido].
  by destruct (App.marca_vendido (App.mundo c) r).
Qed.

(** X16. The counts of [GET /api/stats] before and after a run of the
    scheduled task of [app.py] on a table with unique ids: [total] (active
    plus expired) is the same, the active rows that are gone are exactly
    the rows that became expired, and neither the expired nor the sold
    count goes down. *)
Theorem X16_stats_across_run (cfg : App.config) (envs : Z -> App.item_env)
    (db : list App.row) :
  NoDup (map App.row_id db) ->
  let s := AppApi.get_stats db in
  let s' := AppApi.get_stats (fst (App.verificar_monitoramentos cfg envs db)) in
  AppApi.total s' = AppApi.total s
  /\ AppApi.ativos s - AppApi.ativos s' = AppApi.expirados s' - AppApi.expirados s
  /\ AppApi.expirados s <= AppApi.expirados s'
  /\ AppApi.vendidos s <= AppApi.vendidos s'.
Proof.
  intros Hnd s s'. subst s s'.
  rewrite (app_verificar_monitoramentos_ciclo_item cfg envs db Hnd).
  set (f := fun r => fst (App.ciclo_item cfg _ r)).
  unfold AppApi.get_stats.
  cbn [AppApi.total AppApi.ativos AppApi.expirados AppApi.vendidos].
  assert (Hsum :
    AppApi.count_where (fun r => String.eqb (App.status r) "ativo") (map f db)
    + AppApi.count_where (fun r => String.eqb (App.status r) "expirado") (map f db)
    = AppApi.count_where (fun r => String.eqb (App.status r) "ativo") db
      + AppApi.count_where (fun r => String.eqb (App.status r) "expirado") db).
  { apply count_where_map_sum. intros r. subst f. cbv beta.
    destruct (app_ciclo_item_status cfg
                (App.mkItemCycle
                   (bool_decide (App.row_id r ∈ map App.row_id (App.selecionar cfg db)))
                   (envs (App.row_id r))) r) as [->|[-> ->]]; done. }
  assert (Hexp :
    AppApi.count_where (fun r => String.eqb (App.status r) "expirado") db
    <= AppApi.count_where (fun r => String.eqb (App.status r) "expirado") (map f db)).
  { apply count_where_map_le. intros r Hr. subst f. cbv beta.
    destruct (app_ciclo_item_status cfg
                (App.mkItemCycle
                   (bool_decide (App.row_id r ∈ map App.row_id (App.selecionar cfg db)))
                   (envs (App.row_id r))) r) as [->|[Ha _]]; [done|].
    rewrite Ha in Hr. discriminate. }
  assert (Hven :
    AppApi.count_where (fun r => App.carro_vendido r =? 1) db
    <= AppApi.count_where (fun r => App.carro_vendido r =? 1) (map f db)).
  { apply count_where_map_le. intros r Hr%Z.eqb_eq. subst f. cbv beta.
    apply Z.eqb_eq. by apply app_ciclo_item_vendido. }
  lia.
Qed.

Lemma X16_witness_one_expires :
  let r := fun i dv =>
    {| App.row_id := i; App.link_carro := "https://www.kavak.com/br/carro";
       App.data_venda := IsoDate dv; App.contato := "42";
       App.tipo_notificacao := "telegram"; App.status := "ativo";
       App.carro_vendido := 0; App.notificado_venda := 0;
       App.notificado_prazo := 0; App.ultima_verificacao := None;
       App.falhas_consecutivas := 0; App.notificado_expirado := 0;
       App.ultima_notificacao_semanal := None |} in
  let db := [r 1 19690; r 2 19730] in
  let envs := fun _ : Z =>
    {| App.now := mkDatetime 19740 0; App.probe := Response 200;
       App.telegram := fun _ => Response 200 |} in
  let s := AppApi.get_stats db in
  let s' := AppApi.get_stats
              (fst (App.verificar_monitoramentos App.default_config envs db)) in
  AppApi.total s' = AppApi.total s
  /\ AppApi.ativos s - AppApi.ativos s' = AppApi.expirados s' - AppApi.expirados s
  /\ AppApi.expirados s <= AppApi.expirados s'
  /\ AppApi.vendidos s <= AppApi.vendidos s'.
Proof.
  intros r db envs.
  apply (X16_stats_across_run App.default_config envs db).
  apply (bool_decide_unpack _). vm_compute. reflexivity.
Defined.

(** ** What a worker sends, and to whom *)

Lemma enviar_notificacao_eventos cfg post tipo contato m e :
  e ∈ snd (AppImproved.enviar_notificacao cfg post tipo contato m) ->
  e = EvTelegramPost contato m \/ exists ok, e = EvNotificacao tipo contato m ok.
Proof.
  unfold AppImproved.enviar_notificacao, AppImproved.enviar_notificacao_telegram,
    AppImproved.enviar_notificacao_whatsapp.
  destruct (String.eqb tipo "telegram");
    [destruct (String.eqb (AppImproved.TELEGRAM_BOT_TOKEN cfg) "");
       [|destruct (post m)]
    |destruct (String.eqb tipo "whatsapp")];
    cbn [fst snd app]; intros He;
    repeat (apply elem_of_cons in He as [->|He]; [eauto|]);
    by apply elem_of_nil in He.
Qed.

Lemma app_enviar_notificacao_eventos cfg post tipo contato m e :
  e ∈ snd (App.enviar_notificacao cfg post tipo contato m) ->
  e = EvTelegramPost contato m \/ exists ok, e = EvNotificacao tipo contato m ok.
Proof.
  unfold App.enviar_notificacao, App.enviar_notificacao_telegram.
  destruct (String.eqb tipo "telegram");
    [destruct (String.eqb (App.TELEGRAM_BOT_TOKEN cfg) "");
       [|destruct (post m)]|];
    cbn [fst snd app]; intros He;
    repeat (apply elem_of_cons in He as [->|He]; [eauto|]);
    by apply elem_of_nil in He.
Qed.

(** X17. What a worker of [app.py] does to the outside world concerns its
    own row only: it probes the link of the row, and it notifies the
    contact of the row on the channel of the row. A sale message (the text
    of [app.py], which shows no failure count) is sent only in a call whose
    probe failed and brought the counter to 2 or more, and it shows the
    days remaining of the row, a positive number; a deadline alert shows 1
    to 5 days; and, for a clock with a time of day within the day, the days
    since the sale and the days remaining of a weekly message add up to
    45, with days remaining. *)
Theorem X17_app_worker_events (cfg : App.config) (env : App.item_env) (r : App.row)
    (e : event) :
  0 <= dt_tod (App.now env) < DAY ->
  e ∈ snd (App.processar_monitoramento cfg env r) ->
  match e with
  | EvVerificarLink link => link = App.link_carro r
  | EvTelegramPost chat_id m =>
      chat_id = App.contato r /\ App.tipo_notificacao r = "telegram"
  | EvNotificacao tipo contato m ok =>
      tipo = App.tipo_notificacao r /\ contato = App.contato r
      /\ match m with
         | MsgVendaApp dias =>
             dias = App.dias_restantes env r /\ 0 < dias
             /\ App.link_offline env = true /\ 2 <= App.falhas_consecutivas r + 1
         | MsgVenda _ _ => False
         | MsgPrazo dias => 1 <= dias <= 5
         | MsgExpirado => True
         | MsgSemanal desde restam => desde + restam = 45 /\ 0 < restam
         end
  | _ => False
  end.
Proof.
  intros Htod He.
  rewrite app_processar_monitoramento_trace in He.
  assert (Hpost : forall m chat_id m',
             EvTelegramPost chat_id m' ∈ snd (App.envio cfg env r m) ->
             chat_id = App.contato r /\ App.tipo_notificacao r = "telegram").
  { intros m chat_id m'. unfold App.envio, App.enviar_notificacao,
      App.enviar_notificacao_telegram.
    destruct (String.eqb (App.tipo_notificacao r) "telegram") eqn:Htipo.
    - apply String.eqb_eq in Htipo.
      destruct (String.eqb (App.TELEGRAM_BOT_TOKEN cfg) "");
        [|destruct (App.telegram env m)]; cbn [fst snd app]; intros Hin;
        repeat (apply elem_of_cons in Hin as [Heq|Hin];
                [by (injection Heq as -> ->) || discriminate|]);
        by apply elem_of_nil in Hin.
    - cbn [fst snd app]. intros Hin.
      apply elem_of_cons in Hin as [Heq|Hin]; [discriminate|].
      by apply elem_of_nil in Hin. }
  assert (Hev : forall m,
             e ∈ snd (App.envio cfg env r m) ->
             (exists chat_id m', e = EvTelegramPost chat_id m'
                /\ chat_id = App.contato r /\ App.tipo_notificacao r = "telegram")
             \/ exists ok,
                  e = EvNotificacao (App.tipo_notificacao r) (App.contato r) m ok).
  { intros m Hin.
    destruct (app_enviar_notificacao_eventos _ _ _ _ _ _ Hin) as [->|[ok ->]].
    - left. exists (App.contato r), m. split; [done|]. by apply (Hpost m _ m).
    - right. by exists ok. }
  destruct (App.expirou env r) eqn:Hexp.
  - destruct (App.notifica_expirado env r); [|by apply elem_of_nil in He].
    destruct (Hev _ He) as [(c & m' & -> & Hc & Ht)|[ok ->]]; done.
  - apply elem_of_cons in He as [->|He]; [done|].
    unfold App.expirou in Hexp. apply Z.leb_gt in Hexp.
    apply elem_of_app in He as [He|He]; [|apply elem_of_app in He as [He|He]].
    + destruct (App.notifica_venda env r) eqn:Hv; [|by apply elem_of_nil in He].
      destruct (Hev _ He) as [(c & m' & -> & Hc & Ht)|[ok ->]]; [done|].
      split; [done|]. split; [done|].
      unfold App.notifica_venda, App.marca_vendido in Hv.
      apply andb_true_iff in Hv as [Hv _].
      apply andb_true_iff in Hv as [Hv _].
      apply andb_true_iff in Hv as [Hoff Hv]. apply Z.leb_le in Hv.
      apply andb_true_iff in Hoff as [_ Hoff].
      split; [done|]. split; [done|]. split; [done|]. done.
    + destruct (App.notifica_prazo env r) eqn:Hp; [|by apply elem_of_nil in He].
      destruct (Hev _ He) as [(c & m' & -> & Hc & Ht)|[ok ->]]; [done|].
      split; [done|]. split; [done|].
      unfold App.notifica_prazo in Hp.
      apply andb_true_iff in Hp as [Hp _].
      apply andb_true_iff in Hp as [Hp H0].
      apply andb_true_iff in Hp as [_ H5].
      apply Z.leb_le in H5. apply Z.ltb_lt in H0. lia.
    + destruct (App.notifica_semanal env r) eqn:Hs; [|by apply elem_of_nil in He].
      destruct (Hev _ He) as [(c & m' & -> & Hc & Ht)|[ok ->]]; [done|].
      split; [done|]. split; [done|].
      split; [|done].
      revert Hexp. unfold App.dias_desde_venda, App.dias_restantes, App.data_venda_dt.
      rewrite app_calcular_dias_restantes_calendar. cbn [fst].
      unfold timedelta_days, dt_sub, micros, replace_midnight. cbn [dt_date dt_tod].
      intros Hexp.
      assert (Hd : dt_date (if contains_T (App.data_venda r)
                            then fromisoformat (split_T_0 (App.data_venda r))
                            else fromisoformat (App.data_venda r))
                   = dt_date (fromisoformat (App.data_venda r)))
        by (by destruct (App.data_venda r)).
      rewrite Hd.
      set (dv := dt_date (fromisoformat (App.data_venda r))) in *.
      set (hoje := dt_date (App.now env)) in *.
      replace (hoje * DAY + dt_tod (App.now env) - (dv * DAY + 0))
        with (dt_tod (App.now env) + (hoje - dv) * DAY) by lia.
      rewrite Z.div_add by (unfold DAY; lia).
      rewrite Z.div_small by lia. lia.
Qed.

Lemma X17_witness_sale_message :
  let r := {| App.row_id := 1; App.link_carro := "https://www.kavak.com/br/carro";
              App.data_venda := IsoDate 19730; App.contato := "42";
              App.tipo_notificacao := "telegram"; App.status := "ativo";
              App.carro_vendido := 0; App.notificado_venda := 0;
              App.notificado_prazo := 0; App.ultima_verificacao := None;
              App.falhas_consecutivas := 1; App.notificado_expirado := 0;
              App.ultima_notificacao_semanal := None |} in
  let env := {| App.now := mkDatetime 19740 (10 * HOUR); App.probe := Response 404;
                App.telegram := fun _ => Response 200 |} in
  "telegram" = App.tipo_notificacao r /\ "42" = App.contato r
  /\ 35 = App.dias_restantes env r /\ 0 < 35
  /\ App.link_offline env = true /\ 2 <= App.falhas_consecutivas r + 1.
Proof.
  intros r env.
  apply (X17_app_worker_events App.default_config env
           r (EvNotificacao "telegram" "42" (MsgVendaApp 35) true)).
  - cbn. unfold DAY, HOUR. lia.
  - vm_compute. do 2 right. left.
Defined.

(** X18. What a worker of [app_improved.py] does to the outside world
    concerns its own row only, and it sends two kinds of message, never
    the expiry or the weekly one: a sale message (its own text, which
    shows the failure count), outside quarantine only,
    with the new failure count, at least [FALHAS_PARA_VENDA], and a number
    of days that is not negative; a deadline alert with 1 to 5 days. A
    POST to Telegram is made only for a row of type ["telegram"]. *)
Theorem X18_improved_worker_events (cfg : AppImproved.config) (q : bool)
    (env : AppImproved.item_env) (r : AppImproved.row) (e : event) :
  e ∈ snd (AppImproved.processar_monitoramento cfg q env r) ->
  match e with
  | EvVerificarLink link => link = AppImproved.link_carro r
  | EvTelegramPost chat_id m =>
      chat_id = AppImproved.contato r /\ AppImproved.tipo_notificacao r = "telegram"
  | EvNotificacao tipo contato m ok =>
      tipo = AppImproved.tipo_notificacao r /\ contato = AppImproved.contato r
      /\ match m with
         | MsgVenda dias falhas =>
             q = false
             /\ falhas = AppImproved.falhas_consecutivas r + 1
             /\ AppImproved.FALHAS_PARA_VENDA cfg <= falhas /\ 0 <= dias
         | MsgPrazo dias => 1 <= dias <= 5
         | MsgVendaApp _ | MsgExpirado | MsgSemanal _ _ => False
         end
  | _ => False
  end.
Proof.
  intros He.
  rewrite processar_monitoramento_trace in He.
  assert (Hpost : forall m chat_id m',
             EvTelegramPost chat_id m'
               ∈ snd (AppImproved.enviar_notificacao cfg (AppImproved.telegram env)
                        (AppImproved.tipo_notificacao r) (AppImproved.contato r) m) ->
             chat_id = AppImproved.contato r
             /\ AppImproved.tipo_notificacao r = "telegram").
  { intros m chat_id m'. unfold AppImproved.enviar_notificacao,
      AppImproved.enviar_notificacao_telegram, AppImproved.enviar_notificacao_whatsapp.
    destruct (String.eqb (AppImproved.tipo_notificacao r) "telegram") eqn:Htipo.
    - apply String.eqb_eq in Htipo.
      destruct (String.eqb (AppImproved.TELEGRAM_BOT_TOKEN cfg) "");
        [|destruct (AppImproved.telegram env m)]; cbn [fst snd app]; intros Hin;
        repeat (apply elem_of_cons in Hin as [Heq|Hin];
                [by (injection Heq as -> ->) || discriminate|]);
        by apply elem_of_nil in Hin.
    - destruct (String.eqb (AppImproved.tipo_notificacao r) "whatsapp");
        cbn [fst snd app]; intros Hin;
        (apply elem_of_cons in Hin as [Heq|Hin]; [discriminate|]);
        by apply elem_of_nil in Hin. }
  assert (Hev : forall m,
             e ∈ snd (AppImproved.enviar_notificacao cfg (AppImproved.telegram env)
                        (AppImproved.tipo_notificacao r) (AppImproved.contato r) m) ->
             (exists chat_id m', e = EvTelegramPost chat_id m'
                /\ chat_id = AppImproved.contato r
                /\ AppImproved.tipo_notificacao r = "telegram")
             \/ exists ok,
                  e = EvNotificacao (AppImproved.tipo_notificacao r)
                        (AppImproved.contato r) m ok).
  { intros m Hin.
    destruct (enviar_notificacao_eventos _ _ _ _ _ _ Hin) as [->|[ok ->]].
    - left. exists (AppImproved.contato r), m. split; [done|]. by apply (Hpost m _ m).
    - right. by exists ok. }
  destruct (AppImproved.expirou env r) eqn:Hexp; [by apply elem_of_nil in He|].
  apply elem_of_cons in He as [->|He]; [done|].
  unfold AppImproved.expirou in Hexp. apply Z.ltb_ge in Hexp.
  apply elem_of_app in He as [He|He].
  - destruct (AppImproved.notifica_venda cfg q env r) eqn:Hv;
      [|by apply elem_of_nil in He].
    unfold AppImproved.envio_venda in He.
    destruct (Hev _ He) as [(c & m' & -> & Hc & Ht)|[ok ->]]; [done|].
    split; [done|]. split; [done|].
    unfold AppImproved.notifica_venda, AppImproved.marca_vendido,
      AppImproved.falhas_suficientes in Hv.
    apply andb_true_iff in Hv as [Hv _].
    apply andb_true_iff in Hv as [Hv Hq].
    apply andb_true_iff in Hv as [Hv _].
    apply andb_true_iff in Hv as [_ Hf]. apply Z.leb_le in Hf.
    pose proof (falhas_necessarias_bounds cfg
                  (snd (AppImproved.verificar_link (AppImproved.probe env)))).
    split; [by destruct q|]. split; [done|]. split; [lia|done].
  - destruct (AppImproved.notifica_prazo env r) eqn:Hp;
      [|by apply elem_of_nil in He].
    unfold AppImproved.envio_prazo in He.
    destruct (Hev _ He) as [(c & m' & -> & Hc & Ht)|[ok ->]]; [done|].
    split; [done|]. split; [done|].
    unfold AppImproved.notifica_prazo in Hp.
    apply andb_true_iff in Hp as [Hp _].
    apply andb_true_iff in Hp as [Hp H0].
    apply andb_true_iff in Hp as [_ H5].
    apply Z.leb_le in H5. apply Z.ltb_lt in H0. lia.
Qed.

Lemma X18_witness_deadline_alert :
  let r := AppImproved.mkRow 1 "https://www.kavak.com/br/carro-1" (IsoDate 19730)
             "42" "telegram" "ativo" 0 0 0 None 0 None in
  "telegram" = AppImproved.tipo_notificacao r /\ "42" = AppImproved.contato r
  /\ 1 <= 4 <= 5.
Proof.
  intros r.
  apply (X18_improved_worker_events AppImproved.default_config false
           {| AppImproved.now := mkDatetime 19771 0;
              AppImproved.probe := Response 200;
              AppImproved.telegram := fun _ => Response 200 |}
           r (EvNotificacao "telegram" "42" (MsgPrazo 4) true)).
  vm_compute. do 2 right. left.
Defined.
